(** * Menu Master browser client: a shallow embedding and its properties

    The client is three scripts: [auth.js] (token store, session inspector,
    navigation guard, auth gateway), [app.js] (onboarding conversation) and
    [menu.js] (menu viewer).  The scripts are JavaScript, so the embedding
    starts with the fragment of the language runtime they rely on:
    strings as sequences of UTF-16 code units, dynamically typed values
    with their coercions, [JSON.parse], [atob] and [decodeURIComponent].

    Numbers are modelled as exact rationals extended with NaN and the two
    infinities: a finite number stands for the double nearest to it.  A
    numeric literal whose nearest double is zero is read as zero, so
    that the truth value of a number is the one the code sees; the
    rounding of the mantissa and the overflow of IEEE-754 doubles are
    not modelled, and the statements about comparisons of numbers are
    made for whole numbers that doubles hold exactly. *)

From Stdlib Require Import ZArith NArith QArith Qcanon List Ascii String Bool Lia.
From stdpp Require Import gmap.

Local Open Scope N_scope.

(** ** Strings *)

Module JsString.

(** A JavaScript string is a sequence of 16-bit code units. *)
Definition jsstring := list N.

Definition ch (a : ascii) : N := N_of_ascii a.
Arguments ch a%_char.

(** An ASCII literal of the source. *)
Definition js (s : string) : jsstring := map N_of_ascii (list_ascii_of_string s).

(** [s.split(sep)] for a one-character separator: never empty. *)
Fixpoint split (sep : N) (s : jsstring) : list jsstring :=
  match s with
  | [] => [[]]
  | c :: s' =>
      if c =? sep then [] :: split sep s'
      else match split sep s' with
           | seg :: segs => (c :: seg) :: segs
           | [] => [[c]]
           end
  end.

(** [s.replace(/c/g, d)] for single characters [c] and [d]. *)
Definition replace_all (c d : N) (s : jsstring) : jsstring :=
  map (fun x => if x =? c then d else x) s.

(** WhiteSpace and LineTerminator of ECMAScript, the characters removed
    by [trim] and skipped around numeric strings. *)
Definition is_white_space (c : N) : bool :=
  (c =? 9) || (c =? 10) || (c =? 11) || (c =? 12) || (c =? 13) || (c =? 32)
  || (c =? 160) || (c =? 5760) || ((8192 <=? c) && (c <=? 8202))
  || (c =? 8232) || (c =? 8233) || (c =? 8239) || (c =? 8287)
  || (c =? 12288) || (c =? 65279).

Fixpoint trim_start (s : jsstring) : jsstring :=
  match s with
  | c :: s' => if is_white_space c then trim_start s' else s
  | [] => []
  end.

Definition trim (s : jsstring) : jsstring :=
  rev (trim_start (rev (trim_start s))).

Fixpoint starts_with (p s : jsstring) : bool :=
  match p, s with
  | [], _ => true
  | a :: p', b :: s' => (a =? b) && starts_with p' s'
  | _ :: _, [] => false
  end.

(** [s.includes(t)] *)
Fixpoint includes (s t : jsstring) : bool :=
  starts_with t s ||
  match s with
  | [] => false
  | _ :: s' => includes s' t
  end.

Fixpoint strip_prefix (p s : jsstring) : option jsstring :=
  match p, s with
  | [], _ => Some s
  | a :: p', b :: s' => if a =? b then strip_prefix p' s' else None
  | _ :: _, [] => None
  end.

(** [s.slice(-2)] *)
Definition slice_last2 (s : jsstring) : jsstring :=
  skipn (length s - 2)%nat s.

Definition hex_digit (d : N) : N := if d <? 10 then 48 + d else 87 + d.

Fixpoint to_hex_aux (fuel : nat) (n : N) : jsstring :=
  match fuel with
  | O => []
  | S f => if n <? 16 then [hex_digit n]
           else to_hex_aux f (n / 16) ++ [hex_digit (n mod 16)]
  end.

(** [n.toString(16)] for a non-negative integer. *)
Definition toString16 (n : N) : jsstring := to_hex_aux (S (N.to_nat (N.size n))) n.

Definition is_digit (c : N) : bool := (48 <=? c) && (c <=? 57).

Definition hex_value (c : N) : option N :=
  if is_digit c then Some (c - 48)
  else if (97 <=? c) && (c <=? 102) then Some (c - 87)
  else if (65 <=? c) && (c <=? 70) then Some (c - 55)
  else None.

(** Decimal numeral of a natural number (array indices as property keys). *)
Fixpoint to_dec_aux (fuel : nat) (n : N) : jsstring :=
  match fuel with
  | O => []
  | S f => if n <? 10 then [48 + n]
           else to_dec_aux f (n / 10) ++ [48 + n mod 10]
  end.

Definition toString10 (n : N) : jsstring := to_dec_aux (S (N.to_nat (N.size n))) n.

End JsString.
Export JsString.

(** ** Values, exceptions and coercions *)

Module JsValue.

Inductive number :=
| NaN
| Infinity (negative : bool)
| Fin (q : Q).

#[warnings="-register-all"]
Inductive value :=
| VUndefined
| VNull
| VBool (b : bool)
| VNum (n : number)
| VStr (s : jsstring)
| VArr (elems : list value)
| VObj (props : list (jsstring * value)).

(** Exceptions.  Only [Error] objects created by the program carry a
    message the program chose; the messages of the built-in errors are
    implementation-defined and left out. *)
Inductive exn :=
| Error (message : jsstring)
| TypeError
| SyntaxError
| URIError
| InvalidCharacterError.

Inductive result (A : Type) :=
| Return (a : A)
| Throw (e : exn).
Arguments Return {A} a.
Arguments Throw {A} e.

Definition bind {A B} (m : result A) (k : A -> result B) : result B :=
  match m with
  | Return a => k a
  | Throw e => Throw e
  end.

Definition Qltb (a b : Q) : bool := (Qnum a * QDen b <? Qnum b * QDen a)%Z.
Definition Qzerob (a : Q) : bool := (Qnum a =? 0)%Z.

(** ToBoolean *)
Definition truthy (v : value) : bool :=
  match v with
  | VUndefined | VNull => false
  | VBool b => b
  | VNum NaN => false
  | VNum (Infinity _) => true
  | VNum (Fin q) => negb (Qzerob q)
  | VStr s => match s with [] => false | _ => true end
  | VArr _ | VObj _ => true
  end.

(** [a || b] *)
Definition or_else (a b : value) : value := if truthy a then a else b.

(** An object is represented by the sequence of property definitions
    that built it: a later definition of a key overrides an earlier one. *)
Fixpoint find_prop (k : jsstring) (props : list (jsstring * value)) : option value :=
  match props with
  | [] => None
  | (k', v) :: rest =>
      match find_prop k rest with
      | Some w => Some w
      | None => if bool_decide (k' = k) then Some v else None
      end
  end.

Definition lookup_prop (k : jsstring) (props : list (jsstring * value)) : value :=
  match find_prop k props with
  | Some v => v
  | None => VUndefined
  end.

(** [v.k] for the property names the scripts use.  None of them is an
    array index or ["length"], and none is found on [Object.prototype],
    [Array.prototype], [Number.prototype] or [Boolean.prototype], so on
    an array, a number or a boolean the access yields [undefined]; on
    [null] and [undefined] it throws.  On a string the access yields
    [undefined] too, which is what the code does for every name but
    [sub], a method of [String.prototype]: the scripts read [sub] from
    the payload of a token, which is an object whenever the token
    passes the expiry check. *)
Definition get (v : value) (k : jsstring) : result value :=
  match v with
  | VUndefined | VNull => Throw TypeError
  | VObj props => Return (lookup_prop k props)
  | _ => Return VUndefined
  end.

(** ToString.  The conversion of an object calls its [toString] method.
    The objects of the scripts come from [JSON.parse] and from object
    literals without methods, so no own property is callable: an object
    with an own property [toString] has no string form, and the
    conversion throws a TypeError; every other object inherits
    [Object.prototype.toString].  An array is joined from the string
    forms of its elements, and has a string form when they have. *)
Definition own_property (k : jsstring) (props : list (jsstring * value)) : bool :=
  match find_prop k props with
  | Some _ => true
  | None => false
  end.

Fixpoint coercible (v : value) : bool :=
  match v with
  | VArr l => forallb coercible l
  | VObj props => negb (own_property (js "toString") props)
  | _ => true
  end.

(** The numeral of a finite number is the runtime's [Number::toString]
    of the double nearest to it, kept as a parameter. *)
Section ToString.
Variable NumberToString : Q -> jsstring.

Definition number_to_string (n : number) : jsstring :=
  match n with
  | NaN => js "NaN"
  | Infinity false => js "Infinity"
  | Infinity true => js "-Infinity"
  | Fin q => NumberToString q
  end.

(** The string form of a value that has one. *)
Fixpoint string_form (v : value) : jsstring :=
  match v with
  | VUndefined => js "undefined"
  | VNull => js "null"
  | VBool true => js "true"
  | VBool false => js "false"
  | VNum n => number_to_string n
  | VStr s => s
  | VArr l =>
      (fix join (l : list value) : jsstring :=
         match l with
         | [] => []
         | x :: rest =>
             let sx := match x with
                       | VUndefined | VNull => []
                       | _ => string_form x
                       end in
             match rest with
             | [] => sx
             | _ :: _ => sx ++ ch "," :: join rest
             end
         end) l
  | VObj _ => js "[object Object]"
  end.

Definition ToString (v : value) : result jsstring :=
  if coercible v then Return (string_form v) else Throw TypeError.
End ToString.

(** The check a template literal or a DOM text property makes of a
    value it converts, where the embedding keeps the value itself. *)
Definition interpolate (v : value) : result unit :=
  if coercible v then Return tt else Throw TypeError.

(** [l.map(f)] *)
Fixpoint map_result {A B} (f : A -> result B) (l : list A) : result (list B) :=
  match l with
  | [] => Return []
  | x :: l' =>
      bind (f x) (fun y => bind (map_result f l') (fun r => Return (y :: r)))
  end.

(** [try { return m } catch (e) { return h e }] in a function that
    cannot throw. *)
Definition catch_to {A} (m : result A) (h : exn -> A) : A :=
  match m with
  | Return a => a
  | Throw e => h e
  end.

End JsValue.
Export JsValue.

(** ** Numbers: numeric literals, ToNumber, [*] and [<] *)

Module JsNumber.

Fixpoint span_digits (s : jsstring) : list N * jsstring :=
  match s with
  | c :: s' =>
      if is_digit c then
        let '(ds, r) := span_digits s' in (c - 48 :: ds, r)
      else ([], s)
  | [] => ([], [])
  end.

Definition digits_value (base : N) (ds : list N) : N :=
  fold_left (fun acc d => acc * base + d) ds 0.

Definition pow10 (e : Z) : Q :=
  if (0 <=? e)%Z then inject_Z (10 ^ e) else (1 # Z.to_pos (10 ^ (- e)))%Q.

(** A magnitude of at most 2^-1075, half of the least positive double:
    the nearest double is zero. *)
Definition rounds_to_zero (q : Q) : bool :=
  (Z.abs (Qnum q) * 2 ^ 1075 <=? Z.pos (Qden q))%Z.

(** The value of the decimal literal [±int.frac e exp]. *)
Definition decimal (neg : bool) (int_ds frac_ds : list N) (e : Z) : Q :=
  let m := Z.of_N (digits_value 10 (int_ds ++ frac_ds)) in
  let e' := (e - Z.of_nat (length frac_ds))%Z in
  let q := Qred (inject_Z (if neg then - m else m) * pow10 e')%Q in
  if rounds_to_zero q then 0%Q else q.

(** ExponentPart, optional: [None] when an [e] is not followed by digits. *)
Definition parse_exponent (s : jsstring) : option (Z * jsstring) :=
  match s with
  | c :: r =>
      if (c =? ch "e") || (c =? ch "E") then
        let '(neg, r1) :=
          match r with
          | sg :: r' =>
              if sg =? ch "-" then (true, r')
              else if sg =? ch "+" then (false, r')
              else (false, r)
          | [] => (false, r)
          end in
        let '(ds, r2) := span_digits r1 in
        match ds with
        | [] => None
        | _ => let e := Z.of_N (digits_value 10 ds) in
               Some (if neg then (- e)%Z else e, r2)
        end
      else Some (0%Z, s)
  | [] => Some (0%Z, [])
  end.

Fixpoint radix_digits (base : N) (s : jsstring) : option (list N) :=
  match s with
  | [] => Some []
  | c :: s' =>
      match hex_value c with
      | Some d =>
          if d <? base then
            match radix_digits base s' with
            | Some ds => Some (d :: ds)
            | None => None
            end
          else None
      | None => None
      end
  end.

(** NonDecimalIntegerLiteral: [Some] when the string has a radix prefix. *)
Definition non_decimal (t : jsstring) : option number :=
  match t with
  | z :: x :: body =>
      if z =? ch "0" then
        let base :=
          if (x =? ch "x") || (x =? ch "X") then Some 16
          else if (x =? ch "o") || (x =? ch "O") then Some 8
          else if (x =? ch "b") || (x =? ch "B") then Some 2
          else None in
        match base with
        | Some b =>
            match body, radix_digits b body with
            | _ :: _, Some ds => Some (Fin (inject_Z (Z.of_N (digits_value b ds))))
            | _, _ => Some NaN
            end
        | None => None
        end
      else None
  | _ => None
  end.

(** StringToNumber: the numeric value of a string, [NaN] when it is not
    a StringNumericLiteral. *)
Definition StringToNumber (s : jsstring) : number :=
  let t := trim s in
  match t with
  | [] => Fin 0
  | c :: r =>
      match non_decimal t with
      | Some n => n
      | None =>
          let '(neg, u) :=
            if c =? ch "-" then (true, r)
            else if c =? ch "+" then (false, r)
            else (false, t) in
          if bool_decide (u = js "Infinity") then Infinity neg
          else
            let '(ids, r1) := span_digits u in
            let '(fds, r2) :=
              match r1 with
              | d :: r' => if d =? ch "." then span_digits r' else ([], r1)
              | [] => ([], r1)
              end in
            match ids, fds with
            | [], [] => NaN
            | _, _ =>
                match parse_exponent r2 with
                | Some (e, []) => Fin (decimal neg ids fds e)
                | _ => NaN
                end
            end
      end
  end.

(** ToNumber.  An array is converted through its string form, the join
    of its elements' string forms with a comma: no element gives the empty string, one
    element gives that element's string form (the empty string for
    [null] and [undefined]; for a number, the numeral that reads back as
    the same number), and two or more give a string with a comma.  An
    object or array without a string form makes the conversion throw;
    the function gives [NaN] there, and its one caller, the expiry check,
    answers [false] to both. *)
Fixpoint ToNumber (v : value) : number :=
  match v with
  | VUndefined => NaN
  | VNull => Fin 0
  | VBool b => Fin (if b then 1 else 0)
  | VNum n => n
  | VStr s => StringToNumber s
  | VArr [] => Fin 0
  | VArr [x] =>
      match x with
      | VUndefined | VNull => Fin 0
      | VBool _ => NaN
      | VNum n => n
      | VStr s => StringToNumber s
      | VArr _ => ToNumber x
      | VObj _ => NaN
      end
  | VArr (_ :: _ :: _) => NaN
  | VObj _ => NaN
  end.

Definition Qsign_neg (q : Q) : bool := (Qnum q <? 0)%Z.

(** [a * b] on numbers *)
Definition mul (a b : number) : number :=
  match a, b with
  | NaN, _ | _, NaN => NaN
  | Infinity s, Infinity t => Infinity (xorb s t)
  | Infinity s, Fin q | Fin q, Infinity s =>
      if Qzerob q then NaN else Infinity (xorb s (Qsign_neg q))
  | Fin p, Fin q => Fin (p * q)
  end.

(** [a < b] on numbers *)
Definition lt (a b : number) : bool :=
  match a, b with
  | NaN, _ | _, NaN => false
  | Infinity s, Infinity t => s && negb t
  | Infinity s, Fin _ => s
  | Fin _, Infinity t => negb t
  | Fin p, Fin q => Qltb p q
  end.

Definition of_Z (z : Z) : number := Fin (inject_Z z).

End JsNumber.
Export JsNumber.

(** ** [JSON.parse] *)

Module Json.

Definition is_json_ws (c : N) : bool :=
  (c =? 9) || (c =? 10) || (c =? 13) || (c =? 32).

Fixpoint skip_ws (s : jsstring) : jsstring :=
  match s with
  | c :: s' => if is_json_ws c then skip_ws s' else s
  | [] => []
  end.

Definition unescape (e : N) : option N :=
  if e =? 34 then Some 34            (* escaped double quote *)
  else if e =? 92 then Some 92       (* escaped backslash *)
  else if e =? 47 then Some 47       (* escaped solidus *)
  else if e =? ch "b" then Some 8
  else if e =? ch "f" then Some 12
  else if e =? ch "n" then Some 10
  else if e =? ch "r" then Some 13
  else if e =? ch "t" then Some 9
  else None.

Definition hex4 (a b c d : N) : option N :=
  match hex_value a, hex_value b, hex_value c, hex_value d with
  | Some x, Some y, Some z, Some w => Some (((x * 16 + y) * 16 + z) * 16 + w)
  | _, _, _, _ => None
  end.

Definition cons_char (c : N) (r : option (jsstring * jsstring)) :=
  match r with
  | Some (str, rest) => Some (c :: str, rest)
  | None => None
  end.

(** The characters of a string literal after its opening quote, up to
    and including the closing quote. *)
Fixpoint parse_chars (s : jsstring) : option (jsstring * jsstring) :=
  match s with
  | [] => None
  | c :: r =>
      if c =? 34 then Some ([], r)
      else if c =? 92 then
        match r with
        | e :: r1 =>
            if e =? ch "u" then
              match r1 with
              | h1 :: h2 :: h3 :: h4 :: r2 =>
                  match hex4 h1 h2 h3 h4 with
                  | Some u => cons_char u (parse_chars r2)
                  | None => None
                  end
              | _ => None
              end
            else
              match unescape e with
              | Some u => cons_char u (parse_chars r1)
              | None => None
              end
        | [] => None
        end
      else if c <? 32 then None
      else cons_char c (parse_chars r)
  end.

Definition parse_number (s : jsstring) : option (Q * jsstring) :=
  let '(neg, s1) :=
    match s with
    | c :: r => if c =? ch "-" then (true, r) else (false, s)
    | [] => (false, s)
    end in
  let '(ids, s2) :=
    match s1 with
    | c :: r => if c =? ch "0" then ([0], r) else span_digits s1
    | [] => ([], s1)
    end in
  match ids with
  | [] => None
  | _ =>
      let frac :=
        match s2 with
        | d :: r =>
            if d =? ch "." then
              match span_digits r with
              | ([], _) => None
              | (fds, r') => Some (fds, r')
              end
            else Some ([], s2)
        | [] => Some ([], s2)
        end in
      match frac with
      | None => None
      | Some (fds, s3) =>
          match parse_exponent s3 with
          | Some (e, s4) => Some (decimal neg ids fds e, s4)
          | None => None
          end
      end
  end.

Inductive presult (A : Type) :=
| POk (a : A) (rest : jsstring)
| PErr
| PFuel.
Arguments POk {A} a rest.
Arguments PErr {A}.
Arguments PFuel {A}.

Definition parse_scalar (s : jsstring) : presult value :=
  match strip_prefix (js "true") s with
  | Some r => POk (VBool true) r
  | None =>
  match strip_prefix (js "false") s with
  | Some r => POk (VBool false) r
  | None =>
  match strip_prefix (js "null") s with
  | Some r => POk VNull r
  | None =>
  match parse_number s with
  | Some (q, r) => POk (VNum (Fin q)) r
  | None => PErr
  end end end end.

Fixpoint parse_value (fuel : nat) (s : jsstring) : presult value :=
  match fuel with
  | O => PFuel
  | S f =>
      match skip_ws s with
      | [] => PErr
      | c :: r =>
          if c =? ch "{" then
            match skip_ws r with
            | c' :: r' =>
                if c' =? ch "}" then POk (VObj []) r'
                else match parse_members f (c' :: r') with
                     | POk ms r'' => POk (VObj ms) r''
                     | PErr => PErr
                     | PFuel => PFuel
                     end
            | [] => PErr
            end
          else if c =? ch "[" then
            match skip_ws r with
            | c' :: r' =>
                if c' =? ch "]" then POk (VArr []) r'
                else match parse_elements f (c' :: r') with
                     | POk vs r'' => POk (VArr vs) r''
                     | PErr => PErr
                     | PFuel => PFuel
                     end
            | [] => PErr
            end
          else if c =? 34 then
            match parse_chars r with
            | Some (str, r') => POk (VStr str) r'
            | None => PErr
            end
          else parse_scalar (c :: r)
      end
  end

with parse_elements (fuel : nat) (s : jsstring) : presult (list value) :=
  match fuel with
  | O => PFuel
  | S f =>
      match parse_value f s with
      | POk v r =>
          match skip_ws r with
          | c :: r' =>
              if c =? ch "," then
                match parse_elements f r' with
                | POk vs r'' => POk (v :: vs) r''
                | PErr => PErr
                | PFuel => PFuel
                end
              else if c =? ch "]" then POk [v] r'
              else PErr
          | [] => PErr
          end
      | PErr => PErr
      | PFuel => PFuel
      end
  end

with parse_members (fuel : nat) (s : jsstring) : presult (list (jsstring * value)) :=
  match fuel with
  | O => PFuel
  | S f =>
      match skip_ws s with
      | q :: r0 =>
          if q =? 34 then
            match parse_chars r0 with
            | Some (k, r1) =>
                match skip_ws r1 with
                | c1 :: r2 =>
                    if c1 =? ch ":" then
                      match parse_value f r2 with
                      | POk v r3 =>
                          match skip_ws r3 with
                          | c3 :: r4 =>
                              if c3 =? ch "," then
                                match parse_members f r4 with
                                | POk ms r5 => POk ((k, v) :: ms) r5
                                | PErr => PErr
                                | PFuel => PFuel
                                end
                              else if c3 =? ch "}" then POk [(k, v)] r4
                              else PErr
                          | [] => PErr
                          end
                      | PErr => PErr
                      | PFuel => PFuel
                      end
                    else PErr
                | [] => PErr
                end
            | None => PErr
            end
          else PErr
      | [] => PErr
      end
  end.

(** [JSON.parse(text)]: one value surrounded by optional white space. *)
Definition JSON_parse (text : jsstring) : result value :=
  match parse_value (S (length text)) text with
  | POk v r =>
      match skip_ws r with
      | [] => Return v
      | _ :: _ => Throw SyntaxError
      end
  | PErr | PFuel => Throw SyntaxError
  end.

End Json.
Export Json.

(** ** Browser functions: [atob] and [decodeURIComponent] *)

Module WebApi.

Definition is_ascii_whitespace (c : N) : bool :=
  (c =? 9) || (c =? 10) || (c =? 12) || (c =? 13) || (c =? 32).

Definition base64_value (c : N) : option N :=
  if (65 <=? c) && (c <=? 90) then Some (c - 65)
  else if (97 <=? c) && (c <=? 122) then Some (c - 71)
  else if (48 <=? c) && (c <=? 57) then Some (c + 4)
  else if c =? 43 then Some 62
  else if c =? 47 then Some 63
  else None.

(** When the length is a multiple of four, one or two trailing [=] are
    removed. *)
Definition strip_padding (s : jsstring) : jsstring :=
  if (length s mod 4 =? 0)%nat then
    match rev s with
    | a :: b :: r =>
        if a =? 61 then (if b =? 61 then rev r else rev (b :: r)) else s
    | _ => s
    end
  else s.

Fixpoint sextets (s : jsstring) : option (list N) :=
  match s with
  | [] => Some []
  | c :: s' =>
      match base64_value c, sextets s' with
      | Some v, Some vs => Some (v :: vs)
      | _, _ => None
      end
  end.

(** Four sextets give three bytes; a final group of two gives one byte
    and a final group of three gives two, the left-over bits dropped. *)
Fixpoint decode_sextets (l : list N) : list N :=
  match l with
  | a :: b :: c :: d :: rest =>
      let n := ((a * 64 + b) * 64 + c) * 64 + d in
      n / 65536 :: (n / 256) mod 256 :: n mod 256 :: decode_sextets rest
  | [a; b; c] =>
      let n := ((a * 64 + b) * 64 + c) / 4 in
      [n / 256; n mod 256]
  | [a; b] => [(a * 64 + b) / 16]
  | _ => []
  end.

(** [atob(data)]: the forgiving-base64 decode of the HTML standard; the
    result is a string of code units below 256. *)
Definition atob (data : jsstring) : result jsstring :=
  let d := strip_padding (List.filter (fun c => negb (is_ascii_whitespace c)) data) in
  if (length d mod 4 =? 1)%nat then Throw InvalidCharacterError
  else match sextets d with
       | Some l => Return (decode_sextets l)
       | None => Throw InvalidCharacterError
       end.

Definition parse_hex_octet (s : jsstring) : option (N * jsstring) :=
  match s with
  | a :: b :: r =>
      match hex_value a, hex_value b with
      | Some x, Some y => Some (16 * x + y, r)
      | _, _ => None
      end
  | _ => None
  end.

(** Number of leading one bits of an octet (5 stands for five or more). *)
Definition leading_ones (b : N) : nat :=
  if b <? 128 then 0
  else if b <? 192 then 1
  else if b <? 224 then 2
  else if b <? 240 then 3
  else if b <? 248 then 4
  else 5.

(** [n] further escaped octets [%XX]. *)
Fixpoint take_octets (n : nat) (s : jsstring) : option (list N * jsstring) :=
  match n with
  | O => Some ([], s)
  | S n' =>
      match s with
      | p :: r =>
          if p =? ch "%" then
            match parse_hex_octet r with
            | Some (b, r') =>
                match take_octets n' r' with
                | Some (bs, r'') => Some (b :: bs, r'')
                | None => None
                end
            | None => None
            end
          else None
      | [] => None
      end
  end.

Definition is_continuation (b : N) : bool := (128 <=? b) && (b <? 192).

(** The code point of a multi-octet sequence, when the sequence is valid
    UTF-8: continuation octets, shortest form, no surrogate, at most
    U+10FFFF. *)
Definition utf8_code_point (octets : list N) : option N :=
  match octets with
  | [b0; b1] =>
      let v := (b0 - 192) * 64 + (b1 - 128) in
      if is_continuation b1 && (128 <=? v) then Some v else None
  | [b0; b1; b2] =>
      let v := ((b0 - 224) * 64 + (b1 - 128)) * 64 + (b2 - 128) in
      if is_continuation b1 && is_continuation b2 && (2048 <=? v)
         && negb ((55296 <=? v) && (v <=? 57343))
      then Some v else None
  | [b0; b1; b2; b3] =>
      let v := (((b0 - 240) * 64 + (b1 - 128)) * 64 + (b2 - 128)) * 64 + (b3 - 128) in
      if is_continuation b1 && is_continuation b2 && is_continuation b3
         && (65536 <=? v) && (v <=? 1114111)
      then Some v else None
  | _ => None
  end.

(** UTF16EncodeCodePoint *)
Definition utf16_encode (v : N) : jsstring :=
  if v <? 65536 then [v]
  else [55296 + (v - 65536) / 1024; 56320 + (v - 65536) mod 1024].

Definition prepend (p : jsstring) (r : option jsstring) : option jsstring :=
  match r with
  | Some s => Some (p ++ s)
  | None => None
  end.

(** The loop of the Decode operation with an empty set of preserved
    escapes; each round consumes at least one code unit. *)
Fixpoint decode_loop (fuel : nat) (s : jsstring) : option jsstring :=
  match s with
  | [] => Some []
  | c :: r =>
      match fuel with
      | O => None
      | S f =>
          if c =? ch "%" then
            match parse_hex_octet r with
            | None => None
            | Some (b, r1) =>
                match leading_ones b with
                | 0%nat => prepend [b] (decode_loop f r1)
                | 1%nat => None
                | 5%nat => None
                | S n' =>
                    match take_octets n' r1 with
                    | Some (bs, r2) =>
                        match utf8_code_point (b :: bs) with
                        | Some v => prepend (utf16_encode v) (decode_loop f r2)
                        | None => None
                        end
                    | None => None
                    end
                end
            end
          else prepend [c] (decode_loop f r)
      end
  end.

Definition decodeURIComponent (s : jsstring) : result jsstring :=
  match decode_loop (length s) s with
  | Some r => Return r
  | None => Throw URIError
  end.

End WebApi.
Export WebApi.

(** ** Asynchronous functions

    An [async function] runs until its next [fetch], where it is suspended
    with the request it issued and the state it leaves behind; it is
    resumed with the outcome of the request and the state of the page at
    that moment.  The other [await]s of the scripts ([response.json()], a
    call of another async function) change nothing the scripts can see
    and are not made suspension points. *)

Module Async.

(** A request as the script hands it to [fetch]: the header values are
    the strings the script passes, before the browser removes leading
    and trailing white space from them, and the body is the value the
    script serialises. *)
Record request := {
  url : jsstring;
  method : jsstring;
  headers : list (jsstring * jsstring);
  body : option value   (* the argument of [JSON.stringify] *)
}.

Record response := {
  status : Z;
  body_text : jsstring
}.

(** A header value the Fetch standard accepts: a byte string which,
    once leading and trailing tabs, line feeds, carriage returns and
    spaces are removed, holds no NUL, line feed or carriage return. *)
Definition is_http_whitespace (c : N) : bool :=
  (c =? 9) || (c =? 10) || (c =? 13) || (c =? 32).

Fixpoint strip_leading (s : jsstring) : jsstring :=
  match s with
  | c :: s' => if is_http_whitespace c then strip_leading s' else s
  | [] => []
  end.

Definition normalize_value (s : jsstring) : jsstring :=
  rev (strip_leading (rev (strip_leading s))).

Definition header_value_ok (s : jsstring) : bool :=
  forallb (fun c => c <=? 255) s
  && forallb (fun c => negb ((c =? 0) || (c =? 10) || (c =? 13))) (normalize_value s).

Definition headers_ok (hs : list (jsstring * jsstring)) : bool :=
  forallb (fun h => header_value_ok (snd h)) hs.

Arguments header_value_ok : simpl never.
Arguments headers_ok : simpl never.

(** [response.ok] *)
Definition ok (r : response) : bool :=
  (200 <=? status r)%Z && (status r <=? 299)%Z.

(** [response.json()] *)
Definition json (r : response) : result value := JSON_parse (body_text r).

Inductive outcome :=
| NetworkError
| Responded (r : response).

Section WithState.
Context {S : Type}.

Inductive step (A : Type) :=
| Done (r : result A) (s : S)
| Fetch (req : request) (s : S) (k : outcome -> S -> step A).
Arguments Done {A} r s.
Arguments Fetch {A} req s k.

Definition async (A : Type) := S -> step A.

Definition ret {A} (a : A) : async A := fun s => Done (Return a) s.
Definition throw {A} (e : exn) : async A := fun s => Done (Throw e) s.
Definition lift {A} (r : result A) : async A := fun s => Done r s.
Definition gets {A} (f : S -> A) : async A := fun s => Done (Return (f s)) s.
Definition modify (f : S -> S) : async unit := fun s => Done (Return tt) (f s).

Fixpoint step_bind {A B} (m : step A) (k : A -> async B) : step B :=
  match m with
  | Done (Return a) s => k a s
  | Done (Throw e) s => Done (Throw e) s
  | Fetch req s c => Fetch req s (fun o s' => step_bind (c o s') k)
  end.

Definition abind {A B} (m : async A) (k : A -> async B) : async B :=
  fun s => step_bind (m s) k.

(** [await fetch(url, init)]: rejected with a TypeError before anything
    is sent when a header value is not valid, rejected when the request
    fails at the network level, fulfilled with the response for every
    status. *)
Definition fetch (req : request) : async response :=
  fun s =>
    if headers_ok (headers req) then
      Fetch req s (fun o s' =>
        match o with
        | NetworkError => Done (Throw TypeError) s'
        | Responded r => Done (Return r) s'
        end)
    else Done (Throw TypeError) s.

Fixpoint step_catch {A} (m : step A) (h : exn -> async A) : step A :=
  match m with
  | Done (Return a) s => Done (Return a) s
  | Done (Throw e) s => h e s
  | Fetch req s c => Fetch req s (fun o s' => step_catch (c o s') h)
  end.

(** [try { m } catch (e) { h e }] *)
Definition try_catch_async {A} (m : async A) (h : exn -> async A) : async A :=
  fun s => step_catch (m s) h.

Fixpoint step_finally {A} (m : step A) (f : async unit) : step A :=
  match m with
  | Done r s => step_bind (f s) (fun _ => lift r)
  | Fetch req s c => Fetch req s (fun o s' => step_finally (c o s') f)
  end.

(** [try { m } finally { f }] *)
Definition try_finally {A} (m : async A) (f : async unit) : async A :=
  fun s => step_finally (m s) f.

(** Running to completion against a network, with no other handler
    interleaved at the suspension points. *)
Fixpoint run {A} (net : request -> outcome) (m : step A) : result A * S :=
  match m with
  | Done r s => (r, s)
  | Fetch req s c => run net (c (net req) s)
  end.

End WithState.

Arguments step S A : clear implicits.
Arguments async S A : clear implicits.
Arguments Done {S A} r s.
Arguments Fetch {S A} req s k.

Declare Scope async_scope.
Delimit Scope async_scope with async.
Notation "'let*' x ':=' m 'in' k" := (abind m (fun x => k))
  (at level 10, x name, m at level 100, k at level 200) : async_scope.
Notation "m ';;' k" := (abind m (fun _ => k))
  (at level 100, k at level 200, right associativity) : async_scope.

End Async.
Export Async.

Declare Scope result_scope.
Delimit Scope result_scope with result.
Notation "'let*' x ':=' m 'in' k" := (bind m (fun x => k))
  (at level 10, x name, m at level 100, k at level 200) : result_scope.

(** ** [auth.js] *)

Module Auth.

(** The part of the browser the script reads and writes: local storage
    and the location of the page.  An assignment to
    [window.location.href] is recorded in [navigation]. *)
Record browser := {
  localStorage : gmap jsstring jsstring;
  origin : jsstring;
  pathname : jsstring;
  navigation : option jsstring
}.

Definition with_storage (f : gmap jsstring jsstring -> gmap jsstring jsstring)
    (w : browser) : browser :=
  {| localStorage := f (localStorage w);
     origin := origin w;
     pathname := pathname w;
     navigation := navigation w |}.

(** [window.location.href = target] *)
Definition set_href (target : jsstring) (w : browser) : browser :=
  {| localStorage := localStorage w;
     origin := origin w;
     pathname := pathname w;
     navigation := Some target |}.

Definition API_BASE (w : browser) : jsstring := origin w.
Definition TOKEN_KEY : jsstring := js "menu_master_token".

(** *** Token management *)

Definition getToken (w : browser) : option jsstring :=
  localStorage w !! TOKEN_KEY.

Definition setToken (token : jsstring) (w : browser) : browser :=
  with_storage (insert TOKEN_KEY token) w.

Definition clearToken (w : browser) : browser :=
  with_storage (delete TOKEN_KEY) w.

(** ['%' + ('00' + c.charCodeAt(0).toString(16)).slice(-2)] *)
Definition percent_escape (c : N) : jsstring :=
  ch "%" :: slice_last2 (js "00" ++ toString16 c).

Definition parseJwt (token : jsstring) : result value :=
  match nth_error (split (ch ".") token) 1 with
  | None => Throw TypeError     (* [undefined.replace] *)
  | Some base64Url =>
      let base64 :=
        replace_all (ch "_") (ch "/") (replace_all (ch "-") (ch "+") base64Url) in
      (let* bin := atob base64 in
       let* jsonPayload := decodeURIComponent (concat (map percent_escape bin)) in
       JSON_parse jsonPayload)%result
  end.

(** [now] is the value of [Date.now()], in milliseconds. *)
Definition isAuthenticated (now : Z) (w : browser) : bool :=
  match getToken w with
  | None | Some [] => false
  | Some token =>
      catch_to
        (let* payload := parseJwt token in
         let* exp := get payload (js "exp") in
         let expiry := mul (ToNumber exp) (of_Z 1000) in
         Return (lt (of_Z now) expiry))%result
        (fun _ => false)
  end.

Definition getUserFromToken (w : browser) : value :=
  match getToken w with
  | None | Some [] => VNull
  | Some token =>
      catch_to
        (let* payload := parseJwt token in
         let* sub := get payload (js "sub") in
         let* email := get payload (js "email") in
         let* is_onboarded := get payload (js "is_onboarded") in
         Return (VObj [(js "user_id", sub);
                       (js "email", email);
                       (js "is_onboarded", or_else is_onboarded (VBool false))]))%result
        (fun _ => VNull)
  end.

(** *** API calls *)

Section Api.
Variable NumberToString : Q -> jsstring.

Local Open Scope async_scope.

Definition post_json (path : jsstring) (payload : value) : async browser response :=
  let* base := gets API_BASE in
  fetch {| url := base ++ path;
           method := js "POST";
           headers := [(js "Content-Type", js "application/json")];
           body := Some payload |}.

(** [throw new Error(error.detail || fallback)] *)
Definition throw_detail {A} (error : value) (fallback : jsstring) : async browser A :=
  let* detail := lift (get error (js "detail")) in
  let* message := lift (ToString NumberToString (or_else detail (VStr fallback))) in
  throw (Error message).

Definition signup (email password : jsstring) : async browser value :=
  let* response :=
    post_json (js "/auth/signup")
      (VObj [(js "email", VStr email); (js "password", VStr password)]) in
  if negb (ok response) then
    let* error := lift (json response) in
    throw_detail error (js "Signup failed")
  else lift (json response).

Definition login (email password : jsstring) : async browser value :=
  let* response :=
    post_json (js "/auth/login")
      (VObj [(js "email", VStr email); (js "password", VStr password)]) in
  if negb (ok response) then
    let* error := lift (json response) in
    throw_detail error (js "Login failed")
  else lift (json response).

Definition googleAuth (credential : value) : async browser value :=
  let* response :=
    post_json (js "/auth/google") (VObj [(js "credential", credential)]) in
  if negb (ok response) then
    let* error := lift (json response) in
    throw_detail error (js "Google authentication failed")
  else lift (json response).

Definition getCurrentUser : async browser value :=
  let* token := gets getToken in
  match token with
  | None | Some [] => ret VNull
  | Some token =>
      let* base := gets API_BASE in
      let* response :=
        fetch {| url := base ++ js "/auth/me";
                 method := js "GET";
                 headers := [(js "Authorization", js "Bearer " ++ token)];
                 body := None |} in
      if negb (ok response) then
        if (status response =? 401)%Z then
          modify clearToken ;; ret VNull
        else throw (Error (js "Failed to get user info"))
      else lift (json response)
  end.

End Api.

(** *** Redirect logic *)

Definition login_page : jsstring := js "/login.html".
Definition root_page : jsstring := js "/".
Definition index_page : jsstring := js "/index.html".
Definition menu_page : jsstring := js "/menu.html".

Local Open Scope async_scope.

Definition redirectBasedOnStatus (user : value) : async browser unit :=
  let* currentPath := gets pathname in
  if negb (truthy user) then
    (if negb (bool_decide (currentPath = login_page))
     then modify (set_href login_page)
     else ret tt)
  else
    let* is_onboarded := lift (get user (js "is_onboarded")) in
    if negb (truthy is_onboarded) then
      (if negb (bool_decide (currentPath = root_page))
          && negb (bool_decide (currentPath = index_page))
       then modify (set_href root_page)
       else ret tt)
    else
      (if bool_decide (currentPath = login_page)
          || bool_decide (currentPath = root_page)
          || bool_decide (currentPath = index_page)
       then modify (set_href menu_page)
       else ret tt).

Definition checkAuthAndRedirect : async browser unit :=
  let* user := gets getUserFromToken in
  redirectBasedOnStatus user.

Definition logout : async browser unit :=
  modify clearToken ;;
  modify (set_href login_page).

(** The guard at the top of the login page's script. *)
Definition login_page_guard (now : Z) : async browser unit :=
  let* authenticated := gets (isAuthenticated now) in
  if authenticated then
    let* user := gets getUserFromToken in
    redirectBasedOnStatus user
  else ret tt.

End Auth.

(** ** [app.js]: the onboarding conversation *)

Module Onboarding.
Import Auth.

(** A row of the schedule card: the day and, for each meal, whether it
    is marked. *)
Record schedule_row := {
  row_day : jsstring;
  row_breakfast : bool;
  row_lunch : bool;
  row_dinner : bool
}.

(** A card of the profile display, with the values interpolated into
    its markup. *)
Inductive profile_card :=
| Basics (city country adults children : value)
| Dietary (preferences allergies : list value)
| Schedule (rows : list schedule_row).

(** The page: the browser, the script's three variables and the parts of
    the document the handlers change.  [transcript] lists the message
    bubbles of the chat container, oldest first, each with the value
    interpolated into it; [profileDisplay] lists the cards of the
    profile modal; [viewMenuBtn] tells whether the modal has its menu
    button; [profile_shown] is set when the profile modal is
    revealed.  The elements the script looks up by id or by selector are
    taken to be in the document, as they are in the page that loads the
    script. *)
Record page := {
  window : browser;
  sessionId : value;
  profile : value;
  currentUser : value;
  transcript : list (jsstring * value);
  messageInput : jsstring;
  sendBtn_disabled : bool;
  profileDisplay : list profile_card;
  viewMenuBtn : bool;
  profile_shown : option value
}.

Definition with_window (f : browser -> browser) (p : page) : page :=
  {| window := f (window p); sessionId := sessionId p; profile := profile p;
     currentUser := currentUser p; transcript := transcript p;
     messageInput := messageInput p; sendBtn_disabled := sendBtn_disabled p;
     profileDisplay := profileDisplay p; viewMenuBtn := viewMenuBtn p;
     profile_shown := profile_shown p |}.

Definition set_profile (v : value) (p : page) : page :=
  {| window := window p; sessionId := sessionId p; profile := v;
     currentUser := currentUser p; transcript := transcript p;
     messageInput := messageInput p; sendBtn_disabled := sendBtn_disabled p;
     profileDisplay := profileDisplay p; viewMenuBtn := viewMenuBtn p;
     profile_shown := profile_shown p |}.

Definition set_currentUser (v : value) (p : page) : page :=
  {| window := window p; sessionId := sessionId p; profile := profile p;
     currentUser := v; transcript := transcript p;
     messageInput := messageInput p; sendBtn_disabled := sendBtn_disabled p;
     profileDisplay := profileDisplay p; viewMenuBtn := viewMenuBtn p;
     profile_shown := profile_shown p |}.

Definition push_message (role : jsstring) (text : value) (p : page) : page :=
  {| window := window p; sessionId := sessionId p; profile := profile p;
     currentUser := currentUser p; transcript := transcript p ++ [(role, text)];
     messageInput := messageInput p; sendBtn_disabled := sendBtn_disabled p;
     profileDisplay := profileDisplay p; viewMenuBtn := viewMenuBtn p;
     profile_shown := profile_shown p |}.

Definition set_messageInput (s : jsstring) (p : page) : page :=
  {| window := window p; sessionId := sessionId p; profile := profile p;
     currentUser := currentUser p; transcript := transcript p;
     messageInput := s; sendBtn_disabled := sendBtn_disabled p;
     profileDisplay := profileDisplay p; viewMenuBtn := viewMenuBtn p;
     profile_shown := profile_shown p |}.

Definition set_disabled (b : bool) (p : page) : page :=
  {| window := window p; sessionId := sessionId p; profile := profile p;
     currentUser := currentUser p; transcript := transcript p;
     messageInput := messageInput p; sendBtn_disabled := b;
     profileDisplay := profileDisplay p; viewMenuBtn := viewMenuBtn p;
     profile_shown := profile_shown p |}.

(** [container.innerHTML = ''] and [container.appendChild(card)] *)
Definition set_profileDisplay (cards : list profile_card) (p : page) : page :=
  {| window := window p; sessionId := sessionId p; profile := profile p;
     currentUser := currentUser p; transcript := transcript p;
     messageInput := messageInput p; sendBtn_disabled := sendBtn_disabled p;
     profileDisplay := cards; viewMenuBtn := viewMenuBtn p;
     profile_shown := profile_shown p |}.

Definition push_card (card : profile_card) (p : page) : page :=
  set_profileDisplay (profileDisplay p ++ [card]) p.

(** The menu button is created unless the modal has it already. *)
Definition add_viewMenuBtn (p : page) : page :=
  {| window := window p; sessionId := sessionId p; profile := profile p;
     currentUser := currentUser p; transcript := transcript p;
     messageInput := messageInput p; sendBtn_disabled := sendBtn_disabled p;
     profileDisplay := profileDisplay p; viewMenuBtn := true;
     profile_shown := profile_shown p |}.

Definition reveal_profile (v : value) (p : page) : page :=
  {| window := window p; sessionId := sessionId p; profile := profile p;
     currentUser := currentUser p; transcript := transcript p;
     messageInput := messageInput p; sendBtn_disabled := sendBtn_disabled p;
     profileDisplay := profileDisplay p; viewMenuBtn := viewMenuBtn p;
     profile_shown := Some v |}.

Local Open Scope async_scope.

(** The auth check that runs when the script is loaded, [auth.js] having
    been loaded before it. *)
Definition checkAuth (now : Z) : async page unit :=
  let* authenticated := gets (fun p => isAuthenticated now (window p)) in
  if negb authenticated then
    modify (with_window (set_href login_page))
  else
    let* user := gets (fun p => getUserFromToken (window p)) in
    modify (set_currentUser user) ;;
    if truthy user then
      let* is_onboarded := lift (get user (js "is_onboarded")) in
      if truthy is_onboarded then modify (with_window (set_href menu_page))
      else ret tt
    else ret tt.

(** The bubble is appended once its markup is built: a [text] without
    a string form makes the template literal throw before that. *)
Definition addMessage (text : value) (role : jsstring) : async page unit :=
  lift (interpolate text) ;;
  modify (push_message role text).

Definition setLoading (isLoading : bool) : async page unit :=
  modify (set_disabled isLoading).

(** [x.length] followed by [x.forEach(item => ...)] on a profile list:
    only an array has a [forEach], and each item is interpolated. *)
Definition each_tag (x : value) : result (list value) :=
  match x with
  | VArr l => if forallb coercible l then Return l else Throw TypeError
  | _ => Throw TypeError
  end.

Definition schedule_days : list jsstring :=
  [js "monday"; js "tuesday"; js "wednesday"; js "thursday";
   js "friday"; js "saturday"; js "sunday"].

Definition no_meals : value :=
  VObj [(js "breakfast", VBool false); (js "lunch", VBool false);
        (js "dinner", VBool false)].

(** The row of one day: [schedule[day] || {...}] and the truth of its
    three meals. *)
Definition schedule_row_of (schedule : value) (day : jsstring) : result schedule_row :=
  (let* planned := get schedule day in
   let dayData := or_else planned no_meals in
   let* breakfast := get dayData (js "breakfast") in
   let* lunch := get dayData (js "lunch") in
   let* dinner := get dayData (js "dinner") in
   Return {| row_day := day; row_breakfast := truthy breakfast;
             row_lunch := truthy lunch; row_dinner := truthy dinner |})%result.

(** [showProfileModal(data)]: the display is cleared, the three cards
    are built and appended one after the other, the menu button is
    added and the modal is revealed.  The cards keep the values
    interpolated into their markup. *)
Definition showProfileModal (data : value) : async page unit :=
  modify (set_profileDisplay []) ;;
  let* location := lift (get data (js "location")) in
  let loc := or_else location (VObj []) in
  let* household := lift (get data (js "household")) in
  let house := or_else household (VObj []) in
  let* loc_city := lift (get loc (js "city")) in
  let city := or_else loc_city (VStr (js "-")) in
  lift (interpolate city) ;;
  let* loc_country := lift (get loc (js "country")) in
  let country := or_else loc_country (VStr (js "-")) in
  lift (interpolate country) ;;
  let* house_adults := lift (get house (js "adults")) in
  let adults := or_else house_adults (VNum (of_Z 0)) in
  lift (interpolate adults) ;;
  let* house_children := lift (get house (js "children")) in
  let children := or_else house_children (VNum (of_Z 0)) in
  lift (interpolate children) ;;
  modify (push_card (Basics city country adults children)) ;;
  let* dietary_preferences := lift (get data (js "dietary_preferences")) in
  let diet := or_else dietary_preferences (VArr []) in
  let* allergies_dislikes := lift (get data (js "allergies_dislikes")) in
  let allergies := or_else allergies_dislikes (VArr []) in
  let* preferences := lift (each_tag diet) in
  let* dislikes := lift (each_tag allergies) in
  modify (push_card (Dietary preferences dislikes)) ;;
  let* meal_schedule := lift (get data (js "meal_schedule")) in
  let schedule := or_else meal_schedule (VObj []) in
  let* rows := lift (map_result (schedule_row_of schedule) schedule_days) in
  modify (push_card (Schedule rows)) ;;
  modify add_viewMenuBtn ;;
  modify (reveal_profile data).

Section Handlers.
Variable NumberToString : Q -> jsstring.

(** The string form of [getToken()] in a template literal. *)
Definition token_text (t : option jsstring) : jsstring :=
  match t with
  | Some s => s
  | None => js "null"
  end.

Definition finalizeProfile : async page unit :=
  addMessage (VStr (js "Creating your profile...")) (js "assistant") ;;
  try_catch_async
    (let* user := gets currentUser in
     let* sid := gets sessionId in
     let* userId := (if truthy user then lift (get user (js "user_id")) else ret sid) in
     let* base := gets (fun p => API_BASE (window p)) in
     let* token := gets (fun p => getToken (window p)) in
     let* response :=
       fetch {| url := base ++ js "/onboarding/finalize";
                method := js "POST";
                headers := [(js "Content-Type", js "application/json");
                            (js "Authorization", js "Bearer " ++ token_text token)];
                body := Some (VObj [(js "session_id", sid); (js "user_id", userId)]) |} in
     let* data := lift (json response) in
     let* success := lift (get data (js "success")) in
     if truthy success then
       let* prof := lift (get data (js "profile")) in
       modify (set_profile prof) ;;
       let* access_token := lift (get data (js "access_token")) in
       (if truthy access_token
        then
          let* token := lift (ToString NumberToString access_token) in
          modify (with_window (setToken token))
        else ret tt) ;;
       showProfileModal prof
     else ret tt)
    (fun error =>
       addMessage (VStr (js "Something went wrong creating your profile."))
                  (js "assistant")).

Definition handleSendMessage : async page unit :=
  let* input := gets messageInput in
  let text := trim input in
  let* sid := gets sessionId in
  if negb (truthy (VStr text)) || negb (truthy sid) then ret tt
  else
    addMessage (VStr text) (js "user") ;;
    modify (set_messageInput []) ;;
    setLoading true ;;
    try_finally
      (try_catch_async
         (let* base := gets (fun p => API_BASE (window p)) in
          let* sid := gets sessionId in
          let* response :=
            fetch {| url := base ++ js "/onboarding/message";
                     method := js "POST";
                     headers := [(js "Content-Type", js "application/json")];
                     body := Some (VObj [(js "session_id", sid);
                                         (js "message", VStr text)]) |} in
          let* data := lift (json response) in
          let* message := lift (get data (js "message")) in
          addMessage message (js "assistant") ;;
          let* is_complete := lift (get data (js "is_complete")) in
          if truthy is_complete then finalizeProfile else ret tt)
         (fun error =>
            addMessage (VStr (js "Error: Could not send message. Please try again."))
                       (js "assistant")))
      (setLoading false)
  .

End Handlers.

End Onboarding.

(** ** [menu.js]: the menu viewer *)

Module Menu.
Import Auth.

(** The script's variables. *)
Record page := {
  window : browser;
  currentMenu : value;
  allDishes : list value;
  currentUser : value
}.

Definition set_allDishes (l : list value) (p : page) : page :=
  {| window := window p; currentMenu := currentMenu p;
     allDishes := l; currentUser := currentUser p |}.

Definition set_currentUser (v : value) (p : page) : page :=
  {| window := window p; currentMenu := currentMenu p;
     allDishes := allDishes p; currentUser := v |}.

Definition with_window (f : browser -> browser) (p : page) : page :=
  {| window := f (window p); currentMenu := currentMenu p;
     allDishes := allDishes p; currentUser := currentUser p |}.

Local Open Scope async_scope.

(** [l.forEach(f)] *)
Fixpoint forEach {S A} (l : list A) (f : A -> async S unit) : async S unit :=
  match l with
  | [] => ret tt
  | x :: l' => f x ;; forEach l' f
  end.

Definition days : list jsstring :=
  [js "monday"; js "tuesday"; js "wednesday"; js "thursday";
   js "friday"; js "saturday"; js "sunday"].

Definition mealTypes : list jsstring := [js "breakfast"; js "lunch"; js "dinner"].

Definition indexed (l : list value) : list (jsstring * value) :=
  imap (fun i v => (toString10 (N.of_nat i), v)) l.

(** The own enumerable properties copied by [...v] in an object
    literal. *)
Definition spread (v : value) : list (jsstring * value) :=
  match v with
  | VObj props => props
  | VArr elems => indexed elems
  | VStr s => indexed (map (fun c => VStr [c]) s)
  | _ => []
  end.

(** The auth check of the page's [DOMContentLoaded] handler: the user id
    handed to [fetchMenu], or [None] when the handler returns before. *)
Definition page_guard (now : Z) : async page (option value) :=
  let* authenticated := gets (fun p => isAuthenticated now (window p)) in
  if negb authenticated then
    modify (with_window (set_href login_page)) ;; ret None
  else
    let* user := gets (fun p => getUserFromToken (window p)) in
    modify (set_currentUser user) ;;
    let* not_onboarded :=
      (if truthy user then
         let* is_onboarded := lift (get user (js "is_onboarded")) in
         ret (negb (truthy is_onboarded))
       else ret false) in
    if not_onboarded then
      modify (with_window (set_href root_page)) ;; ret None
    else
      let* userId := lift (get user (js "user_id")) in
      ret (Some userId).

Definition processMenuData (menu : value) : async page unit :=
  modify (set_allDishes []) ;;
  forEach days (fun day =>
    let* dailyMenu := lift (get menu day) in
    if negb (truthy dailyMenu) then ret tt
    else
      forEach mealTypes (fun mealType =>
        let* dish := lift (get dailyMenu mealType) in
        if truthy dish then
          modify (fun p =>
            set_allDishes
              (allDishes p ++
               [VObj ([(js "day", VStr day); (js "type", VStr mealType)] ++ spread dish)])
              p)
        else ret tt)).

Section Search.
(** [String.prototype.toLowerCase] of the runtime. *)
Variable toLowerCase : jsstring -> jsstring.

Local Open Scope result_scope.

(** [v.toLowerCase()]: only a string has the method. *)
Definition lower (v : value) : result jsstring :=
  match v with
  | VStr s => Return (toLowerCase s)
  | _ => Throw TypeError
  end.

(** [l.some(f)] *)
Fixpoint some (f : value -> result bool) (l : list value) : result bool :=
  match l with
  | [] => Return false
  | x :: l' =>
      let* b := f x in
      if b then Return true else some f l'
  end.

(** [l.filter(f)] *)
Fixpoint filter (f : value -> result bool) (l : list value) : result (list value) :=
  match l with
  | [] => Return []
  | x :: l' =>
      let* b := f x in
      let* r := filter f l' in
      Return (if b then x :: r else r)
  end.

Definition lower_includes (v : value) (term : jsstring) : result bool :=
  let* s := lower v in
  Return (includes s term).

(** The predicate of the search handler's filter. *)
Definition dish_matches (term : jsstring) (dish : value) : result bool :=
  let* name := get dish (js "name") in
  let* in_name := lower_includes name term in
  if in_name then Return true
  else
    let* description := get dish (js "description") in
    let* in_description := lower_includes description term in
    if in_description then Return true
    else
      let* ingredients := get dish (js "ingredients") in
      match ingredients with
      | VArr ings => some (fun ing => lower_includes ing term) ings
      | _ => Throw TypeError
      end.

(** The search handler, up to rendering: the list handed to
    [renderDishes] for the text [input] of the search box. *)
Definition search (input : jsstring) (p : page) : result (list value) :=
  let term := toLowerCase input in
  filter (dish_matches term) (allDishes p).

End Search.

End Menu.

(** ** Definitions used to state the properties *)

Module Spec.
Import Auth.

(** A page freshly loaded at [path]: no navigation is pending. *)
Definition arrive (path : jsstring) (w : browser) : browser :=
  {| localStorage := localStorage w;
     origin := origin w;
     pathname := path;
     navigation := None |}.

(** The state of a fetch-free function when it returns. *)
Definition final {S A} (m : step S A) : option S :=
  match m with
  | Done _ s => Some s
  | Fetch _ _ _ => None
  end.

(** The redirect the navigation guard produces for [user] on a page
    loaded at [path]. *)
Definition redirectTarget (user : value) (path : jsstring) (w : browser)
    : option jsstring :=
  match final (redirectBasedOnStatus user (arrive path w)) with
  | Some w' => navigation w'
  | None => None
  end.

(** The redirect [checkAuthAndRedirect] produces on a page loaded at
    [path]. *)
Definition checkAuthTarget (path : jsstring) (w : browser) : option jsstring :=
  match final (checkAuthAndRedirect (arrive path w)) with
  | Some w' => navigation w'
  | None => None
  end.

(** The three session states of the policy table. *)
Inductive session_state := Absent | NotOnboarded | Onboarded.

Definition session_state_of (user : value) : session_state :=
  if truthy user then
    if truthy (catch_to (get user (js "is_onboarded")) (fun _ => VUndefined))
    then Onboarded else NotOnboarded
  else Absent.

(** The policy table of the navigation guard, row by row. *)
Definition redirect_policy (st : session_state) (path : jsstring) : option jsstring :=
  match st with
  | Absent =>
      if bool_decide (path = login_page) then None else Some login_page
  | NotOnboarded =>
      if bool_decide (path = root_page) || bool_decide (path = index_page)
      then None else Some root_page
  | Onboarded =>
      if bool_decide (path = login_page) || bool_decide (path = root_page)
         || bool_decide (path = index_page)
      then Some menu_page else None
  end.

(** A browser whose storage holds exactly the credential [token]. *)
Definition browser_with (token : option jsstring) (path : jsstring) : browser :=
  {| localStorage := match token with
                     | Some t => {[ TOKEN_KEY := t ]}
                     | None => ∅
                     end;
     origin := js "https://menu.example";
     pathname := path;
     navigation := None |}.

(** A network that answers every request with [r]. *)
Definition respond (r : response) : request -> outcome := fun _ => Responded r.

(** *** Menu *)

Definition weekdays : list jsstring :=
  [js "monday"; js "tuesday"; js "wednesday"; js "thursday";
   js "friday"; js "saturday"; js "sunday"].

Definition meal_kinds : list jsstring := [js "breakfast"; js "lunch"; js "dinner"].

(** The entry of the flat list for the dish in a slot. *)
Definition entry (day mealType : jsstring) (dish : value) : value :=
  VObj ([(js "day", VStr day); (js "type", VStr mealType)] ++ Menu.spread dish).

(** [menu[day][mealType]], [undefined] when the day is missing. *)
Definition slot (menu : value) (day mealType : jsstring) : value :=
  let dailyMenu := catch_to (get menu day) (fun _ => VUndefined) in
  if truthy dailyMenu
  then catch_to (get dailyMenu mealType) (fun _ => VUndefined)
  else VUndefined.

(** The flat list of a menu: day by day, meal by meal, the slots that
    are set. *)
Definition flatten (menu : value) : list value :=
  flat_map (fun day =>
    flat_map (fun mealType =>
      let dish := slot menu day mealType in
      if truthy dish then [entry day mealType dish] else [])
      meal_kinds)
    weekdays.

(** *** Search *)

(** [toLowerCase] on a string of ASCII characters. *)
Definition ascii_lower (s : jsstring) : jsstring :=
  map (fun c => if (65 <=? c) && (c <=? 90) then c + 32 else c) s.



(** A dish record as the data model has it. *)
Definition dish_fields (d : value) (name description : jsstring)
    (ingredients : list jsstring) : Prop :=
  get d (js "name") = Return (VStr name)
  /\ get d (js "description") = Return (VStr description)
  /\ get d (js "ingredients") = Return (VArr (map VStr ingredients)).

Definition is_dish (d : value) : Prop :=
  exists name description ingredients, dish_fields d name description ingredients.


(** *** Issuing a token

    The backend's side of the round trip: the claims are written as
    JSON text, the text is encoded in UTF-8 and the bytes in unpadded
    base64url. Text is a sequence of Unicode scalar values. *)

Definition is_scalar (c : N) : bool :=
  (c <? 55296) || ((57344 <=? c) && (c <=? 1114111)).

Definition is_text (t : list N) : Prop := Forall (fun c => is_scalar c = true) t.

Definition utf8_encode_scalar (c : N) : list N :=
  if c <? 128 then [c]
  else if c <? 2048 then [192 + c / 64; 128 + c mod 64]
  else if c <? 65536 then [224 + c / 4096; 128 + (c / 64) mod 64; 128 + c mod 64]
  else [240 + c / 262144; 128 + (c / 4096) mod 64; 128 + (c / 64) mod 64;
        128 + c mod 64].

Definition utf8_encode (t : list N) : list N := flat_map utf8_encode_scalar t.

(** The JavaScript string of a text. *)
Definition utf16 (t : list N) : jsstring := flat_map utf16_encode t.

(** A character inside a JSON string literal: the quote, the backslash
    and the control characters are escaped. *)
Definition json_escape (c : N) : list N :=
  if c =? 34 then [92; 34]
  else if c =? 92 then [92; 92]
  else if c <? 32 then js "\u00" ++ [hex_digit (c / 16); hex_digit (c mod 16)]
  else [c].

Definition json_string (t : list N) : list N :=
  34 :: flat_map json_escape t ++ [34].

Record claims := {
  sub : list N;
  email : list N;
  is_onboarded : option bool;
  expires : option N     (* the [exp] claim, in seconds *)
}.

Definition json_bool (b : bool) : list N := if b then js "true" else js "false".

(** The decimal numeral of a natural number. *)
Definition json_nat (n : N) : list N := toString10 n.

(** A member name: the ASCII name between quotes, then a colon. *)
Definition json_key (name : jsstring) : list N := 34 :: name ++ [34; 58].

(** A member that is written only when the claim is there. *)
Definition json_optional (name : jsstring) (text : option (list N)) : list N :=
  match text with
  | Some t => js "," ++ json_key name ++ t
  | None => []
  end.

Definition claims_json (c : claims) : list N :=
  js "{" ++ json_key (js "sub") ++ json_string (sub c)
  ++ js "," ++ json_key (js "email") ++ json_string (email c)
  ++ json_optional (js "is_onboarded") (option_map json_bool (is_onboarded c))
  ++ json_optional (js "exp") (option_map json_nat (expires c))
  ++ js "}".

Definition base64url_char (v : N) : N :=
  if v <? 26 then 65 + v
  else if v <? 52 then 71 + v
  else if v <? 62 then v - 4
  else if v =? 62 then 45
  else 95.

Fixpoint encode_sextets (bytes : list N) : list N :=
  match bytes with
  | a :: b :: c :: rest =>
      a / 4 :: (a mod 4) * 16 + b / 16 :: (b mod 16) * 4 + c / 64 :: c mod 64
      :: encode_sextets rest
  | [a; b] => [a / 4; (a mod 4) * 16 + b / 16; (b mod 16) * 4]
  | [a] => [a / 4; (a mod 4) * 16]
  | [] => []
  end.

Definition base64url_encode (bytes : list N) : jsstring :=
  map base64url_char (encode_sextets bytes).

(** A three-part token around the claims. *)
Definition issue_token (header signature : jsstring) (c : claims) : jsstring :=
  header ++ ch "." :: base64url_encode (utf8_encode (claims_json c))
  ++ ch "." :: signature.

(** The session the claims stand for. *)
Definition session_of (c : claims) : value :=
  VObj [(js "user_id", VStr (utf16 (sub c)));
        (js "email", VStr (utf16 (email c)));
        (js "is_onboarded", VBool (match is_onboarded c with
                                   | Some b => b
                                   | None => false
                                   end))].

Definition dot_free (s : jsstring) : Prop := Forall (fun c => c <> ch ".") s.



(** *** Auxiliary definitions of the proofs *)

Definition is_byte (b : N) : Prop := b < 256.

(** The standard-alphabet character of a base64url character. *)
Definition standard_char (c : N) : N :=
  let x := if c =? ch "-" then ch "+" else c in
  if x =? ch "_" then ch "/" else x.

(** The string handed to [decodeURIComponent] for a byte sequence. *)
Definition escaped (bytes : list N) : jsstring := concat (map percent_escape bytes).

Definition prepend_chars (p : jsstring) (r : option (jsstring * jsstring)) :=
  match r with
  | Some (s, rest) => Some (p ++ s, rest)
  | None => None
  end.

(** A character that stands for itself in a JSON string literal. *)
Definition plain (c : N) : Prop := c <> 34 /\ c <> 92 /\ 32 <= c.

(** The members of the payload object of the claims. *)
Definition claims_props (c : claims) : list (jsstring * value) :=
  [(js "sub", VStr (utf16 (sub c))); (js "email", VStr (utf16 (email c)))]
  ++ match is_onboarded c with
     | Some b => [(js "is_onboarded", VBool b)]
     | None => []
     end
  ++ match expires c with
     | Some n => [(js "exp", VNum (of_Z (Z.of_N n)))]
     | None => []
     end.

(** The test of the search filter on the fields of a dish. *)
Definition matches (lower : jsstring -> jsstring) (term : jsstring)
    (name description : jsstring) (ingredients : list jsstring) : bool :=
  includes (lower name) term
  || includes (lower description) term
  || existsb (fun i => includes (lower i) term) ingredients.

(** The numeral of [n]: its digits, the first of which is zero only for
    zero itself. *)
Definition numeral (n : N) (s : jsstring) : Prop :=
  exists d ds,
    s = 48 + d :: map (N.add 48) ds
    /\ d < 10 /\ Forall (fun x => x < 10) ds
    /\ (d = 0 -> n = 0 /\ ds = [])
    /\ digits_value 10 (d :: ds) = n.

(** A separator after a value: a comma or a closing brace. *)
Definition separator (c : N) : Prop := c = 44 \/ c = 125.

(** The optional members of the claims and the closing brace, as they
    reach the parser. *)
Definition claims_tail (c : claims) : jsstring :=
  match is_onboarded c with
  | Some b => 44 :: 34 :: js "is_onboarded" ++ 34 :: 58 :: json_bool b
  | None => []
  end
  ++ match expires c with
     | Some n => 44 :: 34 :: js "exp" ++ 34 :: 58 :: json_nat n
     | None => []
     end
  ++ [125].

(** *** Fuel *)

(** A parser result that is a verdict. *)
Definition settled {A} (r : presult A) : Prop := r <> PFuel.

(** The parse of [s] that leaves [r] succeeds with as many units of fuel
    as it consumes code units. *)
Definition enough {A} (parse : nat -> jsstring -> presult A) (s : jsstring)
    (a : A) (r : jsstring) : Prop :=
  (length r < length s)%nat
  /\ forall f, (length s - length r <= f)%nat -> parse f s = POk a r.

(** *** Sample data *)


(** Payload [{"exp":"99999999999"}]: the expiry is a string. *)
Definition string_exp_token : jsstring := js "h.eyJleHAiOiI5OTk5OTk5OTk5OSJ9.s".

(** Payload [{"sub":"x"}]: no expiry. *)
Definition no_exp_token : jsstring := js "h.eyJzdWIiOiJ4In0.s".

(** Payload [{"sub":"u1","email":"a@b.com","is_onboarded":true,"exp":1}]:
    expired one second after the epoch. *)
Definition expired_token : jsstring :=
  js "eyJhbGciOiJIUzI1NiIsInR5cCI6IkpXVCJ9.eyJzdWIiOiJ1MSIsImVtYWlsIjoiYUBiLmNvbSIsImlzX29uYm9hcmRlZCI6dHJ1ZSwiZXhwIjoxfQ.c2ln".

(** A moment in November 2023, in milliseconds. *)
Definition some_day : Z := 1700000000000.

Definition no_numerals : Q -> jsstring := fun _ => [].

Definition rejected : response :=
  {| status := 400;
     body_text := js "{" ++ json_key (js "detail")
                  ++ json_string (js "Email already registered") ++ js "}" |}.

Definition bad_gateway : response :=
  {| status := 502; body_text := js "<html>Bad Gateway</html>" |}.

Definition unauthorized : response :=
  {| status := 401;
     body_text := js "{" ++ json_key (js "detail")
                  ++ json_string (js "Not authenticated") ++ js "}" |}.

(** Claims with two-, three- and four-octet characters, a quote, a
    backslash and a line feed in the subject. *)
Definition zoe : claims :=
  {| sub := [90; 111; 235; 128512; 34; 92; 10; 8364];
     email := js "a@b.com";
     is_onboarded := None;
     expires := Some 99999999999 |}.

Definition send_error : value :=
  VStr (js "Error: Could not send message. Please try again.").

Definition chatting : Onboarding.page :=
  {| Onboarding.window := browser_with None root_page;
     Onboarding.sessionId := VStr (js "s-1");
     Onboarding.profile := VNull;
     Onboarding.currentUser := VNull;
     Onboarding.transcript := [(js "assistant", VStr (js "Hello"))];
     Onboarding.messageInput := js "  two adults  ";
     Onboarding.sendBtn_disabled := false;
     Onboarding.profileDisplay := [];
     Onboarding.viewMenuBtn := false;
     Onboarding.profile_shown := None |}.

Definition not_started : Onboarding.page :=
  {| Onboarding.window := browser_with None root_page;
     Onboarding.sessionId := VNull;
     Onboarding.profile := VNull;
     Onboarding.currentUser := VNull;
     Onboarding.transcript := [];
     Onboarding.messageInput := js "hello";
     Onboarding.sendBtn_disabled := false;
     Onboarding.profileDisplay := [];
     Onboarding.viewMenuBtn := false;
     Onboarding.profile_shown := None |}.

Definition bread : value :=
  VObj [(js "day", VStr (js "monday")); (js "type", VStr (js "lunch"));
        (js "name", VStr (js "Bread"));
        (js "description", VStr (js "A loaf"));
        (js "ingredients", VArr [VStr (js "wheat flour"); VStr (js "water")]);
        (js "preparation_steps", VArr [VStr (js "Bake")])].

Definition salad : value :=
  VObj [(js "day", VStr (js "monday")); (js "type", VStr (js "dinner"));
        (js "name", VStr (js "Salad"));
        (js "description", VStr (js "Green leaves"));
        (js "ingredients", VArr [VStr (js "lettuce")]);
        (js "preparation_steps", VArr [VStr (js "Toss")])].

Definition two_dishes : Menu.page :=
  {| Menu.window := browser_with None menu_page;
     Menu.currentMenu := VNull;
     Menu.allDishes := [bread; salad];
     Menu.currentUser := VNull |}.

End Spec.

(** ** Requests of a run, and functions of a part of the state *)

Module Effects.

(** The requests a function issues when it is run against [net], in
    order. *)
Fixpoint requests {S A} (net : request -> outcome) (m : step S A) : list request :=
  match m with
  | Done _ _ => []
  | Fetch req s c => req :: requests net (c (net req) s)
  end.

(** A function written for the state [T], run on the part [part s] of a
    larger state [S]; [update] writes the part back. *)
Fixpoint step_within {S T A} (part : S -> T) (update : T -> S -> S) (outer : S)
    (m : step T A) : step S A :=
  match m with
  | Done r t => Done r (update t outer)
  | Fetch req t c =>
      Fetch req (update t outer)
        (fun o s' => step_within part update s' (c o (part s')))
  end.

Definition within {S T A} (part : S -> T) (update : T -> S -> S) (m : async T A)
    : async S A :=
  fun s => step_within part update s (m (part s)).

(** A part of the state that can be read back and overwritten. *)
Definition is_part {S T} (part : S -> T) (update : T -> S -> S) : Prop :=
  (forall t s, part (update t s) = t)
  /\ (forall t t' s, update t' (update t s) = update t' s).

End Effects.

(** ** [auth.js]: the login page *)

Module LoginPage.
Import Auth Effects.

(** The browser, the script's variable and the parts of the document the
    handlers read and write.  [errorMessage] is the error whose message
    is the text of the element, if it has been set. *)
Record page := {
  window : browser;
  isSignupMode : bool;
  authTitle : jsstring;
  authSubtitle : jsstring;
  submitBtn_text : jsstring;
  switchText : jsstring;
  switchBtn_text : jsstring;
  submitBtn_disabled : bool;
  errorMessage : option exn;
  errorMessage_hidden : bool;
  emailInput : jsstring;
  passwordInput : jsstring
}.

Definition set_window (w : browser) (p : page) : page :=
  {| window := w; isSignupMode := isSignupMode p;
     authTitle := authTitle p; authSubtitle := authSubtitle p;
     submitBtn_text := submitBtn_text p; switchText := switchText p;
     switchBtn_text := switchBtn_text p; submitBtn_disabled := submitBtn_disabled p;
     errorMessage := errorMessage p; errorMessage_hidden := errorMessage_hidden p;
     emailInput := emailInput p; passwordInput := passwordInput p |}.

Definition set_isSignupMode (b : bool) (p : page) : page :=
  {| window := window p; isSignupMode := b;
     authTitle := authTitle p; authSubtitle := authSubtitle p;
     submitBtn_text := submitBtn_text p; switchText := switchText p;
     switchBtn_text := switchBtn_text p; submitBtn_disabled := submitBtn_disabled p;
     errorMessage := errorMessage p; errorMessage_hidden := errorMessage_hidden p;
     emailInput := emailInput p; passwordInput := passwordInput p |}.

(** The five [textContent] assignments of [updateAuthMode]. *)
Definition set_texts (title subtitle submit switch_text switch_btn : jsstring)
    (p : page) : page :=
  {| window := window p; isSignupMode := isSignupMode p;
     authTitle := title; authSubtitle := subtitle;
     submitBtn_text := submit; switchText := switch_text;
     switchBtn_text := switch_btn; submitBtn_disabled := submitBtn_disabled p;
     errorMessage := errorMessage p; errorMessage_hidden := errorMessage_hidden p;
     emailInput := emailInput p; passwordInput := passwordInput p |}.

Definition set_submitBtn (disabled : bool) (text : jsstring) (p : page) : page :=
  {| window := window p; isSignupMode := isSignupMode p;
     authTitle := authTitle p; authSubtitle := authSubtitle p;
     submitBtn_text := text; switchText := switchText p;
     switchBtn_text := switchBtn_text p; submitBtn_disabled := disabled;
     errorMessage := errorMessage p; errorMessage_hidden := errorMessage_hidden p;
     emailInput := emailInput p; passwordInput := passwordInput p |}.

Definition set_errorMessage (e : exn) (p : page) : page :=
  {| window := window p; isSignupMode := isSignupMode p;
     authTitle := authTitle p; authSubtitle := authSubtitle p;
     submitBtn_text := submitBtn_text p; switchText := switchText p;
     switchBtn_text := switchBtn_text p; submitBtn_disabled := submitBtn_disabled p;
     errorMessage := Some e; errorMessage_hidden := errorMessage_hidden p;
     emailInput := emailInput p; passwordInput := passwordInput p |}.

Definition set_errorMessage_hidden (b : bool) (p : page) : page :=
  {| window := window p; isSignupMode := isSignupMode p;
     authTitle := authTitle p; authSubtitle := authSubtitle p;
     submitBtn_text := submitBtn_text p; switchText := switchText p;
     switchBtn_text := switchBtn_text p; submitBtn_disabled := submitBtn_disabled p;
     errorMessage := errorMessage p; errorMessage_hidden := b;
     emailInput := emailInput p; passwordInput := passwordInput p |}.

Local Open Scope async_scope.

(** A function of [auth.js] called from the page. *)
Definition in_window {A} (m : async browser A) : async page A :=
  within window set_window m.

Definition mode_label (signup_mode : bool) : jsstring :=
  if signup_mode then js "Sign Up" else js "Sign In".

Definition showLoading (loading : bool) : async page unit :=
  let* mode := gets isSignupMode in
  modify (set_submitBtn loading
            (if loading then js "Please wait..." else mode_label mode)).

(** [showError(error.message)] *)
Definition showError (error : exn) : async page unit :=
  modify (set_errorMessage error) ;;
  modify (set_errorMessage_hidden false).

Definition hideError : async page unit :=
  modify (set_errorMessage_hidden true).

Definition updateAuthMode : async page unit :=
  let* mode := gets isSignupMode in
  (if mode then
     modify (set_texts (js "Create Account")
                       (js "Start your personalized meal planning journey")
                       (js "Sign Up")
                       (js "Already have an account?")
                       (js "Sign In"))
   else
     modify (set_texts (js "Welcome Back")
                       (js "Sign in to access your personalized meal plans")
                       (js "Sign In")
                       (js "Don't have an account?")
                       (js "Sign Up"))) ;;
  hideError.

(** The click handler of the switch button. *)
Definition switch_click : async page unit :=
  let* mode := gets isSignupMode in
  modify (set_isSignupMode (negb mode)) ;;
  updateAuthMode.

Section Handlers.
Variable NumberToString : Q -> jsstring.

(** [setToken(tokenResponse.access_token)] and the redirect that follows
    it: the storage keeps the string form of whatever is passed, and
    throws for a value that has none. *)
Definition accept (tokenResponse : value) : async page unit :=
  let* access_token := lift (get tokenResponse (js "access_token")) in
  let* token := lift (ToString NumberToString access_token) in
  in_window (modify (setToken token)) ;;
  let* is_onboarded := lift (get tokenResponse (js "is_onboarded")) in
  if truthy is_onboarded
  then in_window (modify (set_href menu_page))
  else in_window (modify (set_href root_page)).

Definition handleGoogleSignIn (response : value) : async page unit :=
  showLoading true ;;
  hideError ;;
  try_catch_async
    (let* credential := lift (get response (js "credential")) in
     let* tokenResponse := in_window (googleAuth NumberToString credential) in
     accept tokenResponse)
    (fun error => showError error ;; showLoading false).

(** The submit handler of the form. *)
Definition submit : async page unit :=
  let* email := gets emailInput in
  let* password := gets passwordInput in
  showLoading true ;;
  hideError ;;
  try_catch_async
    (let* mode := gets isSignupMode in
     let* tokenResponse :=
       (if mode then in_window (signup NumberToString email password)
        else in_window (login NumberToString email password)) in
     accept tokenResponse)
    (fun error => showError error ;; showLoading false).

End Handlers.

End LoginPage.

(** ** [app.js]: starting the conversation *)

Module OnboardingStart.
Import Auth Effects Onboarding.

(** The onboarding page with the start modal, the message box and the
    alerts shown so far, each the error whose message it carried. *)
Record view := {
  core : page;
  startModal_hidden : bool;
  messageInput_disabled : bool;
  alerts : list exn
}.

Definition set_core (p : page) (v : view) : view :=
  {| core := p; startModal_hidden := startModal_hidden v;
     messageInput_disabled := messageInput_disabled v; alerts := alerts v |}.

Definition hide_startModal (v : view) : view :=
  {| core := core v; startModal_hidden := true;
     messageInput_disabled := messageInput_disabled v; alerts := alerts v |}.

Definition enable_messageInput (v : view) : view :=
  {| core := core v; startModal_hidden := startModal_hidden v;
     messageInput_disabled := false; alerts := alerts v |}.

Definition push_alert (e : exn) (v : view) : view :=
  {| core := core v; startModal_hidden := startModal_hidden v;
     messageInput_disabled := messageInput_disabled v; alerts := alerts v ++ [e] |}.

Definition set_sessionId (sid : value) (p : page) : page :=
  {| window := window p; sessionId := sid; profile := profile p;
     currentUser := currentUser p; transcript := transcript p;
     messageInput := messageInput p; sendBtn_disabled := sendBtn_disabled p;
     profileDisplay := profileDisplay p; viewMenuBtn := viewMenuBtn p;
     profile_shown := profile_shown p |}.

Local Open Scope async_scope.

Definition in_core {A} (m : async page A) : async view A :=
  within core set_core m.

Definition enableChat : async view unit :=
  modify enable_messageInput ;;
  in_core (modify (set_disabled false)).

(** The submit handler of the start form, for the values of the city and
    country inputs. *)
Definition start (city country : jsstring) : async view unit :=
  in_core (setLoading true) ;;
  try_finally
    (try_catch_async
       (let* base := gets (fun v => API_BASE (window (core v))) in
        let* response :=
          fetch {| url := base ++ js "/onboarding/start";
                   method := js "POST";
                   headers := [(js "Content-Type", js "application/json")];
                   body := Some (VObj [(js "city", VStr city);
                                       (js "country", VStr country)]) |} in
        (if negb (ok response) then throw (Error (js "Failed to start session"))
         else ret tt) ;;
        let* data := lift (json response) in
        let* session_id := lift (get data (js "session_id")) in
        in_core (modify (set_sessionId session_id)) ;;
        modify hide_startModal ;;
        enableChat ;;
        let* message := lift (get data (js "message")) in
        in_core (addMessage message (js "assistant")))
       (fun error => modify (push_alert error)))
    (in_core (setLoading false)).

End OnboardingStart.

(** ** [menu.js]: loading and showing the menu *)

Module MenuView.
Import Auth Effects Menu.

(** A card of the grid: the two values written into its click handler,
    the two capitalised labels and the three values of its body. *)
Record card := {
  click_day : value;
  click_type : value;
  day_label : jsstring;
  type_label : jsstring;
  card_name : value;
  card_description : value;
  ingredient_count : value
}.

(** What the grid shows. *)
Inductive grid :=
| Markup               (* what the document came with *)
| Cards (cards : list card)
| NoMatches            (* No dishes found matching your search. *)
| EmptyState           (* No Menu Yet *)
| ErrorView (e : exn)  (* Error loading menu: the message of [e] *)
| NoUserId.            (* No user ID found: the earlier version of the page *)

Record dialog := {
  modalTitle : value;
  modalDescription : value;
  modalIngredients : list value;
  modalSteps : list value;
  modal_hidden : bool
}.

Record view := {
  core : page;
  weekDate : jsstring;
  dishGrid : grid;
  modal : dialog
}.

Definition set_core (p : page) (v : view) : view :=
  {| core := p; weekDate := weekDate v; dishGrid := dishGrid v; modal := modal v |}.

Definition set_weekDate (s : jsstring) (v : view) : view :=
  {| core := core v; weekDate := s; dishGrid := dishGrid v; modal := modal v |}.

Definition set_dishGrid (g : grid) (v : view) : view :=
  {| core := core v; weekDate := weekDate v; dishGrid := g; modal := modal v |}.

Definition with_modal (f : dialog -> dialog) (v : view) : view :=
  {| core := core v; weekDate := weekDate v; dishGrid := dishGrid v;
     modal := f (modal v) |}.

Definition set_currentMenu (menu : value) (p : page) : page :=
  {| window := window p; currentMenu := menu;
     allDishes := allDishes p; currentUser := currentUser p |}.

Definition set_modalTitle (x : value) (d : dialog) : dialog :=
  {| modalTitle := x; modalDescription := modalDescription d;
     modalIngredients := modalIngredients d; modalSteps := modalSteps d;
     modal_hidden := modal_hidden d |}.

Definition set_modalDescription (x : value) (d : dialog) : dialog :=
  {| modalTitle := modalTitle d; modalDescription := x;
     modalIngredients := modalIngredients d; modalSteps := modalSteps d;
     modal_hidden := modal_hidden d |}.

Definition set_modalIngredients (l : list value) (d : dialog) : dialog :=
  {| modalTitle := modalTitle d; modalDescription := modalDescription d;
     modalIngredients := l; modalSteps := modalSteps d;
     modal_hidden := modal_hidden d |}.

Definition set_modalSteps (l : list value) (d : dialog) : dialog :=
  {| modalTitle := modalTitle d; modalDescription := modalDescription d;
     modalIngredients := modalIngredients d; modalSteps := l;
     modal_hidden := modal_hidden d |}.

Definition set_modal_hidden (b : bool) (d : dialog) : dialog :=
  {| modalTitle := modalTitle d; modalDescription := modalDescription d;
     modalIngredients := modalIngredients d; modalSteps := modalSteps d;
     modal_hidden := b |}.

(** [v.length] *)
Definition length_of (v : value) : result value :=
  match v with
  | VUndefined | VNull => Throw TypeError
  | VArr l => Return (VNum (of_Z (Z.of_nat (length l))))
  | VStr s => Return (VNum (of_Z (Z.of_nat (length s))))
  | VObj props => Return (lookup_prop (js "length") props)
  | _ => Return VUndefined
  end.

(** The elements of [v] when [v.map(x => `<li>${x}</li>`)] returns:
    only an array has the method, and each element is interpolated. *)
Definition elements (v : value) : result (list value) :=
  match v with
  | VArr l => if forallb coercible l then Return l else Throw TypeError
  | _ => Throw TypeError
  end.

(** [d.k === s] for a string [s] *)
Definition is_string (x : value) (s : jsstring) : bool :=
  match x with
  | VStr t => bool_decide (t = s)
  | _ => false
  end.

(** [l.find(f)] *)
Fixpoint find_result {A} (f : A -> result bool) (l : list A) : result (option A) :=
  match l with
  | [] => Return None
  | x :: l' =>
      (let* b := f x in
       if b then Return (Some x) else find_result f l')%result
  end.

Local Open Scope async_scope.

Definition in_core {A} (m : async page A) : async view A :=
  within core set_core m.

Definition renderEmptyState : async view unit :=
  modify (set_dishGrid EmptyState) ;;
  modify (set_weekDate []).

(** [window.openDishModal(day, type)], called from a card's click
    handler with two string literals.  The two [textContent]
    assignments convert the value they are given, [null] and
    [undefined] apart, which they turn into the empty string. *)
Definition openDishModal (day type : jsstring) : async view unit :=
  let* dishes := gets (fun v => allDishes (core v)) in
  let* found :=
    lift (find_result (fun d =>
            (let* d_day := get d (js "day") in
             if is_string d_day day then
               let* d_type := get d (js "type") in
               Return (is_string d_type type)
             else Return false)%result) dishes) in
  match found with
  | None => ret tt
  | Some dish =>
      if negb (truthy dish) then ret tt else
      let* name := lift (get dish (js "name")) in
      lift (interpolate name) ;;
      modify (with_modal (set_modalTitle name)) ;;
      let* description := lift (get dish (js "description")) in
      lift (interpolate description) ;;
      modify (with_modal (set_modalDescription description)) ;;
      let* ingredients := lift (get dish (js "ingredients")) in
      let* items := lift (elements ingredients) in
      modify (with_modal (set_modalIngredients items)) ;;
      let* preparation_steps := lift (get dish (js "preparation_steps")) in
      let* steps := lift (elements preparation_steps) in
      modify (with_modal (set_modalSteps steps)) ;;
      modify (with_modal (set_modal_hidden false))
  end.

Section Rendering.
(** [String.prototype.toUpperCase] and [toLowerCase] of the runtime. *)
Variable toUpperCase : jsstring -> jsstring.
Variable toLowerCase : jsstring -> jsstring.
Variable NumberToString : Q -> jsstring.

(** [str.charAt(0).toUpperCase() + str.slice(1)]: only a string has
    [charAt]. *)
Definition capitalize (str : value) : result jsstring :=
  match str with
  | VStr s => Return (toUpperCase (firstn 1 s) ++ skipn 1 s)
  | _ => Throw TypeError
  end.

(** The card of one dish: the values of the template literal, each
    converted where it is interpolated. *)
Definition dish_card (dish : value) : result card :=
  (let* day := get dish (js "day") in
   let* _ := interpolate day in
   let* type := get dish (js "type") in
   let* _ := interpolate type in
   let* day_text := capitalize day in
   let* type_text := capitalize type in
   let* name := get dish (js "name") in
   let* _ := interpolate name in
   let* description := get dish (js "description") in
   let* _ := interpolate description in
   let* ingredients := get dish (js "ingredients") in
   let* count := length_of ingredients in
   let* _ := interpolate count in
   Return {| click_day := day; click_type := type;
             day_label := day_text; type_label := type_text;
             card_name := name; card_description := description;
             ingredient_count := count |})%result.

Definition renderDishes (dishes : list value) : async view unit :=
  match dishes with
  | [] => modify (set_dishGrid NoMatches)
  | _ :: _ =>
      let* cards := lift (map_result dish_card dishes) in
      modify (set_dishGrid (Cards cards))
  end.

(** The input handler of the search box, for the text in the box. *)
Definition search_input (input : jsstring) : async view unit :=
  let* filtered := gets (fun v => search toLowerCase input (core v)) in
  let* dishes := lift filtered in
  renderDishes dishes.

Definition fetchMenu (userId : value) : async view unit :=
  try_catch_async
    (let* base := gets (fun v => origin (window (core v))) in
     let* id := lift (ToString NumberToString userId) in
     let* response :=
       fetch {| url := base ++ js "/menus/" ++ id ++ js "/current";
                method := js "GET";
                headers := [];
                body := None |} in
     if negb (ok response) then
       if (status response =? 404)%Z then renderEmptyState
       else throw (Error (js "Failed to fetch menu"))
     else
       let* data := lift (json response) in
       let* menu := lift (get data (js "menu")) in
       in_core (modify (set_currentMenu menu)) ;;
       let* week_start_date := lift (get data (js "week_start_date")) in
       let* week := lift (ToString NumberToString week_start_date) in
       modify (set_weekDate (js "Week of " ++ week)) ;;
       let* current := gets (fun v => currentMenu (core v)) in
       in_core (processMenuData current) ;;
       let* dishes := gets (fun v => allDishes (core v)) in
       renderDishes dishes)
    (fun error => modify (set_dishGrid (ErrorView error))).

(** The [DOMContentLoaded] handler. *)
Definition init (now : Z) : async view unit :=
  let* guard := in_core (page_guard now) in
  match guard with
  | None => ret tt
  | Some userId => fetchMenu userId
  end.

End Rendering.

End MenuView.

(** ** [menu.js], the earlier version: loading by user id *)

Module LegacyMenu.
Import Auth Effects Menu MenuView.

Definition USER_ID_KEY : jsstring := js "menu_master_user_id".

Section Init.
Variable toUpperCase : jsstring -> jsstring.
Variable NumberToString : Q -> jsstring.

Local Open Scope async_scope.

(** The [DOMContentLoaded] handler of the earlier version, which has no
    auth check.  [param] is [urlParams.get('user_id')] for the query
    string of the page: the first value of the parameter, [None] for
    [null]. *)
Definition init (param : option jsstring) : async view unit :=
  let* userId :=
    (match param with
     | Some (c :: s) => ret (Some (c :: s))
     | _ => gets (fun v => localStorage (window (core v)) !! USER_ID_KEY)
     end) in
  match userId with
  | Some (c :: s) => fetchMenu toUpperCase NumberToString (VStr (c :: s))
  | _ => modify (set_dishGrid NoUserId)
  end.

End Init.

End LegacyMenu.

(** ** Definitions used to state the further properties *)

Module Scenario.
Import Auth Spec.

(** The session state the page guards act on: a credential that does
    not pass the expiry check counts as no session. *)
Definition effective_state (now : Z) (w : browser) : session_state :=
  if isAuthenticated now w then session_state_of (getUserFromToken w) else Absent.

(** Where a guard leaves the browser: the redirect of the policy, or
    the navigation that was pending. *)
Definition after_policy (st : session_state) (path : jsstring) (w : browser)
    : option jsstring :=
  match redirect_policy st path with
  | Some target => Some target
  | None => navigation w
  end.

(** The request of the three calls of the auth gateway. *)
Definition post_request (w : browser) (path : jsstring) (payload : value) : request :=
  {| url := origin w ++ path;
     method := js "POST";
     headers := [(js "Content-Type", js "application/json")];
     body := Some payload |}.

Definition credentials (email password : jsstring) : value :=
  VObj [(js "email", VStr email); (js "password", VStr password)].

(** What a call of the gateway returns for the outcome of its request:
    the parsed body of a success response; after a failure response, an
    [Error] with the detail or the fallback, or the exception of reading
    the body or of converting the detail. *)
Definition gateway_result (nts : Q -> jsstring) (fallback : jsstring) (o : outcome)
    : result value :=
  match o with
  | NetworkError => Throw TypeError
  | Responded r =>
      if ok r then json r
      else
        (let* error := json r in
         let* detail := get error (js "detail") in
         let* message := ToString nts (or_else detail (VStr fallback)) in
         Throw (Error message))%result
  end.

(** What the sign-in handlers make of the result of the gateway: the
    token they store and the page they go to, or the exception they
    catch. *)
Definition sign_in_outcome (nts : Q -> jsstring) (res : result value)
    : result (jsstring * jsstring) :=
  (let* tokenResponse := res in
   let* access_token := get tokenResponse (js "access_token") in
   let* token := ToString nts access_token in
   let* is_onboarded := get tokenResponse (js "is_onboarded") in
   Return (token, if truthy is_onboarded then menu_page else root_page))%result.

(** The login page while a sign-in is under way. *)
Definition loading (p : LoginPage.page) : LoginPage.page :=
  LoginPage.set_errorMessage_hidden true
    (LoginPage.set_submitBtn true (js "Please wait...") p).

(** The login page after a sign-in that stored [token] and went to
    [target], and after one that failed with [e]. *)
Definition signed_in (token target : jsstring) (p : LoginPage.page) : LoginPage.page :=
  LoginPage.set_window (set_href target (setToken token (LoginPage.window p)))
    (loading p).

Definition sign_in_failed (e : exn) (p : LoginPage.page) : LoginPage.page :=
  LoginPage.set_submitBtn false (LoginPage.mode_label (LoginPage.isSignupMode p))
    (LoginPage.set_errorMessage_hidden false
       (LoginPage.set_errorMessage e (loading p))).

Definition after_sign_in (o : result (jsstring * jsstring)) (p : LoginPage.page)
    : LoginPage.page :=
  match o with
  | Return (token, target) => signed_in token target p
  | Throw e => sign_in_failed e p
  end.

(** The request of the form for the mode the page is in. *)
Definition form_request (p : LoginPage.page) : request :=
  post_request (LoginPage.window p)
    (if LoginPage.isSignupMode p then js "/auth/signup" else js "/auth/login")
    (credentials (LoginPage.emailInput p) (LoginPage.passwordInput p)).

Definition form_fallback (p : LoginPage.page) : jsstring :=
  if LoginPage.isSignupMode p then js "Signup failed" else js "Login failed".

(** *** Starting the conversation *)

Definition start_request (v : OnboardingStart.view) (city country : jsstring) : request :=
  {| url := origin (Onboarding.window (OnboardingStart.core v))
            ++ js "/onboarding/start";
     method := js "POST";
     headers := [(js "Content-Type", js "application/json")];
     body := Some (VObj [(js "city", VStr city); (js "country", VStr country)]) |}.

(** What the start handler reads from the outcome of its request: the
    session id and the welcome message, or the exception it catches. *)
Definition start_outcome (o : outcome) : result (value * value) :=
  match o with
  | NetworkError => Throw TypeError
  | Responded r =>
      if ok r then
        (let* data := json r in
         let* session_id := get data (js "session_id") in
         let* message := get data (js "message") in
         Return (session_id, message))%result
      else Throw (Error (js "Failed to start session"))
  end.

(** The page after a start that succeeded, after one whose welcome
    message could not be shown, and after one that failed. *)
Definition started (session_id message : value) (v : OnboardingStart.view)
    : OnboardingStart.view :=
  {| OnboardingStart.core :=
       Onboarding.set_disabled false
         (Onboarding.push_message (js "assistant") message
            (OnboardingStart.set_sessionId session_id (OnboardingStart.core v)));
     OnboardingStart.startModal_hidden := true;
     OnboardingStart.messageInput_disabled := false;
     OnboardingStart.alerts := OnboardingStart.alerts v |}.

Definition half_started (session_id : value) (v : OnboardingStart.view)
    : OnboardingStart.view :=
  {| OnboardingStart.core :=
       Onboarding.set_disabled false
         (OnboardingStart.set_sessionId session_id (OnboardingStart.core v));
     OnboardingStart.startModal_hidden := true;
     OnboardingStart.messageInput_disabled := false;
     OnboardingStart.alerts := OnboardingStart.alerts v ++ [TypeError] |}.

Definition start_failed (e : exn) (v : OnboardingStart.view) : OnboardingStart.view :=
  {| OnboardingStart.core := Onboarding.set_disabled false (OnboardingStart.core v);
     OnboardingStart.startModal_hidden := OnboardingStart.startModal_hidden v;
     OnboardingStart.messageInput_disabled := OnboardingStart.messageInput_disabled v;
     OnboardingStart.alerts := OnboardingStart.alerts v ++ [e] |}.

(** *** The conversation *)

Definition creating : jsstring * value :=
  (js "assistant", VStr (js "Creating your profile...")).

Definition went_wrong : jsstring * value :=
  (js "assistant", VStr (js "Something went wrong creating your profile.")).

Definition message_request (p : Onboarding.page) : request :=
  {| url := origin (Onboarding.window p) ++ js "/onboarding/message";
     method := js "POST";
     headers := [(js "Content-Type", js "application/json")];
     body := Some (VObj [(js "session_id", Onboarding.sessionId p);
                         (js "message", VStr (trim (Onboarding.messageInput p)))]) |}.

(** The finalize request: the stored credential as a bearer token, the
    text [null] when there is none; the user id of the current user, the
    session id when there is no current user. *)
Definition finalize_request (p : Onboarding.page) : request :=
  {| url := origin (Onboarding.window p) ++ js "/onboarding/finalize";
     method := js "POST";
     headers := [(js "Content-Type", js "application/json");
                 (js "Authorization",
                  js "Bearer " ++ Onboarding.token_text (getToken (Onboarding.window p)))];
     body := Some (VObj [(js "session_id", Onboarding.sessionId p);
                         (js "user_id",
                          if truthy (Onboarding.currentUser p)
                          then catch_to (get (Onboarding.currentUser p) (js "user_id"))
                                        (fun _ => VUndefined)
                          else Onboarding.sessionId p)]) |}.

(** The header value of the finalize request, and whether the browser
    sends it. *)
Definition bearer (w : browser) : jsstring :=
  js "Bearer " ++ Onboarding.token_text (getToken w).

Definition sendable (w : browser) : bool := header_value_ok (bearer w).

(** *** The profile modal *)

Definition nullish (v : value) : bool :=
  match v with
  | VUndefined | VNull => true
  | _ => false
  end.

(** [v.k], [undefined] where the read throws. *)
Definition field (v : value) (k : jsstring) : value :=
  catch_to (get v k) (fun _ => VUndefined).

(** The basics card of a profile, with the defaults of the script. *)
Definition profile_basics (data : value) : Onboarding.profile_card :=
  let loc := or_else (field data (js "location")) (VObj []) in
  let house := or_else (field data (js "household")) (VObj []) in
  Onboarding.Basics
    (or_else (field loc (js "city")) (VStr (js "-")))
    (or_else (field loc (js "country")) (VStr (js "-")))
    (or_else (field house (js "adults")) (VNum (of_Z 0)))
    (or_else (field house (js "children")) (VNum (of_Z 0))).

(** The four values of the basics card have a string form. *)
Definition basics_shown (data : value) : bool :=
  match profile_basics data with
  | Onboarding.Basics city country adults children =>
      coercible city && coercible country && coercible adults && coercible children
  | _ => false
  end.

(** The tags of a profile list: the list is falsy, so that the empty
    list stands in for it, or an array of values that have a string
    form. *)
Definition tags (x : value) : option (list value) :=
  match or_else x (VArr []) with
  | VArr l => if forallb coercible l then Some l else None
  | _ => None
  end.

Definition profile_dietary (data : value) : option Onboarding.profile_card :=
  match tags (field data (js "dietary_preferences")),
        tags (field data (js "allergies_dislikes")) with
  | Some preferences, Some allergies => Some (Onboarding.Dietary preferences allergies)
  | _, _ => None
  end.

Definition profile_schedule (data : value) : Onboarding.profile_card :=
  let schedule := or_else (field data (js "meal_schedule")) (VObj []) in
  Onboarding.Schedule
    (map (fun day =>
            let dayData := or_else (field schedule day) Onboarding.no_meals in
            {| Onboarding.row_day := day;
               Onboarding.row_breakfast := truthy (field dayData (js "breakfast"));
               Onboarding.row_lunch := truthy (field dayData (js "lunch"));
               Onboarding.row_dinner := truthy (field dayData (js "dinner")) |})
         weekdays).

(** The cards of a profile that can be shown. *)
Definition profile_cards (data : value) : option (list Onboarding.profile_card) :=
  if nullish data then None
  else if basics_shown data then
    match profile_dietary data with
    | Some dietary => Some [profile_basics data; dietary; profile_schedule data]
    | None => None
    end
  else None.

(** The page after [showProfileModal] is through, and where it is left
    when the function throws: the display cleared, with the basics card
    if that was shown. *)
Definition profile_revealed (data : value) (cards : list Onboarding.profile_card)
    (p : Onboarding.page) : Onboarding.page :=
  Onboarding.reveal_profile data
    (Onboarding.add_viewMenuBtn (Onboarding.set_profileDisplay cards p)).

Definition profile_abandoned (data : value) (p : Onboarding.page) : Onboarding.page :=
  Onboarding.set_profileDisplay
    (if negb (nullish data) && basics_shown data then [profile_basics data] else []) p.

(** A profile as the backend sends it. *)
Definition sample_profile : value :=
  VObj [(js "location", VObj [(js "city", VStr (js "Paris"));
                              (js "country", VStr (js "France"))]);
        (js "household", VObj [(js "adults", VNum (of_Z 2))]);
        (js "dietary_preferences", VArr [VStr (js "vegetarian")]);
        (js "meal_schedule",
         VObj [(js "monday", VObj [(js "breakfast", VBool true);
                                   (js "dinner", VBool true)])])].

(** What [finalizeProfile] makes of the response to its request, and
    how it goes on when the request is settled. *)
Definition finalize_body (nts : Q -> jsstring) (response : response)
    : async Onboarding.page unit :=
  (let* data := lift (json response) in
   let* success := lift (get data (js "success")) in
   if truthy success then
     let* prof := lift (get data (js "profile")) in
     modify (Onboarding.set_profile prof) ;;
     let* access_token := lift (get data (js "access_token")) in
     (if truthy access_token
      then
        let* token := lift (ToString nts access_token) in
        modify (Onboarding.with_window (setToken token))
      else ret tt) ;;
     Onboarding.showProfileModal prof
   else ret tt)%async.

Definition finalize_continuation (nts : Q -> jsstring) (o : outcome)
    (s : Onboarding.page) : step Onboarding.page unit :=
  step_catch
    (step_bind
       (match o with
        | NetworkError => Done (Throw TypeError) s
        | Responded r => Done (Return r) s
        end)
       (finalize_body nts))
    (fun error => Onboarding.addMessage (snd went_wrong) (fst went_wrong)).

(** The user id the earlier menu page loads: the parameter of the
    query string if it is not empty, the stored id otherwise. *)
Definition chosen_user_id (param : option jsstring) (w : browser) : option jsstring :=
  match param with
  | Some (c :: s) => Some (c :: s)
  | _ => match localStorage w !! LegacyMenu.USER_ID_KEY with
         | Some (c :: s) => Some (c :: s)
         | _ => None
         end
  end.

(** The answer to a message says that the conversation is complete,
    and its message could be shown. *)
Definition completes (o : outcome) : bool :=
  match o with
  | NetworkError => false
  | Responded r =>
      match json r with
      | Return data =>
          coercible (field data (js "message"))
          && truthy (field data (js "is_complete"))
      | Throw _ => false
      end
  end.

(** The start page of the conversation: the modal open, the message box
    disabled, nothing said yet. *)
Definition start_page : OnboardingStart.view :=
  {| OnboardingStart.core := not_started;
     OnboardingStart.startModal_hidden := false;
     OnboardingStart.messageInput_disabled := true;
     OnboardingStart.alerts := [] |}.

(** The answer to a start request: a session id and a greeting. *)
Definition session_opened : response :=
  {| status := 200;
     body_text := js "{" ++ json_key (js "session_id") ++ json_string (js "s-1")
                  ++ js "," ++ json_key (js "message") ++ json_string (js "Hello")
                  ++ js "}" |}.

(** The answer to a message that completes the conversation. *)
Definition completed : response :=
  {| status := 200;
     body_text := js "{" ++ json_key (js "message") ++ json_string (js "Done")
                  ++ js "," ++ json_key (js "is_complete") ++ js "true" ++ js "}" |}.

(** *** The menu page *)

(** The request of [fetchMenu] for a user id that has a string form: a
    plain [GET], without headers. *)
Definition menu_request (nts : Q -> jsstring) (v : MenuView.view) (userId : value)
    : request :=
  {| url := origin (Menu.window (MenuView.core v)) ++ js "/menus/"
            ++ string_form nts userId ++ js "/current";
     method := js "GET";
     headers := [];
     body := None |}.

(** The cell of the flat list for one slot of the menu. *)
Definition cell (menu : value) (day mealType : jsstring) : list value :=
  let dish := slot menu day mealType in
  if truthy dish then [entry day mealType dish] else [].

(** A dish that does not define [day] or [type] itself. *)
Definition unlabelled (dish : value) : Prop :=
  find_prop (js "day") (Menu.spread dish) = None
  /\ find_prop (js "type") (Menu.spread dish) = None.

(** The test of [openDishModal]'s [find]. *)
Definition same_slot (day type : jsstring) (d : value) : result bool :=
  (let* d_day := get d (js "day") in
   if MenuView.is_string d_day day then
     let* d_type := get d (js "type") in
     Return (MenuView.is_string d_type type)
   else Return false)%result.

(** A dish, given by its fields, that the dialog can show: the name and
    the description have a string form, or are [null] or [undefined],
    and the ingredients and the steps are arrays of values that have
    one. *)
Definition dish_openable (dish : list (jsstring * value)) : bool :=
  coercible (lookup_prop (js "name") dish)
  && coercible (lookup_prop (js "description") dish)
  && match lookup_prop (js "ingredients") dish,
           lookup_prop (js "preparation_steps") dish with
     | VArr items, VArr steps => forallb coercible items && forallb coercible steps
     | _, _ => false
     end.

(** The dialog that shows a dish. *)
Definition dialog_of (name description : value) (ingredients steps : list value)
    : MenuView.dialog :=
  {| MenuView.modalTitle := name;
     MenuView.modalDescription := description;
     MenuView.modalIngredients := ingredients;
     MenuView.modalSteps := steps;
     MenuView.modal_hidden := false |}.

(** The card [c] is the one of the dish [d], for the runtime's
    [toUpperCase]: the labels are the day and the type with the first
    character in upper case, the count is the length of the
    ingredients. *)
Definition shows (up : jsstring -> jsstring) (d : value) (c : MenuView.card) : Prop :=
  exists day type ingredients,
    get d (js "day") = Return (VStr day)
    /\ get d (js "type") = Return (VStr type)
    /\ get d (js "ingredients") = Return (VArr ingredients)
    /\ c = {| MenuView.click_day := VStr day;
              MenuView.click_type := VStr type;
              MenuView.day_label := up (firstn 1 day) ++ skipn 1 day;
              MenuView.type_label := up (firstn 1 type) ++ skipn 1 type;
              MenuView.card_name := catch_to (get d (js "name")) (fun _ => VUndefined);
              MenuView.card_description :=
                catch_to (get d (js "description")) (fun _ => VUndefined);
              MenuView.ingredient_count :=
                VNum (of_Z (Z.of_nat (length ingredients))) |}.

(** A dish that can be shown as a card. *)
Definition presentable (d : value) : Prop :=
  exists day type ingredients,
    get d (js "day") = Return (VStr day)
    /\ get d (js "type") = Return (VStr type)
    /\ get d (js "ingredients") = Return (VArr ingredients).

(** A dish that is rendered as a card: it can be shown, and its name
    and its description have a string form. *)
Definition renderable (d : value) : Prop :=
  presentable d
  /\ coercible (field d (js "name")) = true
  /\ coercible (field d (js "description")) = true.

(** [toUpperCase] on a string of ASCII characters. *)
Definition ascii_upper (s : jsstring) : jsstring :=
  map (fun c => if (97 <=? c) && (c <=? 122) then c - 32 else c) s.

(** A menu with a lunch on Monday and a dinner on Tuesday. *)
Definition two_day_menu : value :=
  VObj [(js "monday",
         VObj [(js "lunch",
                VObj [(js "name", VStr (js "Bread"));
                      (js "description", VStr (js "A loaf"));
                      (js "ingredients", VArr [VStr (js "wheat flour"); VStr (js "water")]);
                      (js "preparation_steps", VArr [VStr (js "Bake")])])]);
        (js "tuesday",
         VObj [(js "dinner",
                VObj [(js "name", VStr (js "Salad"));
                      (js "description", VStr (js "Green leaves"));
                      (js "ingredients", VArr [VStr (js "lettuce")]);
                      (js "preparation_steps", VArr [VStr (js "Toss")])])])].

(** The menu page as it is loaded. *)
Definition menu_loading (w : browser) : MenuView.view :=
  {| MenuView.core := {| Menu.window := w; Menu.currentMenu := VNull;
                         Menu.allDishes := []; Menu.currentUser := VNull |};
     MenuView.weekDate := js "Loading...";
     MenuView.dishGrid := MenuView.Markup;
     MenuView.modal := {| MenuView.modalTitle := VStr [];
                          MenuView.modalDescription := VStr [];
                          MenuView.modalIngredients := [];
                          MenuView.modalSteps := [];
                          MenuView.modal_hidden := true |} |}.

(** The menu page showing the two sample dishes. *)
Definition two_dishes_shown : MenuView.view :=
  {| MenuView.core := two_dishes;
     MenuView.weekDate := js "Week of 2024-01-01";
     MenuView.dishGrid := MenuView.Markup;
     MenuView.modal := {| MenuView.modalTitle := VStr [];
                          MenuView.modalDescription := VStr [];
                          MenuView.modalIngredients := [];
                          MenuView.modalSteps := [];
                          MenuView.modal_hidden := true |} |}.

(** The menu page with the dishes of [menu] loaded. *)
Definition menu_loaded (menu : value) : MenuView.view :=
  {| MenuView.core := {| Menu.window := browser_with None menu_page;
                         Menu.currentMenu := menu;
                         Menu.allDishes := flatten menu;
                         Menu.currentUser := VNull |};
     MenuView.weekDate := js "Week of 2024-01-01";
     MenuView.dishGrid := MenuView.Markup;
     MenuView.modal := {| MenuView.modalTitle := VStr [];
                          MenuView.modalDescription := VStr [];
                          MenuView.modalIngredients := [];
                          MenuView.modalSteps := [];
                          MenuView.modal_hidden := true |} |}.

(** A success response with a menu of one dish and the week's date. *)
Definition one_dish_menu : value :=
  VObj [(js "monday",
         VObj [(js "lunch",
                VObj [(js "name", VStr (js "Bread"));
                      (js "ingredients", VArr [VStr (js "wheat flour")])])])].

Definition menu_found : response :=
  {| status := 200;
     body_text :=
       js "{" ++ json_key (js "menu") ++ js "{" ++ json_key (js "monday")
       ++ js "{" ++ json_key (js "lunch") ++ js "{"
       ++ json_key (js "name") ++ json_string (js "Bread") ++ js ","
       ++ json_key (js "ingredients") ++ js "[" ++ json_string (js "wheat flour")
       ++ js "]" ++ js "}}}" ++ js "," ++ json_key (js "week_start_date")
       ++ json_string (js "2024-01-01") ++ js "}" |}.

Definition not_found : response := {| status := 404; body_text := js "Not Found" |}.

(** *** Sample data *)

(** The login page as it is loaded, with the form filled in. *)
Definition login_form : LoginPage.page :=
  {| LoginPage.window := browser_with None login_page;
     LoginPage.isSignupMode := false;
     LoginPage.authTitle := js "Welcome Back";
     LoginPage.authSubtitle := js "Sign in to access your personalized meal plans";
     LoginPage.submitBtn_text := js "Sign In";
     LoginPage.switchText := js "Don't have an account?";
     LoginPage.switchBtn_text := js "Sign Up";
     LoginPage.submitBtn_disabled := false;
     LoginPage.errorMessage := None;
     LoginPage.errorMessage_hidden := true;
     LoginPage.emailInput := js "a@b.com";
     LoginPage.passwordInput := js "pw" |}.

(** A token response: [access_token] and [is_onboarded]. *)
Definition granted (token : jsstring) (onboarded : bool) : response :=
  {| status := 200;
     body_text := js "{" ++ json_key (js "access_token") ++ json_string token
                  ++ js "," ++ json_key (js "is_onboarded") ++ json_bool onboarded
                  ++ js "}" |}.

(** A success response with an empty object as its body. *)
Definition empty_object : response := {| status := 200; body_text := js "{}" |}.

(** Claims of an onboarded user and of one who is not, both valid until
    the year 5138. *)
Definition ann : claims :=
  {| sub := js "u-1"; email := js "ann@b.com";
     is_onboarded := Some true; expires := Some 99999999999 |}.

Definition bob : claims :=
  {| sub := js "u-2"; email := js "bob@b.com";
     is_onboarded := Some false; expires := Some 99999999999 |}.

End Scenario.

(** * Properties *)

Import Auth Spec.

(** [lia] with division and remainder by constants. *)
Ltac divlia := zify; Z.to_euclidean_division_equations; lia.

(** ** Facts about the runtime *)

(** Exhaustive check of a boolean property below a bound. *)
Lemma below_forall (n : nat) (P : N -> bool) :
  forallb P (map N.of_nat (seq 0 n)) = true ->
  forall v, v < N.of_nat n -> P v = true.
Proof.
  intros H v Hv. rewrite forallb_forall in H. apply H.
  apply in_map_iff. exists (N.to_nat v). split; [lia|].
  apply in_seq. lia.
Qed.

Lemma ltb_true (a b : N) : a < b -> (a <? b) = true.
Proof. apply N.ltb_lt. Qed.

Lemma ltb_false (a b : N) : b <= a -> (a <? b) = false.
Proof. apply N.ltb_ge. Qed.

Lemma leb_true (a b : N) : a <= b -> (a <=? b) = true.
Proof. apply N.leb_le. Qed.

Lemma leb_false (a b : N) : b < a -> (a <=? b) = false.
Proof. apply N.leb_gt. Qed.

Ltac decide_cmp :=
  repeat first
    [ rewrite ltb_true by divlia
    | rewrite ltb_false by divlia
    | rewrite leb_true by divlia
    | rewrite leb_false by divlia ].

Lemma Qltb_spec (a b : Q) : Qltb a b = true <-> (a < b)%Q.
Proof. unfold Qltb, Qlt. apply Z.ltb_lt. Qed.

(** A property read on a truthy value never throws. *)
Lemma get_truthy (v : value) (k : jsstring) :
  truthy v = true -> exists x, get v k = Return x.
Proof.
  destruct v; simpl; intros H; try discriminate; eauto.
Qed.

Lemma list_ind3 {A} (P : list A -> Prop) :
  P [] -> (forall a, P [a]) -> (forall a b, P [a; b]) ->
  (forall a b c l, P l -> P (a :: b :: c :: l)) ->
  forall l, P l.
Proof.
  intros H0 H1 H2 H3.
  assert (H : forall l, P l /\ (forall a, P (a :: l)) /\ (forall a b, P (a :: b :: l))).
  { induction l as [|x l (IH0 & IH1 & IH2)]; auto. }
  intros l. apply H.
Qed.

Lemma filter_all {A} (f : A -> bool) (l : list A) :
  Forall (fun x => f x = true) l -> List.filter f l = l.
Proof.
  induction 1 as [|x l Hx _ IH]; simpl; [reflexivity|].
  rewrite Hx, IH. reflexivity.
Qed.

(** ** Fuel

    [JSON.parse] and [decodeURIComponent] are given fuel, one unit per
    code unit of their input.  That is always enough: a verdict reached
    with any amount of fuel is the verdict of the function. *)

Section Fuel.

Local Arguments ch : simpl never.

Lemma parse_fuel_mono (f : nat) :
  (forall s res, parse_value f s = res -> settled res ->
     forall f', (f <= f')%nat -> parse_value f' s = res)
  /\ (forall s res, parse_elements f s = res -> settled res ->
        forall f', (f <= f')%nat -> parse_elements f' s = res)
  /\ (forall s res, parse_members f s = res -> settled res ->
        forall f', (f <= f')%nat -> parse_members f' s = res).
Proof.
  induction f as [|f (IHv & IHe & IHm)].
  - repeat split; intros s res H Hs; simpl in H; subst; exfalso; apply Hs; reflexivity.
  - repeat split; intros s res H Hs [|f'] Hle; try lia;
      assert (Hf : (f <= f')%nat) by lia; simpl in H |- *.
    + destruct (skip_ws s) as [|c r]; [exact H|].
      destruct (c =? ch "{").
      { destruct (skip_ws r) as [|c' r']; [exact H|].
        destruct (c' =? ch "}"); [exact H|].
        destruct (parse_members f (c' :: r')) eqn:E.
        - rewrite (IHm _ _ E ltac:(discriminate) f' Hf). exact H.
        - rewrite (IHm _ _ E ltac:(discriminate) f' Hf). exact H.
        - subst. exfalso. apply Hs. reflexivity. }
      destruct (c =? ch "[").
      { destruct (skip_ws r) as [|c' r']; [exact H|].
        destruct (c' =? ch "]"); [exact H|].
        destruct (parse_elements f (c' :: r')) eqn:E.
        - rewrite (IHe _ _ E ltac:(discriminate) f' Hf). exact H.
        - rewrite (IHe _ _ E ltac:(discriminate) f' Hf). exact H.
        - subst. exfalso. apply Hs. reflexivity. }
      exact H.
    + destruct (parse_value f s) eqn:E.
      * rewrite (IHv _ _ E ltac:(discriminate) f' Hf).
        destruct (skip_ws rest) as [|c r']; [exact H|].
        destruct (c =? ch ","); [|exact H].
        destruct (parse_elements f r') eqn:E'.
        -- rewrite (IHe _ _ E' ltac:(discriminate) f' Hf). exact H.
        -- rewrite (IHe _ _ E' ltac:(discriminate) f' Hf). exact H.
        -- subst. exfalso. apply Hs. reflexivity.
      * rewrite (IHv _ _ E ltac:(discriminate) f' Hf). exact H.
      * subst. exfalso. apply Hs. reflexivity.
    + destruct (skip_ws s) as [|q r0]; [exact H|].
      destruct (q =? 34); [|exact H].
      destruct (parse_chars r0) as [[k r1]|]; [|exact H].
      destruct (skip_ws r1) as [|c1 r2]; [exact H|].
      destruct (c1 =? ch ":"); [|exact H].
      destruct (parse_value f r2) eqn:E.
      * rewrite (IHv _ _ E ltac:(discriminate) f' Hf).
        destruct (skip_ws rest) as [|c3 r4]; [exact H|].
        destruct (c3 =? ch ","); [|exact H].
        destruct (parse_members f r4) eqn:E'.
        -- rewrite (IHm _ _ E' ltac:(discriminate) f' Hf). exact H.
        -- rewrite (IHm _ _ E' ltac:(discriminate) f' Hf). exact H.
        -- subst. exfalso. apply Hs. reflexivity.
      * rewrite (IHv _ _ E ltac:(discriminate) f' Hf). exact H.
      * subst. exfalso. apply Hs. reflexivity.
Qed.

Lemma skip_ws_length (s : jsstring) : (length (skip_ws s) <= length s)%nat.
Proof.
  induction s as [|c s IH]; simpl; [lia|].
  destruct (is_json_ws c); simpl; lia.
Qed.

Lemma parse_chars_length (s str r : jsstring) :
  parse_chars s = Some (str, r) -> (length r < length s)%nat.
Proof.
  revert str r.
  assert (H : forall n s, (length s <= n)%nat -> forall str r,
               parse_chars s = Some (str, r) -> (length r < length s)%nat).
  { induction n as [|n IH]; intros s0 Hn str r H.
    - destruct s0; [discriminate|simpl in Hn; lia].
    - destruct s0 as [|c t]; [discriminate|]. simpl in Hn. simpl in H.
      destruct (c =? 34); [inversion H; subst; simpl; lia|].
      destruct (c =? 92).
      + destruct t as [|e r1]; [discriminate|].
        destruct (e =? ch "u").
        * destruct r1 as [|h1 [|h2 [|h3 [|h4 r2]]]]; try discriminate.
          destruct (hex4 h1 h2 h3 h4); [|discriminate].
          destruct (parse_chars r2) as [[str' r']|] eqn:E; [|discriminate].
          simpl in H. inversion H; subst.
          apply IH in E; simpl in *; lia.
        * destruct (unescape e); [|discriminate].
          destruct (parse_chars r1) as [[str' r']|] eqn:E; [|discriminate].
          simpl in H. inversion H; subst.
          apply IH in E; simpl in *; lia.
      + destruct (c <? 32); [discriminate|].
        destruct (parse_chars t) as [[str' r']|] eqn:E; [|discriminate].
        simpl in H. inversion H; subst.
        apply IH in E; simpl in *; lia. }
  intros str r. apply (H (length s)). lia.
Qed.

Lemma strip_prefix_length (p s r : jsstring) :
  strip_prefix p s = Some r -> (length r + length p = length s)%nat.
Proof.
  revert s. induction p as [|a p IH]; intros s H; simpl in H.
  - inversion H; subst. simpl. lia.
  - destruct s as [|b s]; [discriminate|].
    destruct (a =? b); [|discriminate].
    apply IH in H. simpl. lia.
Qed.

Lemma span_digits_length (s : jsstring) :
  (length (snd (span_digits s)) + length (fst (span_digits s)) = length s)%nat.
Proof.
  induction s as [|c s IH]; simpl; [reflexivity|].
  destruct (is_digit c); [|simpl; lia].
  destruct (span_digits s) as [ds r]. simpl in *. lia.
Qed.

Lemma parse_exponent_length (s r : jsstring) (e : Z) :
  parse_exponent s = Some (e, r) -> (length r <= length s)%nat.
Proof.
  unfold parse_exponent. destruct s as [|c t]; [intros H; inversion H; simpl; lia|].
  destruct ((c =? ch "e") || (c =? ch "E")); [|intros H; inversion H; lia].
  destruct t as [|sg t'].
  - simpl. discriminate.
  - destruct (sg =? ch "-").
    + pose proof (span_digits_length t') as Hl.
      destruct (span_digits t') as [[|d ds] r2]; [discriminate|].
      intros H. inversion H; subst. simpl in *. lia.
    + destruct (sg =? ch "+").
      * pose proof (span_digits_length t') as Hl.
        destruct (span_digits t') as [[|d ds] r2]; [discriminate|].
        intros H. inversion H; subst. simpl in *. lia.
      * pose proof (span_digits_length (sg :: t')) as Hl.
        destruct (span_digits (sg :: t')) as [[|d ds] r2]; [discriminate|].
        intros H. inversion H; subst. simpl in *. lia.
Qed.

Lemma parse_number_length (s r : jsstring) (q : Q) :
  parse_number s = Some (q, r) -> (length r < length s)%nat.
Proof.
  unfold parse_number.
  set (p := match s with
            | c :: r0 => if c =? ch "-" then (true, r0) else (false, s)
            | [] => (false, s)
            end).
  assert (Hp : (length (snd p) <= length s)%nat).
  { unfold p. destruct s as [|c r0]; [simpl; lia|].
    destruct (c =? ch "-"); simpl; lia. }
  destruct p as [neg s1]. simpl in Hp.
  set (d := match s1 with
            | c :: r0 => if c =? ch "0" then ([0], r0) else span_digits s1
            | [] => ([], s1)
            end).
  assert (Hd : (length (snd d) + length (fst d) = length s1)%nat).
  { unfold d. destruct s1 as [|c r0]; [reflexivity|].
    destruct (c =? ch "0"); [simpl; lia|]. apply span_digits_length. }
  destruct d as [ids s2]. simpl in Hd.
  destruct ids as [|i ids]; [discriminate|].
  set (fr := match s2 with
             | d :: r0 =>
                 if d =? ch "." then
                   match span_digits r0 with
                   | ([], _) => None
                   | (fds, r') => Some (fds, r')
                   end
                 else Some ([], s2)
             | [] => Some ([], s2)
             end).
  assert (Hf : forall fds s3, fr = Some (fds, s3) -> (length s3 <= length s2)%nat).
  { unfold fr. intros fds s3. destruct s2 as [|d0 r0]; [intros H; inversion H; lia|].
    destruct (d0 =? ch "."); [|intros H; inversion H; lia].
    pose proof (span_digits_length r0) as Hl.
    destruct (span_digits r0) as [[|x xs] r']; [discriminate|].
    intros H. inversion H; subst. simpl in *. lia. }
  destruct fr as [[fds s3]|]; [|discriminate].
  specialize (Hf fds s3 eq_refl).
  destruct (parse_exponent s3) as [[e s4]|] eqn:He; [|discriminate].
  apply parse_exponent_length in He.
  intros H. inversion H; subst. simpl in *. lia.
Qed.

Lemma parse_scalar_length (s r : jsstring) (v : value) :
  parse_scalar s = POk v r -> (length r < length s)%nat.
Proof.
  unfold parse_scalar.
  destruct (strip_prefix (js "true") s) eqn:E1.
  { intros H. inversion H; subst. apply strip_prefix_length in E1. simpl in E1. lia. }
  destruct (strip_prefix (js "false") s) eqn:E2.
  { intros H. inversion H; subst. apply strip_prefix_length in E2. simpl in E2. lia. }
  destruct (strip_prefix (js "null") s) eqn:E3.
  { intros H. inversion H; subst. apply strip_prefix_length in E3. simpl in E3. lia. }
  destruct (parse_number s) as [[q r']|] eqn:E4; [|discriminate].
  intros H. inversion H; subst. apply (parse_number_length _ _ _ E4).
Qed.

Lemma parse_fuel_bound (F : nat) :
  (forall s v r, parse_value F s = POk v r -> enough parse_value s v r)
  /\ (forall s vs r, parse_elements F s = POk vs r -> enough parse_elements s vs r)
  /\ (forall s ms r, parse_members F s = POk ms r -> enough parse_members s ms r).
Proof.
  induction F as [|F (IHv & IHe & IHm)].
  - repeat split; intros; discriminate.
  - unfold enough in *. split; [|split]; intros s a r H; simpl in H.
    + pose proof (skip_ws_length s) as Hs.
      destruct (skip_ws s) as [|c t] eqn:Es; [discriminate|]. simpl in Hs.
      destruct (c =? ch "{") eqn:Ec1.
      { pose proof (skip_ws_length t) as Ht.
        destruct (skip_ws t) as [|c' t'] eqn:Et; [discriminate|]. simpl in Ht.
        destruct (c' =? ch "}") eqn:Ec2.
        - inversion H; subst. split; [lia|]. intros [|f] Hf; [lia|].
          simpl. rewrite Es, Ec1, Et, Ec2. reflexivity.
        - destruct (parse_members F (c' :: t')) as [ms r''| |] eqn:E; try discriminate.
          inversion H; subst. destruct (IHm _ _ _ E) as [Hl Hk]. simpl in Hl.
          split; [lia|]. intros [|f] Hf; [lia|].
          simpl. rewrite Es, Ec1, Et, Ec2, Hk by (simpl; lia). reflexivity. }
      destruct (c =? ch "[") eqn:Ec3.
      { pose proof (skip_ws_length t) as Ht.
        destruct (skip_ws t) as [|c' t'] eqn:Et; [discriminate|]. simpl in Ht.
        destruct (c' =? ch "]") eqn:Ec2.
        - inversion H; subst. split; [lia|]. intros [|f] Hf; [lia|].
          simpl. rewrite Es, Ec1, Ec3, Et, Ec2. reflexivity.
        - destruct (parse_elements F (c' :: t')) as [vs r''| |] eqn:E; try discriminate.
          inversion H; subst. destruct (IHe _ _ _ E) as [Hl Hk]. simpl in Hl.
          split; [lia|]. intros [|f] Hf; [lia|].
          simpl. rewrite Es, Ec1, Ec3, Et, Ec2, Hk by (simpl; lia). reflexivity. }
      destruct (c =? 34) eqn:Ec4.
      { destruct (parse_chars t) as [[str r']|] eqn:E; [|discriminate].
        inversion H; subst. apply parse_chars_length in E as Hl.
        split; [lia|]. intros [|f] Hf; [lia|].
        simpl. rewrite Es, Ec1, Ec3, Ec4, E. reflexivity. }
      apply parse_scalar_length in H as Hl. simpl in Hl.
      split; [lia|]. intros [|f] Hf; [lia|].
      simpl. rewrite Es, Ec1, Ec3, Ec4. exact H.
    + destruct (parse_value F s) as [v r1| |] eqn:E; try discriminate.
      destruct (IHv _ _ _ E) as [Hl Hk].
      pose proof (skip_ws_length r1) as Hr.
      destruct (skip_ws r1) as [|c t] eqn:Er; [discriminate|]. simpl in Hr.
      destruct (c =? ch ",") eqn:Ec1.
      * destruct (parse_elements F t) as [vs r2| |] eqn:E'; try discriminate.
        inversion H; subst. destruct (IHe _ _ _ E') as [Hl' Hk'].
        split; [lia|]. intros [|f] Hf; [lia|].
        simpl. rewrite Hk by lia. rewrite Er, Ec1, Hk' by lia. reflexivity.
      * destruct (c =? ch "]") eqn:Ec2; [|discriminate].
        inversion H; subst.
        split; [lia|]. intros [|f] Hf; [lia|].
        simpl. rewrite Hk by lia. rewrite Er, Ec1, Ec2. reflexivity.
    + pose proof (skip_ws_length s) as Hs.
      destruct (skip_ws s) as [|q r0] eqn:Es; [discriminate|]. simpl in Hs.
      destruct (q =? 34) eqn:Eq; [|discriminate].
      destruct (parse_chars r0) as [[k r1]|] eqn:Ek; [|discriminate].
      apply parse_chars_length in Ek as Hlk.
      pose proof (skip_ws_length r1) as Hr1.
      destruct (skip_ws r1) as [|c1 r2] eqn:Er1; [discriminate|]. simpl in Hr1.
      destruct (c1 =? ch ":") eqn:Ec1; [|discriminate].
      destruct (parse_value F r2) as [v r3| |] eqn:E; try discriminate.
      destruct (IHv _ _ _ E) as [Hl Hk].
      pose proof (skip_ws_length r3) as Hr3.
      destruct (skip_ws r3) as [|c3 r4] eqn:Er3; [discriminate|]. simpl in Hr3.
      destruct (c3 =? ch ",") eqn:Ec3.
      * destruct (parse_members F r4) as [ms r5| |] eqn:E'; try discriminate.
        inversion H; subst. destruct (IHm _ _ _ E') as [Hl' Hk'].
        split; [lia|]. intros [|f] Hf; [lia|].
        simpl. rewrite Es, Eq, Ek, Er1, Ec1, Hk by lia.
        rewrite Er3, Ec3, Hk' by lia. reflexivity.
      * destruct (c3 =? ch "}") eqn:Ec4; [|discriminate].
        inversion H; subst.
        split; [lia|]. intros [|f] Hf; [lia|].
        simpl. rewrite Es, Eq, Ek, Er1, Ec1, Hk by lia.
        rewrite Er3, Ec3, Ec4. reflexivity.
Qed.

(** [JSON.parse] decides as the parser does with any fuel that lets it
    reach a verdict: the fuel it is given is enough for every text. *)
Theorem JSON_parse_fuel (text : jsstring) (fuel : nat) :
  parse_value fuel text <> PFuel ->
  JSON_parse text =
  match parse_value fuel text with
  | POk v r =>
      match skip_ws r with
      | [] => Return v
      | _ :: _ => Throw SyntaxError
      end
  | PErr | PFuel => Throw SyntaxError
  end.
Proof.
  intros Hs. unfold JSON_parse.
  destruct (parse_value fuel text) as [v r| |] eqn:E.
  - destruct (proj1 (parse_fuel_bound fuel) _ _ _ E) as [Hl Hk].
    rewrite Hk by lia. reflexivity.
  - destruct (parse_value (S (length text)) text) as [v r| |] eqn:E'; try reflexivity.
    exfalso.
    destruct (Nat.le_ge_cases fuel (S (length text))) as [Hle|Hle].
    + rewrite (proj1 (parse_fuel_mono fuel) _ _ E ltac:(discriminate) _ Hle) in E'.
      discriminate.
    + rewrite (proj1 (parse_fuel_mono _) _ _ E' ltac:(discriminate) _ Hle) in E.
      discriminate.
  - exfalso. apply Hs. reflexivity.
Qed.

(** *** Fuel of the percent decoder *)

Lemma parse_hex_octet_length (s r : jsstring) (b : N) :
  parse_hex_octet s = Some (b, r) -> (length s = 2 + length r)%nat.
Proof.
  unfold parse_hex_octet. destruct s as [|x [|y t]]; try discriminate.
  destruct (hex_value x); [|discriminate].
  destruct (hex_value y); [|discriminate].
  intros H. inversion H; subst. reflexivity.
Qed.

Lemma take_octets_length (n : nat) (s r : jsstring) (bs : list N) :
  take_octets n s = Some (bs, r) -> (length r <= length s)%nat.
Proof.
  revert s bs. induction n as [|n IH]; intros s bs H; simpl in H.
  - inversion H; subst. lia.
  - destruct s as [|p t]; [discriminate|].
    destruct (p =? ch "%"); [|discriminate].
    destruct (parse_hex_octet t) as [[b t']|] eqn:E; [|discriminate].
    apply parse_hex_octet_length in E.
    destruct (take_octets n t') as [[bs' r']|] eqn:E'; [|discriminate].
    inversion H; subst. apply IH in E'. simpl. lia.
Qed.

Lemma decode_loop_fuel_any (n : nat) :
  forall s f1 f2,
    (length s <= n)%nat -> (length s <= f1)%nat -> (length s <= f2)%nat ->
    decode_loop f1 s = decode_loop f2 s.
Proof.
  induction n as [|n IH]; intros s f1 f2 Hn H1 H2.
  - destruct s; [|simpl in Hn; lia]. destruct f1, f2; reflexivity.
  - destruct s as [|c r]; [destruct f1, f2; reflexivity|].
    simpl in Hn, H1, H2.
    destruct f1 as [|f1]; [lia|]. destruct f2 as [|f2]; [lia|].
    cbn [decode_loop].
    destruct (c =? ch "%").
    + destruct (parse_hex_octet r) as [[b r1]|] eqn:E; [|reflexivity].
      apply parse_hex_octet_length in E.
      destruct (leading_ones b) as [|[|[|[|[|[|k]]]]]] eqn:El; try reflexivity.
      * rewrite (IH r1 f1 f2) by lia. reflexivity.
      * destruct (take_octets 1 r1) as [[bs r2]|] eqn:E'; [|reflexivity].
        apply take_octets_length in E'.
        destruct (utf8_code_point (b :: bs)); [|reflexivity].
        rewrite (IH r2 f1 f2) by lia. reflexivity.
      * destruct (take_octets 2 r1) as [[bs r2]|] eqn:E'; [|reflexivity].
        apply take_octets_length in E'.
        destruct (utf8_code_point (b :: bs)); [|reflexivity].
        rewrite (IH r2 f1 f2) by lia. reflexivity.
      * destruct (take_octets 3 r1) as [[bs r2]|] eqn:E'; [|reflexivity].
        apply take_octets_length in E'.
        destruct (utf8_code_point (b :: bs)); [|reflexivity].
        rewrite (IH r2 f1 f2) by lia. reflexivity.
      * exfalso. unfold leading_ones in El.
        repeat match type of El with
               | context [if ?x then _ else _] => destruct x
               end; discriminate.
    + rewrite (IH r f1 f2) by lia. reflexivity.
Qed.

(** The decoder does not depend on its fuel once there is a unit of it
    for each code unit of the string. *)
Lemma decode_loop_fuel (s : jsstring) (fuel : nat) :
  (length s <= fuel)%nat -> decode_loop fuel s = decode_loop (length s) s.
Proof.
  intros H. apply (decode_loop_fuel_any (length s)); lia.
Qed.

End Fuel.

(** ** Session inspector: decoding the claims

    The round trip is proved stage by stage, in the order of [parseJwt]:
    the middle segment, [atob], the percent escapes and their UTF-8
    decoding, [JSON.parse]. *)

(** *** Splitting the token *)

Lemma split_dot_free (a b : jsstring) :
  dot_free a -> split (ch ".") (a ++ ch "." :: b) = a :: split (ch ".") b.
Proof.
  induction 1 as [|c a Hc _ IH]; cbn [split app].
  - rewrite N.eqb_refl. reflexivity.
  - destruct (c =? ch ".") eqn:E.
    + apply N.eqb_eq in E. contradiction.
    + rewrite IH. reflexivity.
Qed.

Lemma split_head (s : jsstring) : exists seg segs, split (ch ".") s = seg :: segs.
Proof.
  induction s as [|c s (seg & segs & IH)]; cbn [split]; eauto.
  destruct (c =? ch "."); eauto. rewrite IH. eauto.
Qed.

Lemma middle_segment (header seg signature : jsstring) :
  dot_free header -> dot_free seg ->
  nth_error (split (ch ".") (header ++ ch "." :: seg ++ ch "." :: signature)) 1
  = Some seg.
Proof.
  intros Hh Hs. rewrite (split_dot_free header), (split_dot_free seg) by assumption.
  reflexivity.
Qed.

(** *** base64url *)

Lemma base64url_char_value (v : N) :
  v < 64 ->
  base64_value (standard_char (base64url_char v)) = Some v
  /\ base64url_char v <> ch "."
  /\ standard_char (base64url_char v) <> 61
  /\ is_ascii_whitespace (standard_char (base64url_char v)) = false.
Proof.
  intros Hv.
  pose proof (below_forall 64
    (fun v =>
       let c := base64url_char v in
       match base64_value (standard_char c) with Some w => w =? v | None => false end
       && negb (c =? ch ".") && negb (standard_char c =? 61)
       && negb (is_ascii_whitespace (standard_char c))) eq_refl v Hv) as H.
  cbv beta zeta in H.
  rewrite !andb_true_iff, !negb_true_iff in H.
  destruct H as (((H1 & H2) & H3) & H4).
  destruct (base64_value _) as [w|] eqn:Hw; [|discriminate].
  apply N.eqb_eq in H1. subst w.
  apply N.eqb_neq in H2, H3. auto.
Qed.

Lemma encode_sextets_bound (bytes : list N) :
  Forall is_byte bytes -> Forall (fun v => v < 64) (encode_sextets bytes).
Proof.
  unfold is_byte.
  induction bytes as [|a|a b|a b c l IH] using list_ind3; cbn [encode_sextets]; intros H.
  - constructor.
  - inversion_clear H. repeat constructor; divlia.
  - inversion_clear H as [|? ? Ha H']. inversion_clear H'.
    repeat constructor; divlia.
  - inversion_clear H as [|? ? Ha H']. inversion_clear H' as [|? ? Hb H''].
    inversion_clear H'' as [|? ? Hc Hl].
    repeat constructor; try divlia. auto.
Qed.

Lemma encode_sextets_length (bytes : list N) :
  (length (encode_sextets bytes) mod 4 =? 1)%nat = false.
Proof.
  induction bytes as [|a|a b|a b c l IH] using list_ind3; cbn [encode_sextets];
    try reflexivity.
  cbn [length]. 
  replace (S (S (S (S (length (encode_sextets l)))))) with (length (encode_sextets l) + 1 * 4)%nat by lia.
  rewrite Nat.Div0.mod_add. exact IH.
Qed.

Lemma decode_encode_sextets (bytes : list N) :
  Forall is_byte bytes -> decode_sextets (encode_sextets bytes) = bytes.
Proof.
  unfold is_byte.
  induction bytes as [|a|a b|a b c l IH] using list_ind3; cbn [encode_sextets]; intros H.
  - reflexivity.
  - inversion_clear H. cbn [decode_sextets]. f_equal. divlia.
  - inversion_clear H as [|? ? Ha H']. inversion_clear H'.
    cbn [decode_sextets]. f_equal; [|f_equal]; divlia.
  - inversion_clear H as [|? ? Ha H']. inversion_clear H' as [|? ? Hb H''].
    inversion_clear H'' as [|? ? Hc Hl].
    cbn [decode_sextets]. rewrite (IH Hl).
    f_equal; [|f_equal; [|f_equal]]; divlia.
Qed.

Lemma replace_standard (s : jsstring) :
  replace_all (ch "_") (ch "/") (replace_all (ch "-") (ch "+") s) = map standard_char s.
Proof. unfold replace_all. rewrite map_map. reflexivity. Qed.

Lemma strip_padding_none (s : jsstring) :
  Forall (fun c => c <> 61) s -> strip_padding s = s.
Proof.
  intros H. unfold strip_padding.
  destruct (length s mod 4 =? 0)%nat; [|reflexivity].
  destruct (rev s) as [|a [|b r]] eqn:Hr; try reflexivity.
  assert (Ha : In a s) by (apply in_rev; rewrite Hr; left; reflexivity).
  rewrite List.Forall_forall in H. apply H in Ha.
  apply N.eqb_neq in Ha. rewrite Ha. reflexivity.
Qed.

Lemma sextets_standard (sx : list N) :
  Forall (fun v => v < 64) sx ->
  sextets (map standard_char (map base64url_char sx)) = Some sx.
Proof.
  induction 1 as [|v sx Hv _ IH]; cbn [map sextets]; [reflexivity|].
  destruct (base64url_char_value v Hv) as (H1 & _).
  rewrite H1, IH. reflexivity.
Qed.

Lemma base64url_dot_free (bytes : list N) :
  Forall is_byte bytes -> dot_free (base64url_encode bytes).
Proof.
  intros H. apply encode_sextets_bound in H.
  unfold base64url_encode, dot_free.
  induction H as [|v sx Hv _ IH]; simpl; constructor; auto.
  apply (base64url_char_value v Hv).
Qed.

Lemma atob_base64url (bytes : list N) :
  Forall is_byte bytes ->
  atob (replace_all (ch "_") (ch "/")
          (replace_all (ch "-") (ch "+") (base64url_encode bytes)))
  = Return bytes.
Proof.
  intros Hb. pose proof (encode_sextets_bound bytes Hb) as Hs.
  rewrite replace_standard. unfold atob, base64url_encode.
  set (d := map standard_char (map base64url_char (encode_sextets bytes))).
  assert (Hws : Forall (fun c => negb (is_ascii_whitespace c) = true) d).
  { unfold d. clear -Hs. induction Hs as [|v sx Hv _ IH]; simpl; constructor; auto.
    destruct (base64url_char_value v Hv) as (_ & _ & _ & H).
    rewrite H. reflexivity. }
  assert (Hpad : Forall (fun c => c <> 61) d).
  { unfold d. clear -Hs. induction Hs as [|v sx Hv _ IH]; simpl; constructor; auto.
    apply (base64url_char_value v Hv). }
  rewrite (filter_all _ d Hws), (strip_padding_none d Hpad).
  replace (length d) with (length (encode_sextets bytes))
    by (unfold d; rewrite !length_map; reflexivity).
  rewrite encode_sextets_length.
  unfold d. rewrite (sextets_standard _ Hs).
  rewrite (decode_encode_sextets bytes Hb). reflexivity.
Qed.

(** *** Percent escapes and UTF-8 *)

Lemma percent_escape_byte (b : N) (rest : jsstring) :
  is_byte b ->
  exists h1 h2,
    percent_escape b ++ rest = ch "%" :: h1 :: h2 :: rest
    /\ parse_hex_octet (h1 :: h2 :: rest) = Some (b, rest).
Proof.
  intros Hb.
  pose proof (below_forall 256
    (fun b => match percent_escape b with
              | [p; h1; h2] =>
                  (p =? ch "%")
                  && match hex_value h1, hex_value h2 with
                     | Some x, Some y => 16 * x + y =? b
                     | _, _ => false
                     end
              | _ => false
              end) eq_refl b Hb) as H.
  cbv beta in H.
  destruct (percent_escape b) as [|p [|h1 [|h2 [|]]]]; try discriminate.
  apply andb_true_iff in H. destruct H as [Hp H].
  apply N.eqb_eq in Hp. subst p.
  exists h1, h2. split; [reflexivity|].
  unfold parse_hex_octet.
  destruct (hex_value h1); [|discriminate].
  destruct (hex_value h2); [|discriminate].
  apply N.eqb_eq in H. rewrite H. reflexivity.
Qed.

Lemma escaped_cons (b : N) (bytes : list N) :
  escaped (b :: bytes) = percent_escape b ++ escaped bytes.
Proof. reflexivity. Qed.

Lemma escaped_app (a b : list N) : escaped (a ++ b) = escaped a ++ escaped b.
Proof. unfold escaped. rewrite map_app, concat_app. reflexivity. Qed.

Lemma take_octets_escaped (bs : list N) (rest : jsstring) :
  Forall is_byte bs ->
  take_octets (length bs) (escaped bs ++ rest) = Some (bs, rest).
Proof.
  induction 1 as [|b bs Hb _ IH]; [reflexivity|].
  rewrite escaped_cons, <- app_assoc.
  destruct (percent_escape_byte b (escaped bs ++ rest) Hb) as (h1 & h2 & -> & Hp).
  cbn [length take_octets]. rewrite N.eqb_refl, Hp, IH. reflexivity.
Qed.

Lemma decode_scalar (c : N) (f : nat) (rest : jsstring) :
  is_scalar c = true ->
  decode_loop (S f) (escaped (utf8_encode_scalar c) ++ rest)
  = prepend (utf16_encode c) (decode_loop f rest).
Proof.
  intros Hc. unfold is_scalar in Hc.
  rewrite orb_true_iff, andb_true_iff, N.ltb_lt, !N.leb_le in Hc.
  unfold utf8_encode_scalar.
  destruct (N.ltb_spec c 128) as [H1|H1].
  { (* one octet *)
    rewrite escaped_cons, <- app_assoc.
    destruct (percent_escape_byte c (escaped [] ++ rest)) as (h1 & h2 & -> & Hp);
      [unfold is_byte; lia|].
    cbn [decode_loop]. rewrite N.eqb_refl, Hp.
    unfold leading_ones. decide_cmp.
    unfold utf16_encode. decide_cmp. reflexivity. }
  destruct (N.ltb_spec c 2048) as [H2|H2].
  { (* two octets *)
    rewrite escaped_cons, <- app_assoc.
    destruct (percent_escape_byte (192 + c / 64)
                (escaped [128 + c mod 64] ++ rest)) as (h1 & h2 & -> & Hp);
      [unfold is_byte; divlia|].
    cbn [decode_loop]. rewrite N.eqb_refl, Hp.
    unfold leading_ones. decide_cmp.
    cbv iota beta.
    assert (Ht : take_octets (length [128 + c mod 64]) (escaped [128 + c mod 64] ++ rest) = Some ([128 + c mod 64], rest))
      by (apply take_octets_escaped; repeat constructor; unfold is_byte; divlia).
    cbn [length] in Ht. rewrite Ht. clear Ht.
    unfold utf8_code_point, is_continuation. decide_cmp. cbn [andb].
    replace ((192 + c / 64 - 192) * 64 + (128 + c mod 64 - 128)) with c by divlia.
    reflexivity. }
  destruct (N.ltb_spec c 65536) as [H3|H3].
  { (* three octets *)
    rewrite escaped_cons, <- app_assoc.
    destruct (percent_escape_byte (224 + c / 4096)
                (escaped [128 + (c / 64) mod 64; 128 + c mod 64] ++ rest))
      as (h1 & h2 & -> & Hp); [unfold is_byte; divlia|].
    cbn [decode_loop]. rewrite N.eqb_refl, Hp.
    unfold leading_ones. decide_cmp.
    cbv iota beta.
    assert (Ht : take_octets (length [128 + (c / 64) mod 64; 128 + c mod 64]) (escaped [128 + (c / 64) mod 64; 128 + c mod 64] ++ rest) = Some ([128 + (c / 64) mod 64; 128 + c mod 64], rest))
      by (apply take_octets_escaped; repeat constructor; unfold is_byte; divlia).
    cbn [length] in Ht. rewrite Ht. clear Ht.
    unfold utf8_code_point, is_continuation. decide_cmp. cbn [andb].
    replace (((224 + c / 4096 - 224) * 64 + (128 + (c / 64) mod 64 - 128)) * 64
             + (128 + c mod 64 - 128)) with c by divlia.
    destruct Hc as [Hc|[Hc Hc']].
    - decide_cmp. reflexivity.
    - decide_cmp. rewrite andb_false_r. reflexivity. }
  { (* four octets *)
    destruct Hc as [Hc|[Hc Hc']]; [lia|].
    rewrite escaped_cons, <- app_assoc.
    destruct (percent_escape_byte (240 + c / 262144)
                (escaped [128 + (c / 4096) mod 64; 128 + (c / 64) mod 64;
                          128 + c mod 64] ++ rest))
      as (h1 & h2 & -> & Hp); [unfold is_byte; divlia|].
    cbn [decode_loop]. rewrite N.eqb_refl, Hp.
    unfold leading_ones. decide_cmp.
    cbv iota beta.
    assert (Ht : take_octets (length [128 + (c / 4096) mod 64; 128 + (c / 64) mod 64;
                                  128 + c mod 64]) (escaped [128 + (c / 4096) mod 64; 128 + (c / 64) mod 64;
                                  128 + c mod 64] ++ rest) = Some ([128 + (c / 4096) mod 64; 128 + (c / 64) mod 64;
                                  128 + c mod 64], rest))
      by (apply take_octets_escaped; repeat constructor; unfold is_byte; divlia).
    cbn [length] in Ht. rewrite Ht. clear Ht.
    unfold utf8_code_point, is_continuation. decide_cmp. cbn [andb].
    replace ((((240 + c / 262144 - 240) * 64 + (128 + (c / 4096) mod 64 - 128)) * 64
              + (128 + (c / 64) mod 64 - 128)) * 64 + (128 + c mod 64 - 128))
      with c by divlia.
    decide_cmp. reflexivity. }
Qed.

Lemma utf8_encode_cons (c : N) (t : list N) :
  utf8_encode (c :: t) = utf8_encode_scalar c ++ utf8_encode t.
Proof. reflexivity. Qed.

Lemma decode_loop_text (t : list N) (fuel : nat) :
  is_text t -> (length t <= fuel)%nat ->
  decode_loop fuel (escaped (utf8_encode t)) = Some (utf16 t).
Proof.
  intros Ht. revert fuel. induction Ht as [|c t Hc _ IH]; intros fuel Hf.
  - destruct fuel; reflexivity.
  - destruct fuel as [|f]; [simpl in Hf; lia|].
    rewrite utf8_encode_cons, escaped_app, (decode_scalar c f _ Hc).
    rewrite IH by (simpl in Hf; lia). reflexivity.
Qed.

Lemma escaped_length (t : list N) : (length t <= length (escaped (utf8_encode t)))%nat.
Proof.
  induction t as [|c t IH]; [simpl; lia|].
  rewrite utf8_encode_cons, escaped_app, length_app.
  assert (1 <= length (escaped (utf8_encode_scalar c)))%nat; [|simpl; lia].
  unfold utf8_encode_scalar.
  repeat match goal with |- context [if ?b then _ else _] => destruct b end;
    rewrite escaped_cons, length_app; unfold percent_escape; simpl; lia.
Qed.

Lemma decodeURIComponent_utf8 (t : list N) :
  is_text t ->
  decodeURIComponent (concat (map percent_escape (utf8_encode t))) = Return (utf16 t).
Proof.
  intros Ht. unfold decodeURIComponent.
  fold (escaped (utf8_encode t)).
  rewrite (decode_loop_text t _ Ht (escaped_length t)). reflexivity.
Qed.

Lemma utf8_encode_bytes (t : list N) :
  is_text t -> Forall is_byte (utf8_encode t).
Proof.
  induction 1 as [|c t Hc _ IH]; [constructor|].
  rewrite utf8_encode_cons. apply Forall_app. split; [|exact IH].
  unfold is_scalar in Hc.
  rewrite orb_true_iff, andb_true_iff, N.ltb_lt, !N.leb_le in Hc.
  unfold utf8_encode_scalar, is_byte.
  destruct (N.ltb_spec c 128); [repeat constructor; lia|].
  destruct (N.ltb_spec c 2048); [repeat constructor; divlia|].
  destruct (N.ltb_spec c 65536); repeat constructor; divlia.
Qed.

(** *** The JSON text of the claims *)

Lemma utf16_app (a b : list N) : utf16 (a ++ b) = utf16 a ++ utf16 b.
Proof. unfold utf16. apply flat_map_app. Qed.

Lemma utf16_cons (c : N) (t : list N) : utf16 (c :: t) = utf16_encode c ++ utf16 t.
Proof. reflexivity. Qed.

Lemma parse_chars_unicode (h1 h2 h3 h4 u : N) (r : jsstring) :
  hex4 h1 h2 h3 h4 = Some u ->
  parse_chars (92 :: 117 :: h1 :: h2 :: h3 :: h4 :: r) = cons_char u (parse_chars r).
Proof. intros H. simpl. rewrite H. reflexivity. Qed.

Lemma cons_char_prepend (c : N) (r : option (jsstring * jsstring)) :
  cons_char c r = prepend_chars [c] r.
Proof. destruct r as [[s rest]|]; reflexivity. Qed.

Lemma parse_chars_escape (c : N) (r : jsstring) :
  is_scalar c = true ->
  parse_chars (utf16 (json_escape c) ++ r) = prepend_chars (utf16_encode c) (parse_chars r).
Proof.
  intros Hc. unfold is_scalar in Hc.
  rewrite orb_true_iff, andb_true_iff, N.ltb_lt, !N.leb_le in Hc.
  unfold json_escape.
  destruct (N.eqb_spec c 34) as [->|H34].
  { cbn. destruct (parse_chars r) as [[s rest]|]; reflexivity. }
  destruct (N.eqb_spec c 92) as [->|H92].
  { cbn. destruct (parse_chars r) as [[s rest]|]; reflexivity. }
  destruct (N.ltb_spec c 32) as [H32|H32].
  { pose proof (below_forall 32
      (fun c => match hex4 48 48 (hex_digit (c / 16)) (hex_digit (c mod 16)) with
                | Some u => u =? c
                | None => false
                end
                && (hex_digit (c / 16) <? 65536) && (hex_digit (c mod 16) <? 65536))
      eq_refl c H32) as H.
    cbv beta in H. rewrite !andb_true_iff in H. destruct H as ((H & Ha) & Hb).
    destruct (hex4 _ _ _ _) as [u|] eqn:Hu; [|discriminate].
    apply N.eqb_eq in H. subst u.
    assert (Hx : forall x, x < 65536 -> utf16_encode x = [x])
      by (intros x Hx; unfold utf16_encode; rewrite ltb_true by exact Hx; reflexivity).
    apply N.ltb_lt in Ha, Hb.
    change (js "\u00") with [92; 117; 48; 48].
    cbn [app utf16 flat_map].
    rewrite (Hx 92), (Hx 117), (Hx 48), (Hx _ Ha), (Hx _ Hb), (Hx c) by lia.
    cbn [app]. rewrite (parse_chars_unicode _ _ _ _ c r Hu).
    apply cons_char_prepend. }
  cbn [utf16 flat_map]. rewrite app_nil_r.
  unfold utf16_encode.
  destruct (N.ltb_spec c 65536) as [H16|H16].
  - cbn [app parse_chars].
    rewrite (proj2 (N.eqb_neq c 34) H34), (proj2 (N.eqb_neq c 92) H92).
    decide_cmp. destruct (parse_chars r) as [[s rest]|]; reflexivity.
  - cbn [app parse_chars].
    destruct Hc as [Hc|[Hc Hc']]; [lia|].
    rewrite (proj2 (N.eqb_neq (55296 + (c - 65536) / 1024) 34)) by divlia.
    rewrite (proj2 (N.eqb_neq (55296 + (c - 65536) / 1024) 92)) by divlia.
    rewrite (proj2 (N.eqb_neq (56320 + (c - 65536) mod 1024) 34)) by divlia.
    rewrite (proj2 (N.eqb_neq (56320 + (c - 65536) mod 1024) 92)) by divlia.
    decide_cmp. destruct (parse_chars r) as [[s rest]|]; reflexivity.
Qed.

Lemma parse_chars_text (t : list N) (rest : jsstring) :
  is_text t ->
  parse_chars (utf16 (flat_map json_escape t) ++ 34 :: rest) = Some (utf16 t, rest).
Proof.
  induction 1 as [|c t Hc _ IH].
  - reflexivity.
  - cbn [flat_map]. rewrite utf16_app, <- app_assoc, (parse_chars_escape c _ Hc), IH.
    reflexivity.
Qed.

Lemma utf16_ascii (s : jsstring) :
  forallb (fun c => c <? 65536) s = true -> utf16 s = s.
Proof.
  induction s as [|c s IH]; [reflexivity|].
  cbn [forallb]. rewrite andb_true_iff. intros [Hc Hs].
  rewrite utf16_cons, (IH Hs). unfold utf16_encode. rewrite Hc. reflexivity.
Qed.

Lemma parse_chars_plain (k r : jsstring) :
  Forall plain k -> parse_chars (k ++ 34 :: r) = Some (k, r).
Proof.
  induction 1 as [|c k (H34 & H92 & H32) _ IH]; [reflexivity|].
  cbn [app parse_chars].
  rewrite (proj2 (N.eqb_neq c 34) H34), (proj2 (N.eqb_neq c 92) H92).
  rewrite ltb_false by exact H32. rewrite IH. reflexivity.
Qed.

Lemma parse_value_string (f : nat) (s str r : jsstring) :
  parse_chars s = Some (str, r) ->
  parse_value (S f) (34 :: s) = POk (VStr str) r.
Proof. intros H. cbn. rewrite H. reflexivity. Qed.

Lemma parse_value_object (f : nat) (s : jsstring) ms r :
  parse_members f (34 :: s) = POk ms r ->
  parse_value (S f) (123 :: 34 :: s) = POk (VObj ms) r.
Proof. intros H. cbn. rewrite H. reflexivity. Qed.

Lemma parse_members_more (f : nat) (s k r2 r4 : jsstring) v ms r5 :
  parse_chars s = Some (k, 58 :: r2) ->
  parse_value f r2 = POk v (44 :: r4) ->
  parse_members f r4 = POk ms r5 ->
  parse_members (S f) (34 :: s) = POk ((k, v) :: ms) r5.
Proof.
  intros Hk Hv Hm. cbn. rewrite Hk.
  cbn. rewrite Hv.
  cbn. rewrite Hm. reflexivity.
Qed.

Lemma parse_members_last (f : nat) (s k r2 r4 : jsstring) v :
  parse_chars s = Some (k, 58 :: r2) ->
  parse_value f r2 = POk v (125 :: r4) ->
  parse_members (S f) (34 :: s) = POk [(k, v)] r4.
Proof.
  intros Hk Hv. cbn. rewrite Hk.
  cbn. rewrite Hv. reflexivity.
Qed.

Lemma parse_value_bool (f : nat) (b : bool) (r : jsstring) :
  parse_value (S f) (json_bool b ++ r) = POk (VBool b) r.
Proof. destruct b; reflexivity. Qed.


Lemma plain_literal (s : jsstring) :
  forallb (fun c => negb (c =? 34) && negb (c =? 92) && (32 <=? c)) s = true ->
  Forall plain s.
Proof.
  intros H. rewrite forallb_forall in H. apply List.Forall_forall. intros c Hc.
  specialize (H c Hc). rewrite !andb_true_iff, !negb_true_iff, !N.eqb_neq, N.leb_le in H.
  unfold plain. tauto.
Qed.

(** *** Decimal numerals *)

Lemma digits_value_snoc (ds : list N) (d : N) :
  digits_value 10 (ds ++ [d]) = digits_value 10 ds * 10 + d.
Proof. unfold digits_value. rewrite fold_left_app. reflexivity. Qed.

Lemma to_dec_aux_step (f : nat) (n : N) :
  to_dec_aux (S f) n
  = if n <? 10 then [48 + n] else to_dec_aux f (n / 10) ++ [48 + n mod 10].
Proof. reflexivity. Qed.

Lemma to_dec_aux_numeral (f : nat) :
  forall n, n < 2 ^ N.of_nat f -> numeral n (to_dec_aux (S f) n).
Proof.
  induction f as [|f IH]; intros n Hn.
  - assert (n = 0) as -> by (simpl in Hn; lia).
    exists 0, []. repeat split; auto; lia.
  - rewrite to_dec_aux_step. destruct (N.ltb_spec n 10) as [H10|H10].
    + exists n, []. repeat split; auto; try lia.
    + assert (Hdiv : n / 10 < 2 ^ N.of_nat f).
      { rewrite Nat2N.inj_succ, N.pow_succ_r' in Hn.
        apply N.Div0.div_lt_upper_bound. lia. }
      destruct (IH _ Hdiv) as (d & ds & Hs & Hd & Hds & Hz & Hv).
      exists d, (ds ++ [n mod 10]).
      rewrite Hs. rewrite map_app. cbn [map app].
      split; [reflexivity|]. split; [exact Hd|].
      split.
      { apply Forall_app. split; [exact Hds|]. repeat constructor.
        apply N.mod_lt. lia. }
      split.
      { intros H0. destruct (Hz H0) as [Hn0 _].
        assert (1 <= n / 10) by (apply N.div_le_lower_bound; lia). lia. }
      change (d :: ds ++ [n mod 10]) with ((d :: ds) ++ [n mod 10]).
      rewrite digits_value_snoc, Hv.
      pose proof (N.div_mod n 10). lia.
Qed.

Lemma json_nat_numeral (n : N) : numeral n (json_nat n).
Proof.
  unfold json_nat, toString10. apply to_dec_aux_numeral.
  rewrite N2Nat.id. apply N.size_gt.
Qed.

Lemma span_digits_digits (ds : list N) (c : N) (rest : jsstring) :
  Forall (fun x => x < 10) ds -> is_digit c = false ->
  span_digits (map (N.add 48) ds ++ c :: rest) = (ds, c :: rest).
Proof.
  intros Hds Hc. induction Hds as [|d ds Hd _ IH]; cbn [map app span_digits].
  - rewrite Hc. reflexivity.
  - unfold is_digit at 1. rewrite leb_true, leb_true by lia. cbn [andb].
    rewrite IH. f_equal. f_equal. lia.
Qed.

Lemma decimal_nat (ds : list N) :
  decimal false ds [] 0 = inject_Z (Z.of_N (digits_value 10 ds)).
Proof.
  unfold decimal. rewrite app_nil_r.
  change (pow10 (0 - Z.of_nat (length (@nil N)))) with (inject_Z 1).
  set (m := Z.of_N (digits_value 10 ds)).
  assert (Hm : (0 <= m)%Z) by (subst m; lia).
  assert (Hred : Qred (inject_Z m * inject_Z 1) = inject_Z m).
  { rewrite (Qred_complete (inject_Z m * inject_Z 1) (inject_Z m)).
    - apply Qred_identity. simpl. apply Z.gcd_1_r.
    - unfold Qeq. simpl. lia. }
  cbv zeta. rewrite Hred. unfold rounds_to_zero.
  change (Qnum (inject_Z m)) with m. change (Z.pos (Qden (inject_Z m))) with 1%Z.
  destruct (Z.leb_spec (Z.abs m * 2 ^ 1075) 1) as [H|H]; [|reflexivity].
  assert (Hp : (2 <= 2 ^ 1075)%Z).
  { change 2%Z with (2 ^ 1)%Z at 1. apply Z.pow_le_mono_r; lia. }
  assert (m = 0%Z) by nia.
  subst m. rewrite H0. reflexivity.
Qed.

Lemma parse_value_nat (f : nat) (n c : N) (rest : jsstring) :
  separator c ->
  parse_value (S f) (json_nat n ++ c :: rest) = POk (VNum (of_Z (Z.of_N n))) (c :: rest).
Proof.
  intros Hc.
  assert (Hsep : is_digit c = false /\ (c =? ch ".") = false
                 /\ (c =? ch "e") || (c =? ch "E") = false)
    by (destruct Hc as [-> | ->]; repeat split; reflexivity).
  destruct Hsep as (Hc1 & Hc2 & Hc3).
  destruct (json_nat_numeral n) as (d & ds & -> & Hd & Hds & Hz & Hv).
  pose proof (below_forall 10
    (fun d => negb (is_json_ws (48 + d)) && negb (48 + d =? ch "{")
              && negb (48 + d =? ch "[") && negb (48 + d =? 34)
              && negb (48 + d =? 116) && negb (48 + d =? 102)
              && negb (48 + d =? 110) && negb (48 + d =? ch "-")
              && (if d =? 0 then 48 + d =? ch "0" else negb (48 + d =? ch "0"))
              && is_digit (48 + d) && (48 + d - 48 =? d))
    eq_refl d Hd) as H.
  cbv beta in H. rewrite !andb_true_iff, !negb_true_iff in H.
  destruct H as ((((((((((H1 & H2) & H3) & H4) & H5) & H6) & H7) & H8) & H9) & H10) & H11).
  cbn [app parse_value skip_ws]. rewrite H1, H2, H3, H4.
  unfold parse_scalar. cbn [strip_prefix js map list_ascii_of_string N_of_ascii N_of_digits].
  change (N_of_ascii "t") with 116. change (N_of_ascii "f") with 102.
  change (N_of_ascii "n") with 110.
  rewrite (N.eqb_sym 116), H5, (N.eqb_sym 102), H6, (N.eqb_sym 110), H7.
  unfold parse_number. rewrite H8.
  apply N.eqb_eq in H11.
  destruct (N.eqb_spec d 0) as [E|E].
  - rewrite H9. destruct (Hz E) as [_ ->]. cbn [map app].
    rewrite Hc2. unfold parse_exponent. rewrite Hc3.
    rewrite decimal_nat. subst d. rewrite <- Hv. reflexivity.
  - apply negb_true_iff in H9. rewrite H9.
    cbn [span_digits]. rewrite H10.
    rewrite (span_digits_digits ds c rest Hds Hc1), H11.
    rewrite Hc2. unfold parse_exponent. rewrite Hc3.
    rewrite decimal_nat, Hv. reflexivity.
Qed.

Lemma utf16_small (s : jsstring) :
  Forall (fun c => c < 65536) s -> utf16 s = s.
Proof.
  induction 1 as [|c s Hc _ IH]; [reflexivity|].
  rewrite utf16_cons, IH. unfold utf16_encode. rewrite ltb_true by exact Hc.
  reflexivity.
Qed.

Lemma utf16_json_nat (n : N) : utf16 (json_nat n) = json_nat n.
Proof.
  apply utf16_small.
  destruct (json_nat_numeral n) as (d & ds & -> & Hd & Hds & _).
  constructor; [lia|].
  induction Hds as [|x ds Hx _ IH]; cbn [map]; constructor; [lia | exact IH].
Qed.

Lemma claims_text (c : claims) :
  utf16 (claims_json c)
  = 123 :: 34 :: js "sub" ++ 34 :: 58 :: 34 :: utf16 (flat_map json_escape (sub c))
    ++ 34 :: 44 :: 34 :: js "email" ++ 34 :: 58 :: 34
    :: utf16 (flat_map json_escape (email c))
    ++ 34 :: claims_tail c.
Proof.
  unfold claims_json, json_string, claims_tail, json_optional.
  repeat rewrite ?utf16_app, ?utf16_cons.
  change (utf16_encode 34) with [34].
  change (utf16 [34]) with [34].
  rewrite (utf16_ascii (js "{")), (utf16_ascii (json_key (js "sub"))),
    (utf16_ascii (js ",")), (utf16_ascii (json_key (js "email"))),
    (utf16_ascii (js "}")) by reflexivity.
  rewrite <- !app_assoc.
  assert (H1 : utf16 match option_map json_bool (is_onboarded c) with
                     | Some t => js "," ++ json_key (js "is_onboarded") ++ t
                     | None => []
                     end
               = match is_onboarded c with
                 | Some b => 44 :: 34 :: js "is_onboarded" ++ 34 :: 58 :: json_bool b
                 | None => []
                 end).
  { destruct (is_onboarded c) as [[|]|]; reflexivity. }
  assert (H2 : utf16 match option_map json_nat (expires c) with
                     | Some t => js "," ++ json_key (js "exp") ++ t
                     | None => []
                     end
               = match expires c with
                 | Some n => 44 :: 34 :: js "exp" ++ 34 :: 58 :: json_nat n
                 | None => []
                 end).
  { destruct (expires c) as [n|]; [|reflexivity]. cbn [option_map].
    rewrite !utf16_app, utf16_json_nat, (utf16_ascii (js ",")),
      (utf16_ascii (json_key (js "exp"))) by reflexivity.
    reflexivity. }
  rewrite H1, H2. reflexivity.
Qed.

(** A member with a literal name that is followed by another one, and the
    last member of an object. *)
Ltac member name value_parse :=
  eapply parse_members_more;
  [ exact (parse_chars_plain name _ (plain_literal name eq_refl))
  | value_parse
  | ].

Ltac last_member name value_parse :=
  eapply parse_members_last;
  [ exact (parse_chars_plain name _ (plain_literal name eq_refl))
  | value_parse ].

Ltac string_value H := apply parse_value_string; apply (parse_chars_text _ _ H).

Lemma parse_claims (c : claims) (fuel : nat) :
  is_text (sub c) -> is_text (email c) ->
  parse_value (6 + fuel) (utf16 (claims_json c)) = POk (VObj (claims_props c)) [].
Proof.
  intros Hs He. rewrite claims_text.
  change (6 + fuel)%nat with (S (S (S (S (S (S fuel)))))).
  apply parse_value_object.
  unfold claims_props, claims_tail.
  member (js "sub") ltac:(string_value Hs).
  destruct (is_onboarded c) as [b|], (expires c) as [n|]; cbn [app].
  - member (js "email") ltac:(string_value He).
    member (js "is_onboarded") ltac:(rewrite <- app_assoc; apply parse_value_bool).
    last_member (js "exp") ltac:(apply parse_value_nat; right; reflexivity).
  - member (js "email") ltac:(string_value He).
    last_member (js "is_onboarded") ltac:(apply parse_value_bool).
  - member (js "email") ltac:(string_value He).
    last_member (js "exp") ltac:(apply parse_value_nat; right; reflexivity).
  - last_member (js "email") ltac:(string_value He).
Qed.

Lemma JSON_parse_claims (c : claims) :
  is_text (sub c) -> is_text (email c) ->
  JSON_parse (utf16 (claims_json c)) = Return (VObj (claims_props c)).
Proof.
  intros Hs He. unfold JSON_parse.
  assert (Hlen : exists n, length (utf16 (claims_json c)) = (5 + n)%nat).
  { rewrite claims_text. cbn. eauto. }
  destruct Hlen as [n ->].
  change (S (5 + n))%nat with (6 + n)%nat.
  rewrite (parse_claims c n Hs He). reflexivity.
Qed.

Lemma is_text_literal (s : list N) : forallb is_scalar s = true -> is_text s.
Proof.
  intros H. rewrite forallb_forall in H. apply List.Forall_forall. exact H.
Qed.

Lemma is_text_app (a b : list N) : is_text a -> is_text b -> is_text (a ++ b).
Proof. intros Ha Hb. apply Forall_app. split; assumption. Qed.

Lemma is_text_escape (t : list N) : is_text t -> is_text (flat_map json_escape t).
Proof.
  induction 1 as [|c t Hc _ IH]; [constructor|].
  cbn [flat_map]. apply is_text_app; [|exact IH].
  unfold json_escape.
  destruct (c =? 34); [apply is_text_literal; reflexivity|].
  destruct (c =? 92); [apply is_text_literal; reflexivity|].
  destruct (N.ltb_spec c 32) as [H32|H32].
  - apply is_text_app; [apply is_text_literal; reflexivity|].
    pose proof (below_forall 32
      (fun c => is_scalar (hex_digit (c / 16)) && is_scalar (hex_digit (c mod 16)))
      eq_refl c H32) as H.
    apply andb_true_iff in H. destruct H. repeat constructor; assumption.
  - repeat constructor. exact Hc.
Qed.

Lemma is_text_string (t : list N) : is_text t -> is_text (json_string t).
Proof.
  intros H. unfold json_string. constructor; [reflexivity|].
  apply is_text_app; [apply is_text_escape; exact H|].
  apply is_text_literal. reflexivity.
Qed.

Lemma is_text_nat (n : N) : is_text (json_nat n).
Proof.
  destruct (json_nat_numeral n) as (d & ds & -> & Hd & Hds & _).
  assert (H : forall x, x < 10 -> is_scalar (48 + x) = true).
  { intros x Hx. unfold is_scalar. rewrite ltb_true by lia. reflexivity. }
  constructor; [apply H; exact Hd|].
  induction Hds as [|x ds Hx _ IH]; cbn [map]; constructor; auto.
Qed.

Lemma is_text_claims (c : claims) :
  is_text (sub c) -> is_text (email c) -> is_text (claims_json c).
Proof.
  intros Hs He. unfold claims_json, json_optional.
  repeat apply is_text_app;
    try (apply is_text_literal; reflexivity);
    try (apply is_text_string; assumption).
  - destruct (is_onboarded c) as [[|]|]; apply is_text_literal; reflexivity.
  - destruct (expires c) as [n|]; [|constructor]. cbn [option_map].
    repeat apply is_text_app; try (apply is_text_literal; reflexivity).
    apply is_text_nat.
Qed.

Lemma parseJwt_issue_token (header signature : jsstring) (c : claims) :
  is_text (sub c) -> is_text (email c) -> dot_free header ->
  parseJwt (issue_token header signature c) = Return (VObj (claims_props c)).
Proof.
  intros Hs He Hh.
  pose proof (is_text_claims c Hs He) as Ht.
  pose proof (utf8_encode_bytes _ Ht) as Hb.
  unfold parseJwt, issue_token.
  rewrite (middle_segment header _ signature Hh (base64url_dot_free _ Hb)).
  rewrite (atob_base64url _ Hb). cbn [bind].
  rewrite (decodeURIComponent_utf8 _ Ht). cbn [bind].
  apply (JSON_parse_claims c Hs He).
Qed.

Lemma issue_token_cons (header signature : jsstring) (c : claims) :
  exists x t, issue_token header signature c = x :: t.
Proof. unfold issue_token. destruct header; simpl; eauto. Qed.

Lemma getUserFromToken_issued (w : browser) (header signature : jsstring) (c : claims) :
  is_text (sub c) -> is_text (email c) -> dot_free header ->
  getToken w = Some (issue_token header signature c) ->
  getUserFromToken w = session_of c.
Proof.
  intros Hs He Hh Ht.
  unfold getUserFromToken. rewrite Ht.
  pose proof (parseJwt_issue_token header signature c Hs He Hh) as Hp.
  destruct (issue_token_cons header signature c) as (x & t & Htok).
  rewrite Htok in *. rewrite Hp. unfold claims_props, session_of.
  destruct (is_onboarded c) as [[|]|], (expires c); reflexivity.
Qed.

Lemma claims_exp (c : claims) :
  lookup_prop (js "exp") (claims_props c)
  = match expires c with
    | Some n => VNum (of_Z (Z.of_N n))
    | None => VUndefined
    end.
Proof.
  unfold claims_props.
  destruct (is_onboarded c) as [b|], (expires c) as [n|]; reflexivity.
Qed.

(** An issued token is valid until its expiry, and never when it has
    none. *)
Lemma isAuthenticated_issued (now : Z) (w : browser) (header signature : jsstring)
    (c : claims) :
  is_text (sub c) -> is_text (email c) -> dot_free header ->
  getToken w = Some (issue_token header signature c) ->
  isAuthenticated now w
  = match expires c with
    | Some n => (now <? Z.of_N n * 1000)%Z
    | None => false
    end.
Proof.
  intros Hs He Hh Ht.
  unfold isAuthenticated. rewrite Ht.
  pose proof (parseJwt_issue_token header signature c Hs He Hh) as Hp.
  destruct (issue_token_cons header signature c) as (x & t & Htok).
  rewrite Htok in *. rewrite Hp. cbn [bind get catch_to].
  rewrite claims_exp. destruct (expires c) as [n|]; [|reflexivity].
  unfold of_Z. cbn [ToNumber mul lt]. unfold Qltb.
  cbn [Qnum Qden Qmult inject_Z]. f_equal; lia.
Qed.

(** C4.  A token issued for the claims [sub], [email], an optional
    [is_onboarded] and an optional expiry, whatever characters the two
    strings hold, decodes to the session with [user_id] the subject, the
    same email, and the onboarding flag, [false] when the claim is
    missing; and when decoding the stored token throws, the result is
    [null]. *)
Theorem getUserFromToken_round_trip (w : browser) :
  (forall header signature c,
      is_text (sub c) -> is_text (email c) -> dot_free header ->
      getToken w = Some (issue_token header signature c) ->
      getUserFromToken w = session_of c)
  /\ (forall token e,
        getToken w = Some token -> parseJwt token = Throw e ->
        getUserFromToken w = VNull).
Proof.
  split.
  - intros header signature c. apply getUserFromToken_issued.
  - intros token e Ht Hp. unfold getUserFromToken. rewrite Ht.
    destruct token; [reflexivity|]. rewrite Hp. reflexivity.
Qed.

Lemma getUserFromToken_round_trip_witness :
  getUserFromToken (browser_with (Some (issue_token (js "h") (js "s") zoe)) login_page)
  = session_of zoe
  /\ getUserFromToken (browser_with (Some (js "h.e.s")) login_page) = VNull.
Proof.
  split.
  - apply (proj1 (getUserFromToken_round_trip _) (js "h") (js "s") zoe).
    + apply is_text_literal. reflexivity.
    + apply is_text_literal. reflexivity.
    + repeat constructor. discriminate.
    + reflexivity.
  - apply (proj2 (getUserFromToken_round_trip _) (js "h.e.s") InvalidCharacterError).
    + reflexivity.
    + vm_compute. reflexivity.
Defined.

(** ** Session inspector: whether the credential is still valid *)

Lemma parseJwt_segments (token : jsstring) (payload : value) :
  parseJwt token = Return payload ->
  exists head seg rest, split (ch ".") token = head :: seg :: rest.
Proof.
  unfold parseJwt.
  destruct (split (ch ".") token) as [|head [|seg rest]]; simpl; try discriminate.
  eauto.
Qed.

(** The function is true in exactly one case. *)
Lemma isAuthenticated_true_iff (now : Z) (w : browser) :
  isAuthenticated now w = true <->
  exists token head seg rest payload exp,
    getToken w = Some token /\
    split (ch ".") token = head :: seg :: rest /\
    parseJwt token = Return payload /\
    get payload (js "exp") = Return exp /\
    lt (of_Z now) (mul (ToNumber exp) (of_Z 1000)) = true.
Proof.
  unfold isAuthenticated. split.
  - destruct (getToken w) as [[|c t]|] eqn:Ht; try discriminate.
    destruct (parseJwt (c :: t)) as [payload|e] eqn:Hp; simpl; try discriminate.
    destruct (get payload (js "exp")) as [exp|e] eqn:He; simpl; try discriminate.
    intros H. destruct (parseJwt_segments _ _ Hp) as (head & seg & rest & Hs).
    exists (c :: t), head, seg, rest, payload, exp. auto.
  - intros (token & head & seg & rest & payload & exp & Ht & _ & Hp & He & Hlt).
    rewrite Ht. destruct token as [|c t].
    + vm_compute in Hp. discriminate.
    + rewrite Hp. simpl. rewrite He. simpl. exact Hlt.
Qed.




(** With a numeric expiry the comparison is the one of the rationals. *)
Lemma isAuthenticated_numeric (now : Z) (w : browser) (token : jsstring)
    (props : list (jsstring * value)) (q : Q) :
  getToken w = Some token ->
  parseJwt token = Return (VObj props) ->
  find_prop (js "exp") props = Some (VNum (Fin q)) ->
  isAuthenticated now w = true <-> (inject_Z now < q * inject_Z 1000)%Q.
Proof.
  intros Ht Hp Hexp. unfold isAuthenticated. rewrite Ht.
  destruct token as [|c t]; [vm_compute in Hp; discriminate|].
  rewrite Hp. simpl. unfold lookup_prop. rewrite Hexp. simpl.
  apply Qltb_spec.
Qed.

(** Decoding failures fail closed. *)
Lemma isAuthenticated_decode_error (now : Z) (w : browser) (token : jsstring) (e : exn) :
  getToken w = Some token ->
  parseJwt token = Throw e ->
  isAuthenticated now w = false.
Proof.
  intros Ht Hp. unfold isAuthenticated. rewrite Ht.
  destruct token; [reflexivity|]. rewrite Hp. reflexivity.
Qed.

(** C10, as amended.  A stored token whose payload is an object without
    an [exp] member, or with one that does not convert to a number, is not
    authenticated. *)
Theorem isAuthenticated_no_exp (now : Z) (w : browser) (token : jsstring)
    (props : list (jsstring * value)) :
  getToken w = Some token ->
  parseJwt token = Return (VObj props) ->
  find_prop (js "exp") props = None \/ ToNumber (lookup_prop (js "exp") props) = NaN ->
  isAuthenticated now w = false.
Proof.
  intros Ht Hp Hexp.
  unfold isAuthenticated. rewrite Ht.
  destruct token as [|c t]; [reflexivity|].
  rewrite Hp. simpl.
  assert (ToNumber (lookup_prop (js "exp") props) = NaN) as ->.
  { destruct Hexp as [H|H]; [|exact H]. unfold lookup_prop. rewrite H. reflexivity. }
  reflexivity.
Qed.

Lemma isAuthenticated_no_exp_witness :
  isAuthenticated some_day (browser_with (Some no_exp_token) login_page) = false.
Proof.
  apply (isAuthenticated_no_exp some_day _ no_exp_token [(js "sub", VStr (js "x"))]).
  - reflexivity.
  - vm_compute. reflexivity.
  - left. vm_compute. reflexivity.
Defined.

(** C10, counterexample.  The payload of this three-segment token is an
    object whose [exp] is a string, not a number; the string is converted
    and the token is accepted. *)
Lemma isAuthenticated_string_exp :
  length (split (ch ".") string_exp_token) = 3%nat
  /\ parseJwt string_exp_token = Return (VObj [(js "exp", VStr (js "99999999999"))])
  /\ isAuthenticated some_day (browser_with (Some string_exp_token) login_page) = true.
Proof. vm_compute. auto. Qed.

(** ** Navigation guard *)

Lemma redirectBasedOnStatus_run (user : value) (w : browser) :
  redirectBasedOnStatus user w =
  Done (Return tt)
    (match redirect_policy (session_state_of user) (pathname w) with
     | Some target => set_href target w
     | None => w
     end).
Proof.
  unfold redirectBasedOnStatus, session_state_of, redirect_policy.
  unfold abind, gets, lift, modify, ret. simpl.
  destruct (truthy user) eqn:Hu; simpl.
  - destruct (get_truthy user (js "is_onboarded") Hu) as [x Hx].
    rewrite Hx. simpl.
    destruct (truthy x); simpl;
      repeat (case_bool_decide; simpl); reflexivity.
  - case_bool_decide; reflexivity.
Qed.

Lemma redirectTarget_policy (user : value) (path : jsstring) (w : browser) :
  redirectTarget user path w = redirect_policy (session_state_of user) path.
Proof.
  unfold redirectTarget. rewrite redirectBasedOnStatus_run. simpl.
  destruct (redirect_policy _ _); reflexivity.
Qed.

(** C2.  For every session value and every current path the guard
    returns normally and redirects as the policy table says: without a
    session, to the login page unless already there; with a session that
    is not onboarded, to the root unless on the root or index page; with
    an onboarded session, to the menu page from the login, root and index
    pages; otherwise the browser is left as it was. *)
Theorem redirect_policy_table (user : value) (path : jsstring) (w : browser) :
  redirectBasedOnStatus user w
  = Done (Return tt)
      (match redirect_policy (session_state_of user) (pathname w) with
       | Some target => set_href target w
       | None => w
       end)
  /\ redirectTarget user path w = redirect_policy (session_state_of user) path.
Proof.
  split; [apply redirectBasedOnStatus_run | apply redirectTarget_policy].
Qed.

(** C5.  Following a redirect of the guard leads to a page on which the
    guard, given the same session, produces no redirect. *)
Theorem redirect_idempotent (user : value) (path target : jsstring) (w : browser) :
  redirectTarget user path w = Some target ->
  redirectTarget user target w = None.
Proof.
  rewrite !redirectTarget_policy.
  unfold redirect_policy.
  destruct (session_state_of user).
  - destruct (bool_decide (path = login_page)); intros H; inversion H; subst.
    reflexivity.
  - destruct (bool_decide (path = root_page) || bool_decide (path = index_page));
      intros H; inversion H; subst.
    reflexivity.
  - destruct (bool_decide (path = login_page) || bool_decide (path = root_page)
              || bool_decide (path = index_page));
      intros H; inversion H; subst.
    reflexivity.
Qed.

Lemma redirect_idempotent_witness :
  redirectTarget VNull login_page (browser_with None menu_page) = None.
Proof.
  apply (redirect_idempotent VNull menu_page login_page).
  vm_compute. reflexivity.
Defined.

(** C3, on the code.  With an expired credential stored,
    [checkAuthAndRedirect] leaves an onboarded user on the menu page,
    whereas with no credential it redirects to the login page. *)
Theorem checkAuthAndRedirect_expired_token :
  isAuthenticated some_day (browser_with (Some expired_token) menu_page) = false
  /\ checkAuthAndRedirect (browser_with (Some expired_token) menu_page)
     = Done (Return tt) (browser_with (Some expired_token) menu_page)
  /\ checkAuthAndRedirect (browser_with None menu_page)
     = Done (Return tt) (set_href login_page (browser_with None menu_page))
  /\ checkAuthTarget menu_page (browser_with (Some expired_token) menu_page) = None
  /\ checkAuthTarget menu_page (browser_with None menu_page) = Some login_page.
Proof. vm_compute. auto 6. Qed.

(** The guards of the three pages do check the expiry first: whenever
    [isAuthenticated()] is false, be the credential expired, undecodable
    or missing, the onboarding and menu pages redirect to the login page
    and the login page stays. *)
Lemma page_guards_fail_closed (now : Z) :
  (forall p : Onboarding.page,
      isAuthenticated now (Onboarding.window p) = false ->
      Onboarding.checkAuth now p
      = Done (Return tt) (Onboarding.with_window (set_href login_page) p))
  /\ (forall p : Menu.page,
        isAuthenticated now (Menu.window p) = false ->
        Menu.page_guard now p
        = Done (Return None) (Menu.with_window (set_href login_page) p))
  /\ (forall w : browser,
        isAuthenticated now w = false ->
        login_page_guard now w = Done (Return tt) w).
Proof.
  repeat split; intros x H.
  - unfold Onboarding.checkAuth, abind, gets, modify. simpl. rewrite H. reflexivity.
  - unfold Menu.page_guard, abind, gets, modify, ret. simpl. rewrite H. reflexivity.
  - unfold login_page_guard, abind, gets, ret. simpl. rewrite H. reflexivity.
Qed.

(** The same for every issued token: once the expiry has passed,
    [isAuthenticated()] is false, yet [checkAuthAndRedirect] still finds
    the onboarded user and leaves the menu page as it is. *)
Lemma checkAuthAndRedirect_ignores_expiry (now : Z) (w : browser)
    (header signature : jsstring) (c : claims) (n : N) :
  is_text (sub c) -> is_text (email c) -> dot_free header ->
  getToken w = Some (issue_token header signature c) ->
  expires c = Some n -> (Z.of_N n * 1000 <= now)%Z ->
  is_onboarded c = Some true ->
  pathname w = menu_page ->
  isAuthenticated now w = false
  /\ checkAuthAndRedirect w = Done (Return tt) w.
Proof.
  intros Hs He Hh Ht Hn Hpast Hon Hpath. split.
  - rewrite (isAuthenticated_issued now w header signature c Hs He Hh Ht), Hn.
    apply Z.ltb_ge. exact Hpast.
  - unfold checkAuthAndRedirect, abind, gets. cbn [step_bind].
    rewrite (getUserFromToken_issued w header signature c Hs He Hh Ht).
    rewrite redirectBasedOnStatus_run. unfold session_of. rewrite Hon, Hpath.
    reflexivity.
Qed.

(** ** Auth gateway *)

Lemma content_type_ok :
  headers_ok [(js "Content-Type", js "application/json")] = true.
Proof. reflexivity. Qed.

Lemma bearer_ok (token : jsstring) :
  headers_ok [(js "Authorization", js "Bearer " ++ token)]
  = header_value_ok (js "Bearer " ++ token).
Proof. unfold headers_ok. cbn [forallb snd]. apply andb_true_r. Qed.

(** C6, as amended.  When the backend answers with a non-success status
    and a JSON body from which [detail] can be read, [signup], [login]
    and [googleAuth] raise the fallback of the operation if [detail] is
    falsy, an [Error] whose message is the string form of [detail] if it
    is truthy and has one (for a non-empty string: the detail itself),
    and a TypeError if it is truthy and has none.  [getCurrentUser],
    with a credential stored that can be sent as a header value, clears
    it and returns [null] on a 401, so that no credential is stored
    afterwards, and raises "Failed to get user info" on any other
    non-success status, leaving the credential; with a stored
    credential that cannot be sent as a header value it raises a
    TypeError without asking the backend, and clears nothing. *)
Theorem auth_failure_contract (nts : Q -> jsstring) (r : response) (w : browser) :
  ok r = false ->
  (forall error detail,
      json r = Return error ->
      get error (js "detail") = Return detail ->
      let raised (fallback : jsstring) : result value :=
        if truthy detail then
          if coercible detail then Throw (Error (string_form nts detail))
          else Throw TypeError
        else Throw (Error fallback) in
      (forall email password,
          run (respond r) (signup nts email password w)
          = (raised (js "Signup failed"), w))
      /\ (forall email password,
          run (respond r) (login nts email password w)
          = (raised (js "Login failed"), w))
      /\ (forall credential,
          run (respond r) (googleAuth nts credential w)
          = (raised (js "Google authentication failed"), w)))
  /\ (forall token,
        getToken w = Some token -> token <> [] ->
        header_value_ok (js "Bearer " ++ token) = true ->
        run (respond r) (getCurrentUser w)
        = (if (status r =? 401)%Z
           then (Return VNull, clearToken w)
           else (Throw (Error (js "Failed to get user info")), w))
        /\ getToken (clearToken w) = None)
  /\ (forall token net,
        getToken w = Some token -> token <> [] ->
        header_value_ok (js "Bearer " ++ token) = false ->
        run net (getCurrentUser w) = (Throw TypeError, w)
        /\ Effects.requests net (getCurrentUser w) = []).
Proof.
  intros Hnok. split; [|split].
  - intros error detail Hj Hd raised.
    assert (Hmsg : forall fallback,
               run (respond r)
                 (step_bind (Done (ToString nts (or_else detail (VStr fallback))) w)
                    (fun message => throw (Error message)))
               = (raised fallback, w)).
    { intros fallback. unfold or_else, raised, ToString.
      destruct (truthy detail); [destruct (coercible detail)|]; reflexivity. }
    repeat split; intros;
      unfold signup, login, googleAuth, post_json, throw_detail, abind, gets, fetch, lift;
      cbn [headers step_bind]; rewrite content_type_ok;
      cbn [step_bind run respond]; rewrite Hnok; cbn [negb step_bind];
      rewrite Hj; cbn [step_bind]; rewrite Hd; cbn [step_bind];
      apply Hmsg.
  - intros token Ht Hne Hok. split.
    + unfold getCurrentUser, abind, gets, fetch, lift, throw, modify, ret.
      cbn [step_bind]. rewrite Ht. destruct token as [|c t]; [congruence|].
      cbn [step_bind headers]. rewrite bearer_ok, Hok.
      cbn [step_bind run respond]. rewrite Hnok. cbn [negb].
      destruct (status r =? 401)%Z; reflexivity.
    + unfold getToken, clearToken, with_storage. cbn [localStorage].
      apply lookup_delete_eq.
  - intros token net Ht Hne Hbad.
    unfold getCurrentUser, abind, gets, fetch, lift, throw, modify, ret.
    cbn [step_bind]. rewrite Ht. destruct token as [|c t]; [congruence|].
    cbn [step_bind headers]. rewrite bearer_ok, Hbad.
    split; reflexivity.
Qed.

(** A credential with a line feed in it, which no header can carry. *)
Lemma broken_token_not_sent :
  header_value_ok (js "Bearer " ++ [ch "a"; 10; ch "b"]) = false.
Proof. reflexivity. Qed.

Lemma auth_failure_contract_witness :
  run (respond rejected)
      (signup no_numerals (js "a@b.com") (js "pw") (browser_with None login_page))
  = (Throw (Error (js "Email already registered")), browser_with None login_page)
  /\ (run (respond unauthorized)
          (getCurrentUser (browser_with (Some expired_token) menu_page))
      = (Return VNull, clearToken (browser_with (Some expired_token) menu_page))
      /\ getToken (clearToken (browser_with (Some expired_token) menu_page)) = None)
  /\ run (respond unauthorized)
         (getCurrentUser (browser_with (Some [ch "a"; 10; ch "b"]) menu_page))
     = (Throw TypeError, browser_with (Some [ch "a"; 10; ch "b"]) menu_page).
Proof.
  split; [|split].
  - pose proof (auth_failure_contract no_numerals rejected (browser_with None login_page)
                  eq_refl) as [H _].
    specialize (H (VObj [(js "detail", VStr (js "Email already registered"))])
                  (VStr (js "Email already registered")) eq_refl eq_refl).
    destruct H as [H _]. exact (H (js "a@b.com") (js "pw")).
  - pose proof (auth_failure_contract no_numerals unauthorized
                  (browser_with (Some expired_token) menu_page) eq_refl) as (_ & H & _).
    apply (H expired_token); [reflexivity | discriminate | reflexivity].
  - pose proof (auth_failure_contract no_numerals unauthorized
                  (browser_with (Some [ch "a"; 10; ch "b"]) menu_page) eq_refl)
      as (_ & _ & H).
    apply (H [ch "a"; 10; ch "b"] (respond unauthorized));
      [reflexivity | discriminate | reflexivity].
Defined.

(** C6, counterexample.  A non-success response whose body is not JSON
    carries no detail, yet [signup] does not raise "Signup failed": the
    parse error of [response.json()] is what the caller gets. *)
Lemma signup_non_json_body :
  ok bad_gateway = false
  /\ json bad_gateway = Throw SyntaxError
  /\ run (respond bad_gateway)
         (signup no_numerals (js "a@b.com") (js "pw") (browser_with None login_page))
     = (Throw SyntaxError, browser_with None login_page).
Proof. vm_compute. auto. Qed.

(** A detail that is a non-empty string is the message itself. *)
Lemma detail_string_message (nts : Q -> jsstring) (c : N) (s : jsstring) :
  ToString nts (or_else (VStr (c :: s)) (VStr (js "Signup failed"))) = Return (c :: s).
Proof. reflexivity. Qed.

(** A detail that is an object with a [toString] member, as in the body
    [{"detail":{"toString":1}}], has no string form: the caller gets a
    TypeError, not an [Error] of the gateway. *)
Lemma detail_without_string_form :
  run (respond {| status := 400;
                  body_text := js "{" ++ json_key (js "detail") ++ js "{"
                               ++ json_key (js "toString") ++ js "1}}" |})
      (signup no_numerals (js "a@b.com") (js "pw") (browser_with None login_page))
  = (Throw TypeError, browser_with None login_page).
Proof. vm_compute. reflexivity. Qed.

(** ** Onboarding conversation *)

Section OnboardingProps.
Import Onboarding.

(** C7.  [handleSendMessage] returns without any change when the
    trimmed input is empty or no session id is set.  Otherwise it is
    suspended at its request with the user's message already appended
    to the transcript, and when the request fails at the network level
    it appends the inline error message and leaves the session id
    untouched. *)
Theorem handleSendMessage_contract (nts : Q -> jsstring) (p : page) :
  let text := trim (messageInput p) in
  (text = [] \/ truthy (sessionId p) = false ->
   handleSendMessage nts p = Done (Return tt) p)
  /\ (text <> [] -> truthy (sessionId p) = true ->
      exists req k,
        let sent := set_disabled true
                      (set_messageInput [] (push_message (js "user") (VStr text) p)) in
        handleSendMessage nts p = Fetch req sent k
        /\ transcript sent = transcript p ++ [(js "user", VStr text)]
        /\ body req = Some (VObj [(js "session_id", sessionId p);
                                  (js "message", VStr text)])
        /\ forall p',
             k NetworkError p'
             = Done (Return tt)
                 (set_disabled false (push_message (js "assistant") send_error p'))
             /\ transcript (set_disabled false
                              (push_message (js "assistant") send_error p'))
                = transcript p' ++ [(js "assistant", send_error)]
             /\ sessionId (set_disabled false
                             (push_message (js "assistant") send_error p'))
                = sessionId p').
Proof.
  intros text. split.
  - intros H. unfold handleSendMessage, abind, gets, ret. simpl.
    fold text.
    destruct H as [H|H].
    + rewrite H. reflexivity.
    + rewrite H. rewrite orb_true_r. reflexivity.
  - intros Hne Hsid.
    unfold handleSendMessage, abind, gets, ret. simpl. fold text.
    rewrite Hsid. destruct text as [|c t] eqn:Ht; [congruence|].
    simpl. eexists _, _. split; [reflexivity|].
    split; [reflexivity|]. split; [reflexivity|].
    intros p'. repeat split; reflexivity.
Qed.

Lemma handleSendMessage_contract_witness :
  handleSendMessage no_numerals not_started = Done (Return tt) not_started
  /\ exists req k,
       handleSendMessage no_numerals chatting
       = Fetch req
           (set_disabled true
              (set_messageInput []
                 (push_message (js "user") (VStr (js "two adults")) chatting))) k
       /\ k NetworkError
            (set_disabled true
               (set_messageInput []
                  (push_message (js "user") (VStr (js "two adults")) chatting)))
          = Done (Return tt)
              (set_disabled false
                 (push_message (js "assistant") send_error
                    (set_disabled true
                       (set_messageInput []
                          (push_message (js "user") (VStr (js "two adults"))
                             chatting))))).
Proof.
  split.
  - apply (proj1 (handleSendMessage_contract no_numerals not_started)).
    right. reflexivity.
  - destruct (proj2 (handleSendMessage_contract no_numerals chatting))
      as (req & k & H & _ & _ & Hk).
    + discriminate.
    + reflexivity.
    + exists req, k. split; [exact H|]. apply Hk.
Defined.

(** Run against a network that is down, the handler ends normally with
    the two messages appended and the same session. *)
Lemma handleSendMessage_offline :
  run (fun _ => NetworkError) (handleSendMessage no_numerals chatting)
  = (Return tt,
     set_disabled false
       (push_message (js "assistant") send_error
          (set_messageInput []
             (push_message (js "user") (VStr (js "two adults")) chatting)))).
Proof. vm_compute. reflexivity. Qed.

End OnboardingProps.

(** ** Menu viewer *)

Section MenuProps.
Import Menu.

Lemma set_allDishes_same (p : page) : set_allDishes (allDishes p) p = p.
Proof. destruct p; reflexivity. Qed.

(** A loop whose body pushes [g x] pushes the concatenation. *)
Lemma forEach_push {A} (l : list A) (f : A -> async page unit) (g : A -> list value) :
  (forall x p, f x p = Done (Return tt) (set_allDishes (allDishes p ++ g x) p)) ->
  forall p, forEach l f p
            = Done (Return tt) (set_allDishes (allDishes p ++ flat_map g l) p).
Proof.
  intros Hf. induction l as [|x l IH]; intros p; simpl.
  - unfold ret. rewrite app_nil_r, set_allDishes_same. reflexivity.
  - unfold abind. rewrite Hf. simpl. rewrite IH. simpl.
    rewrite <- app_assoc. reflexivity.
Qed.

(** C8.  For every menu (any value but [null] and [undefined])
    [processMenuData] returns, and the flat list it leaves, whatever the
    list held before, is the list of the entries of the slots that are
    set, the seven weekdays in order from Monday to Sunday and, within a
    day, breakfast, lunch, dinner; the other variables of the page are
    left as they were.  A menu with only [monday.lunch] gives the single
    entry of that dish, the empty menu gives the empty list. *)
Theorem processMenuData_flatten (menu : value) (p : page) :
  (menu <> VUndefined -> menu <> VNull ->
   exists p',
     processMenuData menu p = Done (Return tt) p'
     /\ allDishes p' = flatten menu
     /\ window p' = window p
     /\ currentMenu p' = currentMenu p
     /\ currentUser p' = currentUser p)
  /\ (forall props,
        flatten (VObj [(js "monday", VObj [(js "lunch", VObj props)])])
        = [VObj ([(js "day", VStr (js "monday")); (js "type", VStr (js "lunch"))]
                 ++ props)])
  /\ flatten (VObj []) = [].
Proof.
  split; [|split].
  - intros Hu Hn.
    exists (set_allDishes (flatten menu) p).
    split; [|repeat split; reflexivity].
    unfold processMenuData. unfold abind at 1. unfold modify at 1. cbn [step_bind].
    rewrite (forEach_push days _
               (fun day => flat_map (fun mealType =>
                  let dish := slot menu day mealType in
                  if truthy dish then [entry day mealType dish] else []) meal_kinds)).
    + reflexivity.
    + intros day q. unfold abind at 1. unfold lift at 1. unfold slot.
      destruct (get menu day) as [dm|e] eqn:Hday;
        [|destruct menu; simpl in Hday; congruence].
      cbn [step_bind catch_to].
      destruct (truthy dm) eqn:Hd; cbn [negb].
      * rewrite (forEach_push mealTypes _
                   (fun mealType =>
                      if truthy (catch_to (get dm mealType) (fun _ => VUndefined))
                      then [entry day mealType
                              (catch_to (get dm mealType) (fun _ => VUndefined))]
                      else [])).
        -- reflexivity.
        -- intros mt q'. unfold abind, lift.
           destruct (get_truthy dm mt Hd) as [dish ->].
           cbn [step_bind catch_to].
           destruct (truthy dish).
           ++ reflexivity.
           ++ unfold ret. rewrite app_nil_r, set_allDishes_same. reflexivity.
      * unfold ret. rewrite app_nil_r, set_allDishes_same. reflexivity.
  - intros props. reflexivity.
  - reflexivity.
Qed.

Lemma processMenuData_flatten_witness :
  allDishes two_dishes = [bread; salad]
  /\ exists p',
       processMenuData (VObj [(js "monday", VObj [(js "lunch", salad)])]) two_dishes
       = Done (Return tt) p'
       /\ allDishes p' = [entry (js "monday") (js "lunch") salad]
       /\ window p' = window two_dishes.
Proof.
  split; [reflexivity|].
  destruct (proj1 (processMenuData_flatten
                     (VObj [(js "monday", VObj [(js "lunch", salad)])]) two_dishes))
    as (p' & Hrun & Hall & Hw & _); [discriminate | discriminate |].
  exists p'. split; [exact Hrun|]. split; [|exact Hw].
  rewrite Hall. reflexivity.
Defined.

(** The run itself, on a page that held two other dishes. *)
Lemma processMenuData_replaces :
  final (processMenuData (VObj [(js "monday", VObj [(js "lunch", salad)])]) two_dishes)
  = Some {| window := window two_dishes;
            currentMenu := currentMenu two_dishes;
            allDishes := [entry (js "monday") (js "lunch") salad];
            currentUser := currentUser two_dishes |}.
Proof. vm_compute. reflexivity. Qed.

(** A menu that is [null] makes the first property read throw, after
    the list has been emptied. *)
Lemma processMenuData_null (p : page) :
  processMenuData VNull p = Done (Throw TypeError) (set_allDishes [] p).
Proof. reflexivity. Qed.

(** *** Search *)



Lemma filter_total (f : value -> result bool) (l : list value) :
  Forall (fun d => exists b, f d = Return b) l ->
  filter f l = Return (List.filter (fun d => catch_to (f d) (fun _ => false)) l).
Proof.
  induction 1 as [|d l [b Hb] _ IH]; simpl; [reflexivity|].
  rewrite Hb, IH. simpl. reflexivity.
Qed.


Section WithLower.
Variable lower : jsstring -> jsstring.

Lemma some_strings (term : jsstring) (ings : list jsstring) :
  some (fun ing => lower_includes lower ing term) (map VStr ings)
  = Return (existsb (fun i => includes (lower i) term) ings).
Proof.
  induction ings as [|i ings IH]; simpl; [reflexivity|].
  destruct (includes (lower i) term); [reflexivity|]. exact IH.
Qed.

Lemma dish_matches_fields (term : jsstring) (d : value) name description ingredients :
  dish_fields d name description ingredients ->
  dish_matches lower term d = Return (matches lower term name description ingredients).
Proof.
  intros (Hn & Hd & Hi). unfold dish_matches, matches.
  rewrite Hn. simpl. destruct (includes (lower name) term); [reflexivity|].
  rewrite Hd. simpl. destruct (includes (lower description) term); [reflexivity|].
  rewrite Hi. simpl. apply some_strings.
Qed.


End WithLower.



(** On the sample list the two spellings select the bread and nothing
    else. *)
Lemma search_wheat :
  search ascii_lower (js "wheat") two_dishes = Return [bread]
  /\ search ascii_lower (js "WHEAT") two_dishes = Return [bread]
  /\ search ascii_lower (js "rice") two_dishes = Return [].
Proof. vm_compute. auto. Qed.

End MenuProps.

(** * Further properties *)

Import Effects Scenario.

(** ** Running composed functions *)

Lemma run_bind {S A B} (net : request -> outcome) (m : step S A) (k : A -> async S B) :
  run net (step_bind m k)
  = match run net m with
    | (Return a, s) => run net (k a s)
    | (Throw e, s) => (Throw e, s)
    end.
Proof.
  induction m as [[a|e] s|req s c IH]; simpl; try reflexivity.
  apply IH.
Qed.

Lemma run_catch {S A} (net : request -> outcome) (m : step S A) (h : exn -> async S A) :
  run net (step_catch m h)
  = match run net m with
    | (Return a, s) => (Return a, s)
    | (Throw e, s) => run net (h e s)
    end.
Proof.
  induction m as [[a|e] s|req s c IH]; simpl; try reflexivity.
  apply IH.
Qed.

Lemma run_finally {S A} (net : request -> outcome) (m : step S A) (f : async S unit) :
  run net (step_finally m f)
  = run net (step_bind (f (snd (run net m))) (fun _ => lift (fst (run net m)))).
Proof.
  induction m as [r s|req s c IH]; simpl; [reflexivity|].
  apply IH.
Qed.

Lemma run_within {S T A} (part : S -> T) (update : T -> S -> S)
    (net : request -> outcome) (m : step T A) (outer : S) :
  is_part part update ->
  run net (step_within part update outer m)
  = (fst (run net m), update (snd (run net m)) outer).
Proof.
  intros [Hget Hset]. revert outer.
  induction m as [r t|req t c IH]; intros outer; simpl; [reflexivity|].
  rewrite Hget, IH, Hset. reflexivity.
Qed.

Lemma requests_bind {S A B} (net : request -> outcome) (m : step S A) (k : A -> async S B) :
  requests net (step_bind m k)
  = requests net m
    ++ match run net m with
       | (Return a, s) => requests net (k a s)
       | (Throw _, _) => []
       end.
Proof.
  induction m as [[a|e] s|req s c IH]; simpl; try reflexivity.
  f_equal. apply IH.
Qed.

Lemma requests_catch {S A} (net : request -> outcome) (m : step S A) (h : exn -> async S A) :
  requests net (step_catch m h)
  = requests net m
    ++ match run net m with
       | (Return _, _) => []
       | (Throw e, s) => requests net (h e s)
       end.
Proof.
  induction m as [[a|e] s|req s c IH]; simpl; try reflexivity.
  f_equal. apply IH.
Qed.

Lemma requests_finally {S A} (net : request -> outcome) (m : step S A) (f : async S unit) :
  requests net (step_finally m f)
  = requests net m ++ requests net (f (snd (run net m))).
Proof.
  induction m as [r s|req s c IH]; simpl.
  - rewrite requests_bind. destruct (run net (f s)) as [[[]|e] s']; simpl;
      rewrite app_nil_r; reflexivity.
  - f_equal. apply IH.
Qed.

Lemma requests_within {S T A} (part : S -> T) (update : T -> S -> S)
    (net : request -> outcome) (m : step T A) (outer : S) :
  is_part part update ->
  requests net (step_within part update outer m) = requests net m.
Proof.
  intros [Hget Hset]. revert outer.
  induction m as [r t|req t c IH]; intros outer; simpl; [reflexivity|].
  rewrite Hget, IH. reflexivity.
Qed.

(** ** Token store *)

(** X1.  The credential store is a single slot of local storage: a
    token that was set is the one read back, a second [setToken]
    replaces the first, [clearToken] empties the slot whatever was in it,
    and neither function touches another key of the storage. *)
Theorem token_store_slot (t t' : jsstring) (w : browser) :
  getToken (setToken t w) = Some t
  /\ getToken (clearToken w) = None
  /\ setToken t' (setToken t w) = setToken t' w
  /\ clearToken (setToken t w) = clearToken w
  /\ (forall k, k <> TOKEN_KEY ->
        localStorage (setToken t w) !! k = localStorage w !! k
        /\ localStorage (clearToken w) !! k = localStorage w !! k).
Proof.
  unfold getToken, setToken, clearToken, with_storage. cbn [localStorage].
  split; [apply lookup_insert_eq|].
  split; [apply lookup_delete_eq|].
  split; [rewrite insert_insert_eq; reflexivity|].
  split; [rewrite delete_insert_eq; reflexivity|].
  intros k Hk. split.
  - apply lookup_insert_ne. congruence.
  - apply lookup_delete_ne. congruence.
Qed.

Lemma token_store_slot_witness :
  localStorage (setToken (js "t") (browser_with None login_page)) !! js "theme"
  = localStorage (browser_with None login_page) !! js "theme".
Proof.
  apply (proj2 (proj2 (proj2 (proj2
           (token_store_slot (js "t") (js "t") (browser_with None login_page))))) (js "theme")).
  discriminate.
Defined.

Lemma isAuthenticated_no_token (now : Z) (w : browser) :
  getToken w = None -> isAuthenticated now w = false.
Proof. unfold isAuthenticated. intros ->. reflexivity. Qed.

Lemma getUserFromToken_no_token (w : browser) :
  getToken w = None -> getUserFromToken w = VNull.
Proof. unfold getUserFromToken. intros ->. reflexivity. Qed.

(** X2.  [logout] ends the session whatever the browser held: it
    returns normally with the login page as the pending navigation and
    no credential in the store, so that afterwards [isAuthenticated()]
    is false at every time, [getUserFromToken()] is [null] and the
    navigation guard, run on the login page, stays there.  The other
    keys of the storage are kept. *)
Theorem logout_ends_session (w : browser) :
  exists w',
    logout w = Done (Return tt) w'
    /\ navigation w' = Some login_page
    /\ getToken w' = None
    /\ (forall now, isAuthenticated now w' = false)
    /\ getUserFromToken w' = VNull
    /\ checkAuthTarget login_page w' = None
    /\ (forall k, k <> TOKEN_KEY -> localStorage w' !! k = localStorage w !! k).
Proof.
  exists (set_href login_page (clearToken w)).
  assert (Ht : getToken (set_href login_page (clearToken w)) = None).
  { unfold getToken, set_href, clearToken, with_storage. cbn [localStorage].
    apply lookup_delete_eq. }
  split; [reflexivity|]. split; [reflexivity|]. split; [exact Ht|].
  split; [intros now; apply isAuthenticated_no_token; exact Ht|].
  split; [apply getUserFromToken_no_token; exact Ht|].
  split.
  - unfold checkAuthTarget, checkAuthAndRedirect, abind, gets. cbn [step_bind].
    rewrite getUserFromToken_no_token; [reflexivity|].
    unfold getToken, arrive. cbn [localStorage]. exact Ht.
  - intros k Hk. unfold set_href, clearToken, with_storage. cbn [localStorage].
    apply lookup_delete_ne. congruence.
Qed.

Lemma logout_ends_session_witness :
  exists w',
    logout (browser_with (Some expired_token) menu_page) = Done (Return tt) w'
    /\ localStorage w' !! js "theme"
       = localStorage (browser_with (Some expired_token) menu_page) !! js "theme".
Proof.
  destruct (logout_ends_session (browser_with (Some expired_token) menu_page))
    as (w' & H & _ & _ & _ & _ & _ & Hk).
  exists w'. split; [exact H|]. apply Hk. discriminate.
Defined.

(** ** Session inspector: what the decoder reads *)

Lemma parseJwt_second_segment (header seg rest : jsstring) :
  dot_free header -> dot_free seg ->
  parseJwt (header ++ ch "." :: seg ++ ch "." :: rest) = parseJwt (ch "." :: seg).
Proof.
  intros Hh Hs. unfold parseJwt.
  rewrite (middle_segment header seg rest Hh Hs).
  change (ch "." :: seg) with ([] ++ ch "." :: seg).
  rewrite (split_dot_free [] seg) by constructor.
  destruct (split_head seg) as (s0 & segs & Hsplit).
  assert (Hseg : split (ch ".") seg = [seg]).
  { clear -Hs. induction Hs as [|c seg Hc _ IH]; [reflexivity|].
    cbn [split]. destruct (c =? ch ".") eqn:E.
    - apply N.eqb_eq in E. contradiction.
    - rewrite IH. reflexivity. }
  rewrite Hseg. reflexivity.
Qed.

(** X3.  The decoder reads the second dot-separated segment and nothing
    else: two stored tokens with the same second segment, whatever their
    headers and signatures, are decoded alike, so they are valid at the
    same times and stand for the same session.  The signature of a
    token is not checked by the client. *)
Theorem decoding_ignores_header_and_signature (now : Z) (w w' : browser)
    (header header' seg signature signature' : jsstring) :
  dot_free header -> dot_free header' -> dot_free seg ->
  getToken w = Some (header ++ ch "." :: seg ++ ch "." :: signature) ->
  getToken w' = Some (header' ++ ch "." :: seg ++ ch "." :: signature') ->
  parseJwt (header ++ ch "." :: seg ++ ch "." :: signature)
  = parseJwt (header' ++ ch "." :: seg ++ ch "." :: signature')
  /\ isAuthenticated now w = isAuthenticated now w'
  /\ getUserFromToken w = getUserFromToken w'.
Proof.
  intros Hh Hh' Hs Ht Ht'.
  pose proof (parseJwt_second_segment header seg signature Hh Hs) as H1.
  pose proof (parseJwt_second_segment header' seg signature' Hh' Hs) as H2.
  split; [congruence|].
  unfold isAuthenticated, getUserFromToken. rewrite Ht, Ht'.
  destruct (header ++ ch "." :: seg ++ ch "." :: signature) as [|c t] eqn:E;
    [destruct header; discriminate|].
  destruct (header' ++ ch "." :: seg ++ ch "." :: signature') as [|c' t'] eqn:E';
    [destruct header'; discriminate|].
  rewrite H1, H2. auto.
Qed.

Lemma decoding_ignores_header_and_signature_witness :
  isAuthenticated some_day
    (browser_with (Some (js "h" ++ ch "." :: js "eyJleHAiOjk5OTk5OTk5OTk5fQ"
                         ++ ch "." :: js "s")) login_page)
  = isAuthenticated some_day
      (browser_with (Some (js "other" ++ ch "." :: js "eyJleHAiOjk5OTk5OTk5OTk5fQ"
                           ++ ch "." :: js "forged")) login_page).
Proof.
  refine (proj1 (proj2 (decoding_ignores_header_and_signature some_day
            (browser_with (Some (js "h" ++ ch "." :: js "eyJleHAiOjk5OTk5OTk5OTk5fQ"
                                 ++ ch "." :: js "s")) login_page)
            (browser_with (Some (js "other" ++ ch "." :: js "eyJleHAiOjk5OTk5OTk5OTk5fQ"
                                 ++ ch "." :: js "forged")) login_page)
            (js "h") (js "other") (js "eyJleHAiOjk5OTk5OTk5OTk5fQ")
            (js "s") (js "forged") _ _ _ eq_refl eq_refl)));
    unfold dot_free; repeat constructor; discriminate.
Defined.

Lemma split_no_dot (token : jsstring) : dot_free token -> split (ch ".") token = [token].
Proof.
  induction 1 as [|c s Hc _ IH]; [reflexivity|].
  cbn [split]. destruct (c =? ch ".") eqn:E.
  - apply N.eqb_eq in E. contradiction.
  - rewrite IH. reflexivity.
Qed.

Lemma no_dot_fails_closed (w : browser) (token : jsstring) :
  dot_free token -> getToken w = Some token ->
  parseJwt token = Throw TypeError
  /\ (forall now, isAuthenticated now w = false)
  /\ getUserFromToken w = VNull.
Proof.
  intros Hd Ht.
  assert (Hp : parseJwt token = Throw TypeError).
  { unfold parseJwt. rewrite (split_no_dot token Hd). reflexivity. }
  split; [exact Hp|]. split.
  - intros now. unfold isAuthenticated. rewrite Ht.
    destruct token; [reflexivity|]. rewrite Hp. reflexivity.
  - unfold getUserFromToken. rewrite Ht.
    destruct token; [reflexivity|]. rewrite Hp. reflexivity.
Qed.

(** X4.  A stored credential without a dot has no second segment:
    [parseJwt] throws a [TypeError] on it, so [isAuthenticated()] is
    false at every time, [getUserFromToken()] is [null], and the
    navigation guard treats the browser as signed out. *)
Theorem credential_without_dot (w : browser) (token : jsstring) :
  dot_free token -> getToken w = Some token ->
  parseJwt token = Throw TypeError
  /\ (forall now, isAuthenticated now w = false)
  /\ getUserFromToken w = VNull
  /\ (forall path, checkAuthTarget path w
                   = if bool_decide (path = login_page) then None else Some login_page).
Proof.
  intros Hd Ht.
  destruct (no_dot_fails_closed w token Hd Ht) as (Hp & Ha & Hu).
  split; [exact Hp|]. split; [exact Ha|]. split; [exact Hu|].
  intros path.
  destruct (no_dot_fails_closed (arrive path w) token Hd Ht) as (_ & _ & Hu').
  unfold checkAuthTarget, checkAuthAndRedirect, abind, gets.
  cbn [step_bind]. rewrite Hu'.
  rewrite redirectBasedOnStatus_run. cbn.
  case_bool_decide; reflexivity.
Qed.

Lemma credential_without_dot_witness :
  parseJwt (js "not-a-token") = Throw TypeError
  /\ isAuthenticated some_day (browser_with (Some (js "not-a-token")) menu_page) = false.
Proof.
  assert (Hd : dot_free (js "not-a-token")).
  { unfold dot_free. repeat constructor; discriminate. }
  pose proof (credential_without_dot (browser_with (Some (js "not-a-token")) menu_page)
                (js "not-a-token") Hd eq_refl) as (H1 & H2 & _).
  split; [exact H1 | exact (H2 some_day)].
Defined.

(** ** Session inspector: validity over time *)

Lemma lt_earlier (now now' : Z) (x : number) :
  (now' <= now)%Z -> lt (of_Z now) x = true -> lt (of_Z now') x = true.
Proof.
  intros Hle. unfold of_Z. destruct x as [|neg|q]; cbn [lt]; try auto.
  rewrite !Qltb_spec. intros H.
  apply Qle_lt_trans with (y := inject_Z now); [|exact H].
  rewrite <- Zle_Qle. exact Hle.
Qed.

(** X5.  Validity only decreases with time: a credential that
    [isAuthenticated()] accepts now was accepted at every earlier time,
    and one it rejects now is rejected at every later time. *)
Theorem isAuthenticated_earlier (now now' : Z) (w : browser) :
  (now' <= now)%Z ->
  (isAuthenticated now w = true -> isAuthenticated now' w = true)
  /\ (isAuthenticated now' w = false -> isAuthenticated now w = false).
Proof.
  intros Hle.
  assert (H : isAuthenticated now w = true -> isAuthenticated now' w = true).
  { rewrite !isAuthenticated_true_iff.
    intros (token & head & seg & rest & payload & exp & Ht & Hs & Hp & He & Hlt).
    exists token, head, seg, rest, payload, exp.
    repeat (split; [assumption|]). eapply lt_earlier; eassumption. }
  split; [exact H|].
  intros Hf. destruct (isAuthenticated now w); [|reflexivity].
  rewrite H in Hf by reflexivity. discriminate.
Qed.

Lemma isAuthenticated_earlier_witness :
  isAuthenticated 0 (browser_with (Some string_exp_token) login_page) = true.
Proof.
  apply (proj1 (isAuthenticated_earlier some_day 0 _ ltac:(unfold some_day; lia))).
  vm_compute. reflexivity.
Defined.

(** ** Session inspector and page guards *)

Lemma isAuthenticated_session (now : Z) (w : browser) :
  isAuthenticated now w = true ->
  exists token payload user_id email flag,
    getToken w = Some token
    /\ parseJwt token = Return payload
    /\ get payload (js "sub") = Return user_id
    /\ get payload (js "email") = Return email
    /\ get payload (js "is_onboarded") = Return flag
    /\ getUserFromToken w
       = VObj [(js "user_id", user_id); (js "email", email);
               (js "is_onboarded", or_else flag (VBool false))].
Proof.
  rewrite isAuthenticated_true_iff.
  intros (token & head & seg & rest & payload & exp & Ht & Hs & Hp & He & Hlt).
  assert (Hget : forall k, get payload k = Return (catch_to (get payload k) (fun _ => VUndefined))).
  { intros k. destruct payload; try reflexivity; discriminate. }
  exists token, payload, (catch_to (get payload (js "sub")) (fun _ => VUndefined)),
    (catch_to (get payload (js "email")) (fun _ => VUndefined)),
    (catch_to (get payload (js "is_onboarded")) (fun _ => VUndefined)).
  split; [exact Ht|]. split; [exact Hp|].
  split; [apply Hget|]. split; [apply Hget|]. split; [apply Hget|].
  unfold getUserFromToken. rewrite Ht.
  destruct token as [|c t]; [vm_compute in Hp; discriminate|].
  rewrite Hp. cbn [bind].
  rewrite (Hget (js "sub")), (Hget (js "email")), (Hget (js "is_onboarded")).
  reflexivity.
Qed.

(** X6.  Whenever [isAuthenticated()] is true, [getUserFromToken()]
    is an object, never [null]: its [user_id] and [email] are the [sub]
    and [email] members of the decoded payload and its [is_onboarded] is
    the payload's flag, or [false] when that is falsy. *)
Theorem authenticated_has_session (now : Z) (w : browser) :
  isAuthenticated now w = true ->
  exists token payload user_id email flag,
    getToken w = Some token
    /\ parseJwt token = Return payload
    /\ get payload (js "sub") = Return user_id
    /\ get payload (js "email") = Return email
    /\ get payload (js "is_onboarded") = Return flag
    /\ getUserFromToken w
       = VObj [(js "user_id", user_id); (js "email", email);
               (js "is_onboarded", or_else flag (VBool false))]
    /\ truthy (getUserFromToken w) = true.
Proof.
  intros H.
  destruct (isAuthenticated_session now w H)
    as (token & payload & u & e & f & Ht & Hp & Hu & He & Hf & Hs).
  exists token, payload, u, e, f.
  repeat (split; [assumption|]). rewrite Hs. reflexivity.
Qed.

Lemma authenticated_has_session_witness :
  truthy (getUserFromToken (browser_with (Some string_exp_token) login_page)) = true.
Proof.
  destruct (authenticated_has_session some_day
              (browser_with (Some string_exp_token) login_page))
    as (token & payload & u & e & f & _ & _ & _ & _ & _ & _ & H).
  - vm_compute. reflexivity.
  - exact H.
Defined.

Lemma session_state_flag (user_id email flag : value) :
  session_state_of (VObj [(js "user_id", user_id); (js "email", email);
                          (js "is_onboarded", flag)])
  = if truthy flag then Onboarded else NotOnboarded.
Proof. reflexivity. Qed.

Lemma session_fields (user_id email flag : value) :
  let user := VObj [(js "user_id", user_id); (js "email", email);
                    (js "is_onboarded", flag)] in
  truthy user = true
  /\ get user (js "is_onboarded") = Return flag
  /\ get user (js "user_id") = Return user_id.
Proof. repeat split; reflexivity. Qed.

Lemma onboarding_guard_run (now : Z) (p : Onboarding.page) :
  exists p',
    Onboarding.checkAuth now p = Done (Return tt) p'
    /\ navigation (Onboarding.window p')
       = after_policy (effective_state now (Onboarding.window p)) root_page
           (Onboarding.window p).
Proof.
  unfold Onboarding.checkAuth, effective_state, after_policy.
  unfold abind at 1. unfold gets at 1. cbn [step_bind].
  destruct (isAuthenticated now (Onboarding.window p)) eqn:Hauth; cbn [negb].
  - destruct (isAuthenticated_session now _ Hauth)
      as (token & payload & u & e & f & _ & _ & _ & _ & _ & Hs).
    destruct (session_fields u e (or_else f (VBool false))) as (H1 & H2 & _).
    unfold abind, gets, modify, lift, ret. cbn [step_bind Onboarding.window
      Onboarding.set_currentUser]. rewrite Hs, session_state_flag, H1, H2.
    cbn [step_bind].
    destruct (truthy (or_else f (VBool false)));
      eexists; split; reflexivity.
  - eexists. split; reflexivity.
Qed.

Lemma menu_guard_run (now : Z) (p : Menu.page) :
  exists r p',
    Menu.page_guard now p = Done (Return r) p'
    /\ navigation (Menu.window p')
       = after_policy (effective_state now (Menu.window p)) menu_page (Menu.window p)
    /\ origin (Menu.window p') = origin (Menu.window p)
    /\ r = match redirect_policy (effective_state now (Menu.window p)) menu_page with
           | Some _ => None
           | None =>
               Some (catch_to (get (getUserFromToken (Menu.window p)) (js "user_id"))
                              (fun _ => VUndefined))
           end.
Proof.
  unfold Menu.page_guard, effective_state, after_policy.
  unfold abind at 1. unfold gets at 1. cbn [step_bind].
  destruct (isAuthenticated now (Menu.window p)) eqn:Hauth; cbn [negb].
  - destruct (isAuthenticated_session now _ Hauth)
      as (token & payload & u & e & f & _ & _ & _ & _ & _ & Hs).
    destruct (session_fields u e (or_else f (VBool false))) as (H1 & H2 & H3).
    unfold abind, gets, modify, lift, ret. cbn [step_bind Menu.window
      Menu.set_currentUser]. rewrite Hs, session_state_flag, H1, H2.
    cbn [step_bind].
    destruct (truthy (or_else f (VBool false))); cbn [negb step_bind];
      [rewrite H3|]; eexists _, _; repeat split; reflexivity.
  - eexists _, _. repeat split; reflexivity.
Qed.

Lemma login_guard_run (now : Z) (w : browser) :
  pathname w = login_page ->
  exists w',
    login_page_guard now w = Done (Return tt) w'
    /\ navigation w' = after_policy (effective_state now w) login_page w.
Proof.
  intros Hpath. unfold login_page_guard, effective_state, after_policy.
  unfold abind at 1. unfold gets at 1. cbn [step_bind].
  destruct (isAuthenticated now w) eqn:Hauth.
  - unfold abind, gets. cbn [step_bind].
    rewrite redirectBasedOnStatus_run, Hpath.
    eexists. split; [reflexivity|].
    destruct (redirect_policy _ _); reflexivity.
  - eexists. split; [reflexivity|]. reflexivity.
Qed.

(** X7.  The guards of the three pages apply the policy table of the
    navigation guard, a credential that fails the expiry check counting
    as no session: the onboarding page acts as the table says for the
    root path, the menu page as it says for the menu path, the login
    page as it says for the login path.  None of them throws; the menu
    page's guard hands on the session's [user_id] exactly when it does
    not redirect. *)
Theorem page_guards_follow_policy (now : Z) :
  (forall p : Onboarding.page,
      exists p',
        Onboarding.checkAuth now p = Done (Return tt) p'
        /\ navigation (Onboarding.window p')
           = after_policy (effective_state now (Onboarding.window p)) root_page
               (Onboarding.window p))
  /\ (forall p : Menu.page,
        exists r p',
          Menu.page_guard now p = Done (Return r) p'
          /\ navigation (Menu.window p')
             = after_policy (effective_state now (Menu.window p)) menu_page
                 (Menu.window p)
          /\ r = match redirect_policy (effective_state now (Menu.window p)) menu_page with
                 | Some _ => None
                 | None =>
                     Some (catch_to (get (getUserFromToken (Menu.window p)) (js "user_id"))
                                    (fun _ => VUndefined))
                 end)
  /\ (forall w : browser,
        pathname w = login_page ->
        exists w',
          login_page_guard now w = Done (Return tt) w'
          /\ navigation w' = after_policy (effective_state now w) login_page w).
Proof.
  split; [|split].
  - apply onboarding_guard_run.
  - intros p. destruct (menu_guard_run now p) as (r & p' & H1 & H2 & _ & H3).
    exists r, p'. auto.
  - apply login_guard_run.
Qed.

Lemma page_guards_follow_policy_witness :
  exists w',
    login_page_guard some_day (browser_with (Some string_exp_token) login_page)
    = Done (Return tt) w'
    /\ navigation w'
       = after_policy
           (effective_state some_day (browser_with (Some string_exp_token) login_page))
           login_page (browser_with (Some string_exp_token) login_page).
Proof.
  apply (proj2 (proj2 (page_guards_follow_policy some_day))). reflexivity.
Defined.

(** ** Auth gateway *)

Lemma gateway_call (nts : Q -> jsstring) (net : request -> outcome) (w : browser)
    (path : jsstring) (payload : value) (fallback : jsstring) :
  let call : async browser value :=
    (let* response := post_json path payload in
     if negb (ok response) then
       let* error := lift (json response) in
       throw_detail nts error fallback
     else lift (json response))%async in
  requests net (call w) = [post_request w path payload]
  /\ run net (call w)
     = (gateway_result nts fallback (net (post_request w path payload)), w).
Proof.
  unfold post_json, throw_detail, abind, gets, fetch, lift, throw, gateway_result.
  cbn [step_bind headers]. rewrite content_type_ok.
  cbn [step_bind run requests]. unfold API_BASE.
  fold (post_request w path payload).
  destruct (net (post_request w path payload)) as [|r]; [split; reflexivity|].
  cbn [step_bind run requests]. destruct (ok r); cbn [negb].
  - destruct (json r); split; reflexivity.
  - cbn [step_bind run requests].
    destruct (json r) as [error|e]; [|split; reflexivity].
    cbn [step_bind run requests bind].
    destruct (get error (js "detail")) as [detail|e]; [|split; reflexivity].
    cbn [step_bind run requests bind].
    destruct (ToString nts (or_else detail (VStr fallback))); split; reflexivity.
Qed.

Lemma gateway_calls_pure (nts : Q -> jsstring) (net : request -> outcome)
    (w : browser) (email password : jsstring) (credential : value) :
  (requests net (signup nts email password w)
   = [post_request w (js "/auth/signup") (credentials email password)]
   /\ run net (signup nts email password w)
      = (gateway_result nts (js "Signup failed")
           (net (post_request w (js "/auth/signup") (credentials email password))), w))
  /\ (requests net (login nts email password w)
      = [post_request w (js "/auth/login") (credentials email password)]
      /\ run net (login nts email password w)
         = (gateway_result nts (js "Login failed")
              (net (post_request w (js "/auth/login") (credentials email password))), w))
  /\ (requests net (googleAuth nts credential w)
      = [post_request w (js "/auth/google") (VObj [(js "credential", credential)])]
      /\ run net (googleAuth nts credential w)
         = (gateway_result nts (js "Google authentication failed")
              (net (post_request w (js "/auth/google")
                      (VObj [(js "credential", credential)]))), w)).
Proof.
  split; [|split]; apply gateway_call.
Qed.

(** X8.  Each call of the auth gateway issues exactly one request, a
    JSON [POST] to its endpoint under the page's origin with the
    credentials as the body, and leaves the browser as it was whatever
    the network answers: the token of a successful call is returned to
    the caller, not stored.  The result is the parsed body of a success
    response and a [TypeError] when the request fails at the network
    level; after a failure response it is what [response.json()] throws
    if the body is not JSON, a [TypeError] if the body is [null] or
    its truthy [detail] has no string form, and otherwise an [Error]
    with the string form of the detail, or with the fallback of the call
    when the detail is falsy. *)
Theorem gateway_calls_are_pure (nts : Q -> jsstring) (net : request -> outcome)
    (w : browser) (email password : jsstring) (credential : value) :
  (requests net (signup nts email password w)
   = [post_request w (js "/auth/signup") (credentials email password)]
   /\ run net (signup nts email password w)
      = (gateway_result nts (js "Signup failed")
           (net (post_request w (js "/auth/signup") (credentials email password))), w))
  /\ (requests net (login nts email password w)
      = [post_request w (js "/auth/login") (credentials email password)]
      /\ run net (login nts email password w)
         = (gateway_result nts (js "Login failed")
              (net (post_request w (js "/auth/login") (credentials email password))), w))
  /\ (requests net (googleAuth nts credential w)
      = [post_request w (js "/auth/google") (VObj [(js "credential", credential)])]
      /\ run net (googleAuth nts credential w)
         = (gateway_result nts (js "Google authentication failed")
              (net (post_request w (js "/auth/google")
                      (VObj [(js "credential", credential)]))), w)).
Proof. apply gateway_calls_pure. Qed.

(** X9.  [getCurrentUser] asks the backend only when a non-empty
    credential is stored that can be sent as a header value, with one
    [GET] of [/auth/me] that carries the credential as a bearer token;
    a stored credential that cannot be sent makes the call reject with a
    TypeError, without a request and without a change.  After a 401 the
    credential is gone, so that a second call returns [null] without
    any request and [isAuthenticated()] is false. *)
Theorem getCurrentUser_requests (net : request -> outcome) (w : browser) :
  (getToken w = None \/ getToken w = Some [] ->
   getCurrentUser w = Done (Return VNull) w)
  /\ (forall token,
        getToken w = Some token -> token <> [] ->
        let req := {| url := origin w ++ js "/auth/me";
                      method := js "GET";
                      headers := [(js "Authorization", js "Bearer " ++ token)];
                      body := None |} in
        (header_value_ok (js "Bearer " ++ token) = false ->
         getCurrentUser w = Done (Throw TypeError) w)
        /\ (header_value_ok (js "Bearer " ++ token) = true ->
            requests net (getCurrentUser w) = [req]
            /\ (forall r,
                  net req = Responded r -> status r = 401%Z ->
                  run net (getCurrentUser w) = (Return VNull, clearToken w)
                  /\ getCurrentUser (clearToken w) = Done (Return VNull) (clearToken w)
                  /\ forall now, isAuthenticated now (clearToken w) = false))).
Proof.
  split.
  - intros [H|H]; unfold getCurrentUser, abind, gets, ret; cbn [step_bind];
      rewrite H; reflexivity.
  - intros token Ht Hne req.
    destruct token as [|c t]; [congruence|].
    assert (Hclear : getToken (clearToken w) = None).
    { unfold getToken, clearToken, with_storage. cbn [localStorage].
      apply lookup_delete_eq. }
    split.
    { intros Hbad. unfold getCurrentUser, abind, gets, fetch. cbn [step_bind].
      rewrite Ht. cbn [step_bind headers]. rewrite bearer_ok, Hbad. reflexivity. }
    intros Hok. split.
    + unfold getCurrentUser, abind, gets, fetch. cbn [step_bind]. rewrite Ht.
      cbn [step_bind headers]. rewrite bearer_ok, Hok.
      cbn [step_bind requests]. unfold API_BASE. fold req.
      destruct (net req) as [|r]; [reflexivity|].
      cbn [step_bind]. destruct (ok r); cbn [negb step_bind].
      * unfold lift. reflexivity.
      * destruct (status r =? 401)%Z; reflexivity.
    + intros r Hr H401. split; [|split].
      * unfold getCurrentUser, abind, gets, fetch. cbn [step_bind]. rewrite Ht.
        cbn [step_bind headers]. rewrite bearer_ok, Hok.
        cbn [step_bind run]. unfold API_BASE. fold req. rewrite Hr.
        cbn [step_bind]. unfold ok. rewrite H401. reflexivity.
      * unfold getCurrentUser, abind, gets, ret. cbn [step_bind].
        rewrite Hclear. reflexivity.
      * intros now. apply isAuthenticated_no_token, Hclear.
Qed.

Lemma getCurrentUser_requests_witness :
  getCurrentUser (browser_with None menu_page)
  = Done (Return VNull) (browser_with None menu_page)
  /\ run (respond unauthorized) (getCurrentUser (browser_with (Some expired_token) menu_page))
     = (Return VNull, clearToken (browser_with (Some expired_token) menu_page))
  /\ getCurrentUser (browser_with (Some [ch "a"; 10; ch "b"]) menu_page)
     = Done (Throw TypeError) (browser_with (Some [ch "a"; 10; ch "b"]) menu_page).
Proof.
  split; [|split].
  - apply (proj1 (getCurrentUser_requests (respond unauthorized) _)).
    left. reflexivity.
  - refine (proj1 (proj2 (proj2 (proj2 (getCurrentUser_requests (respond unauthorized)
              (browser_with (Some expired_token) menu_page)) expired_token
              eq_refl _) eq_refl) unauthorized eq_refl eq_refl)).
    discriminate.
  - refine (proj1 (proj2 (getCurrentUser_requests (respond unauthorized)
              (browser_with (Some [ch "a"; 10; ch "b"]) menu_page)) [ch "a"; 10; ch "b"]
              eq_refl _) eq_refl).
    discriminate.
Defined.

(** ** Login page *)

Section LoginPageProps.
Import LoginPage.

Lemma window_is_part : is_part window set_window.
Proof. split; intros; reflexivity. Qed.

Lemma set_window_same (p : page) : set_window (window p) p = p.
Proof. destruct p; reflexivity. Qed.

Lemma accept_run (nts : Q -> jsstring) (tokenResponse : value) (p : page) :
  accept nts tokenResponse p
  = match sign_in_outcome nts (Return tokenResponse) with
    | Return (token, target) =>
        Done (Return tt) (set_window (set_href target (setToken token (window p))) p)
    | Throw e => Done (Throw e) p
    end.
Proof.
  unfold accept, sign_in_outcome, abind, lift, in_window, within, modify.
  cbn [bind].
  destruct (get tokenResponse (js "access_token")) as [t|e] eqn:Ht; [|reflexivity].
  assert (Hf : exists f, get tokenResponse (js "is_onboarded") = Return f).
  { destruct tokenResponse; try discriminate; eexists; reflexivity. }
  destruct Hf as [f Hf]. rewrite Hf.
  cbn [step_bind step_within bind].
  destruct (ToString nts t) as [token|e]; cbn [step_bind step_within bind];
    [|reflexivity].
  destruct (truthy f); reflexivity.
Qed.

(** The part the two handlers share, for a call that leaves the
    browser as it was. *)
Lemma sign_in_run (nts : Q -> jsstring) (net : request -> outcome)
    (call : async browser value) (res : result value) (p : page) :
  run net (call (window p)) = (res, window p) ->
  run net
    (step_catch
       (step_bind (in_window call (loading p)) (accept nts))
       (fun error => (showError error ;; showLoading false)%async))
  = (Return tt, after_sign_in (sign_in_outcome nts res) p).
Proof.
  intros Hcall. rewrite run_catch, run_bind.
  unfold in_window, within. rewrite (run_within _ _ _ _ _ window_is_part).
  change (window (loading p)) with (window p). rewrite Hcall. cbn [fst snd].
  change (set_window (window p) (loading p)) with (loading p).
  destruct res as [tokenResponse|e]; [|reflexivity].
  rewrite accept_run.
  destruct (sign_in_outcome nts (Return tokenResponse)) as [[token target]|e];
    reflexivity.
Qed.

Lemma sign_in_requests (nts : Q -> jsstring) (net : request -> outcome)
    (call : async browser value) (res : result value) (p : page) :
  run net (call (window p)) = (res, window p) ->
  requests net
    (step_catch
       (step_bind (in_window call (loading p)) (accept nts))
       (fun error => (showError error ;; showLoading false)%async))
  = requests net (call (window p)).
Proof.
  intros Hcall. rewrite requests_catch, requests_bind, run_bind.
  unfold in_window, within.
  rewrite (requests_within _ _ _ _ _ window_is_part).
  rewrite (run_within _ _ _ _ _ window_is_part).
  change (window (loading p)) with (window p). rewrite Hcall. cbn [fst snd].
  destruct res as [tokenResponse|e]; [|rewrite !app_nil_r; reflexivity].
  rewrite accept_run.
  destruct (sign_in_outcome nts (Return tokenResponse)) as [[token target]|e];
    rewrite !app_nil_r; reflexivity.
Qed.

Lemma submit_unfold (nts : Q -> jsstring) (p : page) :
  submit nts p
  = step_catch
      (step_bind
         (in_window (if isSignupMode p
                     then signup nts (emailInput p) (passwordInput p)
                     else login nts (emailInput p) (passwordInput p)) (loading p))
         (accept nts))
      (fun error => (showError error ;; showLoading false)%async).
Proof. destruct p as [w [|] ? ? ? ? ? ? ? ? ? ?]; reflexivity. Qed.

Lemma submit_run (nts : Q -> jsstring) (net : request -> outcome) (p : page) :
  requests net (submit nts p) = [form_request p]
  /\ run net (submit nts p)
     = (Return tt,
        after_sign_in
          (sign_in_outcome nts
             (gateway_result nts (form_fallback p) (net (form_request p)))) p).
Proof.
  rewrite submit_unfold. unfold form_request, form_fallback.
  pose proof (gateway_calls_pure nts net (window p) (emailInput p) (passwordInput p) VNull)
    as (Hs & Hl & _).
  destruct (isSignupMode p).
  - destruct Hs as [Hreq Hrun]. split.
    + rewrite (sign_in_requests nts net _ _ p Hrun). exact Hreq.
    + apply (sign_in_run nts net _ _ p Hrun).
  - destruct Hl as [Hreq Hrun]. split.
    + rewrite (sign_in_requests nts net _ _ p Hrun). exact Hreq.
    + apply (sign_in_run nts net _ _ p Hrun).
Qed.

End LoginPageProps.

Section LoginPageContracts.
Import LoginPage.

Lemma after_sign_in_shown (o : result (jsstring * jsstring)) (p : page) :
  errorMessage_hidden (after_sign_in o p) = false ->
  exists e,
    o = Throw e
    /\ errorMessage (after_sign_in o p) = Some e
    /\ window (after_sign_in o p) = window p
    /\ submitBtn_disabled (after_sign_in o p) = false
    /\ submitBtn_text (after_sign_in o p) = mode_label (isSignupMode p).
Proof.
  destruct o as [[token target]|e]; cbn; [discriminate|].
  intros _. exists e. auto.
Qed.

Lemma after_sign_in_hidden (o : result (jsstring * jsstring)) (p : page) :
  errorMessage_hidden (after_sign_in o p) = true ->
  exists token target,
    o = Return (token, target)
    /\ getToken (window (after_sign_in o p)) = Some token
    /\ navigation (window (after_sign_in o p)) = Some target
    /\ submitBtn_disabled (after_sign_in o p) = true.
Proof.
  destruct o as [[token target]|e]; cbn; [|discriminate].
  intros _. exists token, target. repeat split.
  unfold getToken, setToken, with_storage. cbn. apply lookup_insert_eq.
Qed.

Lemma sign_in_outcome_ok (nts : Q -> jsstring) (fallback : jsstring) (o : outcome)
    (token target : jsstring) :
  sign_in_outcome nts (gateway_result nts fallback o) = Return (token, target) ->
  exists r tokenResponse access_token is_onboarded,
    o = Responded r /\ ok r = true
    /\ json r = Return tokenResponse
    /\ get tokenResponse (js "access_token") = Return access_token
    /\ get tokenResponse (js "is_onboarded") = Return is_onboarded
    /\ token = string_form nts access_token
    /\ target = if truthy is_onboarded then menu_page else root_page.
Proof.
  unfold sign_in_outcome, gateway_result.
  destruct o as [|r]; [discriminate|].
  destruct (ok r) eqn:Hok.
  - destruct (json r) as [tr|e] eqn:Hj; cbn [bind]; [|discriminate].
    destruct (get tr (js "access_token")) as [t|e] eqn:Ht; cbn [bind]; [|discriminate].
    unfold ToString. destruct (coercible t); cbn [bind]; [|discriminate].
    destruct (get tr (js "is_onboarded")) as [f|e] eqn:Hf; cbn [bind]; [|discriminate].
    intros H. inversion H; subst. exists r, tr, t, f. repeat split; assumption || reflexivity.
  - destruct (json r) as [error|e]; cbn [bind]; [|discriminate].
    destruct (get error (js "detail")) as [detail|e]; cbn [bind]; [|discriminate].
    destruct (ToString nts (or_else detail (VStr fallback))); cbn [bind]; discriminate.
Qed.

Lemma sign_in_outcome_target (nts : Q -> jsstring) (res : result value)
    (token target : jsstring) :
  sign_in_outcome nts res = Return (token, target) ->
  target = menu_page \/ target = root_page.
Proof.
  unfold sign_in_outcome.
  destruct res as [tr|e]; cbn [bind]; [|discriminate].
  destruct (get tr (js "access_token")) as [t|e]; cbn [bind]; [|discriminate].
  destruct (ToString nts t); cbn [bind]; [|discriminate].
  destruct (get tr (js "is_onboarded")) as [f|e]; cbn [bind]; [|discriminate].
  intros H. inversion H. destruct (truthy f); auto.
Qed.

(** X10.  The submit handler of the login form never rejects and
    issues exactly one request, to the signup or the login endpoint by
    the mode of the page, with the two inputs as the body.  When it ends
    with the error message shown, nothing was stored and no navigation
    started: the browser is as it was, and the button is enabled again
    under the label of the mode.  When it ends with the message hidden,
    the backend answered with a success status and a body from which
    [access_token] and [is_onboarded] could be read: the string form of
    the token is stored and the browser goes to the menu page if the
    flag is truthy, to the root otherwise. *)
Theorem submit_contract (nts : Q -> jsstring) (net : request -> outcome) (p : page) :
  let p' := snd (run net (submit nts p)) in
  fst (run net (submit nts p)) = Return tt
  /\ requests net (submit nts p) = [form_request p]
  /\ (errorMessage_hidden p' = false ->
      window p' = window p
      /\ submitBtn_disabled p' = false
      /\ submitBtn_text p' = mode_label (isSignupMode p)
      /\ exists e, errorMessage p' = Some e)
  /\ (errorMessage_hidden p' = true ->
      exists r tokenResponse access_token is_onboarded,
        net (form_request p) = Responded r /\ ok r = true
        /\ json r = Return tokenResponse
        /\ get tokenResponse (js "access_token") = Return access_token
        /\ get tokenResponse (js "is_onboarded") = Return is_onboarded
        /\ getToken (window p') = Some (string_form nts access_token)
        /\ navigation (window p')
           = Some (if truthy is_onboarded then menu_page else root_page)
        /\ submitBtn_disabled p' = true).
Proof.
  destruct (submit_run nts net p) as [Hreq Hrun].
  cbn zeta. rewrite Hrun. cbn [fst snd].
  split; [reflexivity|]. split; [exact Hreq|]. split.
  - intros H. destruct (after_sign_in_shown _ _ H) as (e & _ & He & Hw & Hd & Ht).
    repeat split; try assumption. exists e. exact He.
  - intros H. destruct (after_sign_in_hidden _ _ H) as (token & target & Ho & Ht & Hn & Hd).
    destruct (sign_in_outcome_ok _ _ _ _ _ Ho)
      as (r & tr & t & f & Hr & Hok & Hj & Hget & Hflag & -> & ->).
    exists r, tr, t, f. repeat split; assumption.
Qed.

Lemma submit_contract_witness :
  window (snd (run (respond rejected) (submit no_numerals login_form)))
  = window login_form
  /\ exists access_token,
       getToken (window (snd (run (respond (granted expired_token true))
                                  (submit no_numerals login_form))))
       = Some (string_form no_numerals access_token).
Proof.
  split.
  - apply (proj1 (proj2 (proj2 (submit_contract no_numerals (respond rejected) login_form)))).
    vm_compute. reflexivity.
  - destruct (proj2 (proj2 (proj2 (submit_contract no_numerals
                (respond (granted expired_token true)) login_form))))
      as (r & tr & t & f & _ & _ & _ & _ & _ & H & _).
    + vm_compute. reflexivity.
    + exists t. exact H.
Defined.

Lemma handleGoogleSignIn_unfold (nts : Q -> jsstring) (response : value) (p : page) :
  handleGoogleSignIn nts response p
  = match get response (js "credential") with
    | Return credential =>
        step_catch
          (step_bind (in_window (googleAuth nts credential) (loading p)) (accept nts))
          (fun error => (showError error ;; showLoading false)%async)
    | Throw e => Done (Return tt) (sign_in_failed e p)
    end.
Proof.
  destruct p as [w mode ? ? ? ? ? ? ? ? ? ?]. destruct response; reflexivity.
Qed.

Lemma handleGoogleSignIn_run (nts : Q -> jsstring) (net : request -> outcome)
    (response : value) (p : page) :
  let req credential :=
    post_request (window p) (js "/auth/google") (VObj [(js "credential", credential)]) in
  requests net (handleGoogleSignIn nts response p)
  = match get response (js "credential") with
    | Return credential => [req credential]
    | Throw _ => []
    end
  /\ run net (handleGoogleSignIn nts response p)
     = (Return tt,
        after_sign_in
          (sign_in_outcome nts
             (let* credential := get response (js "credential") in
              gateway_result nts (js "Google authentication failed")
                (net (req credential)))%result) p).
Proof.
  intros req. rewrite handleGoogleSignIn_unfold.
  destruct (get response (js "credential")) as [credential|e]; [|split; reflexivity].
  pose proof (gateway_calls_pure nts net (window p) [] [] credential)
    as (_ & _ & Hreq & Hrun).
  split.
  - rewrite (sign_in_requests nts net _ _ p Hrun). exact Hreq.
  - apply (sign_in_run nts net _ _ p Hrun).
Qed.

(** X11.  The Google sign-in callback never rejects.  It issues one
    request, to the Google endpoint with the credential of the callback's
    argument, or none at all when the argument is [null] or
    [undefined].  When it ends with the error message shown, nothing was
    stored and no navigation started, and the button is enabled again;
    when it ends with the message hidden, a token is stored and the
    browser goes to the menu page or to the root. *)
Theorem handleGoogleSignIn_contract (nts : Q -> jsstring) (net : request -> outcome)
    (response : value) (p : page) :
  let p' := snd (run net (handleGoogleSignIn nts response p)) in
  fst (run net (handleGoogleSignIn nts response p)) = Return tt
  /\ requests net (handleGoogleSignIn nts response p)
     = match get response (js "credential") with
       | Return credential =>
           [post_request (window p) (js "/auth/google")
              (VObj [(js "credential", credential)])]
       | Throw _ => []
       end
  /\ (errorMessage_hidden p' = false ->
      window p' = window p
      /\ submitBtn_disabled p' = false
      /\ submitBtn_text p' = mode_label (isSignupMode p)
      /\ exists e, errorMessage p' = Some e)
  /\ (errorMessage_hidden p' = true ->
      exists token,
        getToken (window p') = Some token
        /\ (navigation (window p') = Some menu_page
            \/ navigation (window p') = Some root_page)
        /\ submitBtn_disabled p' = true).
Proof.
  destruct (handleGoogleSignIn_run nts net response p) as [Hreq Hrun].
  cbn zeta. rewrite Hrun. cbn [fst snd].
  split; [reflexivity|]. split; [exact Hreq|]. split.
  - intros H. destruct (after_sign_in_shown _ _ H) as (e & _ & He & Hw & Hd & Ht).
    repeat split; try assumption. exists e. exact He.
  - intros H. destruct (after_sign_in_hidden _ _ H) as (token & target & Ho & Ht & Hn & Hd).
    exists token. split; [exact Ht|]. split; [|exact Hd].
    rewrite Hn. destruct (sign_in_outcome_target _ _ _ _ Ho) as [-> | ->]; auto.
Qed.

Lemma handleGoogleSignIn_contract_witness :
  window (snd (run (respond rejected) (handleGoogleSignIn no_numerals VNull login_form)))
  = window login_form.
Proof.
  apply (proj1 (proj2 (proj2 (handleGoogleSignIn_contract no_numerals (respond rejected)
                                VNull login_form)))).
  vm_compute. reflexivity.
Defined.

(** X12.  A success response whose body is an object without an
    [access_token] is taken for a sign-in: no error is shown, the text
    [undefined] is stored as the credential and the browser leaves the
    login page.  What was stored is no session: [isAuthenticated()] is
    false at every time and [getUserFromToken()] is [null]. *)
Theorem submit_without_token (nts : Q -> jsstring) (net : request -> outcome)
    (p : page) (r : response) (props : list (jsstring * value)) :
  net (form_request p) = Responded r ->
  ok r = true ->
  json r = Return (VObj props) ->
  find_prop (js "access_token") props = None ->
  let p' := snd (run net (submit nts p)) in
  errorMessage_hidden p' = true
  /\ getToken (window p') = Some (js "undefined")
  /\ (navigation (window p') = Some menu_page \/ navigation (window p') = Some root_page)
  /\ (forall now, isAuthenticated now (window p') = false)
  /\ getUserFromToken (window p') = VNull.
Proof.
  intros Hnet Hok Hj Hnone.
  destruct (submit_run nts net p) as [_ Hrun].
  set (target := if truthy (lookup_prop (js "is_onboarded") props)
                 then menu_page else root_page).
  assert (Hp : snd (run net (submit nts p)) = signed_in (js "undefined") target p).
  { rewrite Hrun. cbn [snd]. rewrite Hnet. unfold gateway_result. rewrite Hok, Hj.
    unfold sign_in_outcome. cbn [bind get]. unfold lookup_prop at 1. rewrite Hnone.
    reflexivity. }
  cbn zeta. rewrite Hp.
  assert (Ht : getToken (window (signed_in (js "undefined") target p))
               = Some (js "undefined")).
  { unfold getToken, signed_in, setToken, with_storage. cbn. apply lookup_insert_eq. }
  assert (Hd : dot_free (js "undefined")).
  { unfold dot_free. repeat constructor; discriminate. }
  destruct (no_dot_fails_closed _ _ Hd Ht) as (_ & Ha & Hu).
  split; [reflexivity|]. split; [exact Ht|].
  split; [|split; [exact Ha | exact Hu]].
  change (navigation (window (signed_in (js "undefined") target p))) with (Some target).
  subst target. destruct (truthy (lookup_prop (js "is_onboarded") props)); auto.
Qed.

Lemma submit_without_token_witness :
  getToken (window (snd (run (respond empty_object) (submit no_numerals login_form))))
  = Some (js "undefined").
Proof.
  apply (submit_without_token no_numerals (respond empty_object) login_form
           empty_object [] eq_refl eq_refl eq_refl eq_refl).
Defined.

(** X13.  A click on the switch button flips the mode, relabels the
    submit button for the new mode and the switch button for the other
    one, hides the error and leaves the browser and the inputs alone; a
    second click gives back the mode, and from then on the page
    alternates between two states.  After a click the form posts to the
    endpoint of the new mode. *)
Theorem switch_click_toggles (nts : Q -> jsstring) (net : request -> outcome) (p : page) :
  exists p1 p2,
    switch_click p = Done (Return tt) p1
    /\ switch_click p1 = Done (Return tt) p2
    /\ switch_click p2 = Done (Return tt) p1
    /\ isSignupMode p1 = negb (isSignupMode p)
    /\ isSignupMode p2 = isSignupMode p
    /\ submitBtn_text p1 = mode_label (isSignupMode p1)
    /\ switchBtn_text p1 = mode_label (isSignupMode p)
    /\ errorMessage_hidden p1 = true
    /\ window p1 = window p
    /\ emailInput p1 = emailInput p /\ passwordInput p1 = passwordInput p
    /\ requests net (submit nts p1)
       = [post_request (window p)
            (if isSignupMode p then js "/auth/login" else js "/auth/signup")
            (credentials (emailInput p) (passwordInput p))].
Proof.
  destruct p as [w [|] ? ? ? ? ? ? ? ? ? ?];
    (eexists _, _;
     split; [reflexivity|]; split; [reflexivity|]; split; [reflexivity|];
     repeat (split; [reflexivity|]);
     etransitivity; [apply (proj1 (submit_run nts net _)) | reflexivity]).
Qed.
End LoginPageContracts.

(** ** From the login page to the landing page *)

(** The two guards on a browser that holds an issued token with a
    future expiry. *)
Lemma guards_on_issued_token (now : Z) (w : browser) (header signature : jsstring)
    (c : claims) (n : N) (b : bool) :
  is_text (sub c) -> is_text (email c) -> dot_free header ->
  is_onboarded c = Some b -> expires c = Some n -> (now < Z.of_N n * 1000)%Z ->
  getToken w = Some (issue_token header signature c) ->
  (forall q : Menu.page,
      Menu.window q = w ->
      Menu.page_guard now q
      = if b
        then Done (Return (Some (VStr (utf16 (sub c)))))
               (Menu.set_currentUser (session_of c) q)
        else Done (Return None)
               (Menu.with_window (set_href root_page)
                  (Menu.set_currentUser (session_of c) q)))
  /\ (forall q : Onboarding.page,
        Onboarding.window q = w ->
        Onboarding.checkAuth now q
        = if b
          then Done (Return tt)
                 (Onboarding.with_window (set_href menu_page)
                    (Onboarding.set_currentUser (session_of c) q))
          else Done (Return tt) (Onboarding.set_currentUser (session_of c) q)).
Proof.
  intros Hs He Hh Hb Hn Hnow Ht.
  pose proof (isAuthenticated_issued now w header signature c Hs He Hh Ht) as Ha.
  rewrite Hn in Ha.
  assert (Hlt : (now <? Z.of_N n * 1000)%Z = true) by (apply Z.ltb_lt; exact Hnow).
  rewrite Hlt in Ha.
  pose proof (getUserFromToken_issued w header signature c Hs He Hh Ht) as Hu.
  unfold session_of in *. rewrite Hb in *.
  destruct (session_fields (VStr (utf16 (sub c))) (VStr (utf16 (email c))) (VBool b))
    as (H1 & H2 & H3).
  split; intros q Hq; subst w.
  - unfold Menu.page_guard, abind, gets, modify, lift, ret. cbn [step_bind].
    rewrite Ha. cbn [negb step_bind Menu.window Menu.set_currentUser].
    rewrite Hu, H1, H2. cbn [step_bind truthy].
    destruct b; cbn [negb step_bind]; [rewrite H3|]; reflexivity.
  - unfold Onboarding.checkAuth, abind, gets, modify, lift, ret. cbn [step_bind].
    rewrite Ha. cbn [negb step_bind Onboarding.window Onboarding.set_currentUser].
    rewrite Hu, H1, H2. cbn [step_bind truthy].
    destruct b; reflexivity.
Qed.

Section SignInLands.
Import LoginPage.

(** X14.  Signing in with the form leads to a page that lets the user
    stay.  When the backend grants a token issued for claims with a
    future expiry and reports the onboarding flag of the claims, the
    handler stores that token and goes to the menu page for an onboarded
    user and to the root for the others; the guard of the page reached
    accepts the stored token, takes the session of the claims as the
    current user and does not redirect, and on the menu page it hands
    the subject on as the user id. *)
Theorem sign_in_lands (nts : Q -> jsstring) (net : request -> outcome) (now : Z)
    (p : page) (r : response) (body : value) (header signature : jsstring)
    (c : claims) (n : N) (b : bool) :
  is_text (sub c) -> is_text (email c) -> dot_free header ->
  is_onboarded c = Some b -> expires c = Some n -> (now < Z.of_N n * 1000)%Z ->
  net (form_request p) = Responded r -> ok r = true -> json r = Return body ->
  get body (js "access_token") = Return (VStr (issue_token header signature c)) ->
  get body (js "is_onboarded") = Return (VBool b) ->
  let p' := snd (run net (submit nts p)) in
  getToken (window p') = Some (issue_token header signature c)
  /\ navigation (window p') = Some (if b then menu_page else root_page)
  /\ (b = true ->
      forall q : Menu.page,
        Menu.window q = arrive menu_page (window p') ->
        Menu.page_guard now q
        = Done (Return (Some (VStr (utf16 (sub c)))))
            (Menu.set_currentUser (session_of c) q))
  /\ (b = false ->
      forall q : Onboarding.page,
        Onboarding.window q = arrive root_page (window p') ->
        Onboarding.checkAuth now q
        = Done (Return tt) (Onboarding.set_currentUser (session_of c) q)).
Proof.
  intros Hs He Hh Hb Hn Hnow Hnet Hok Hj Htok Hflag.
  destruct (submit_run nts net p) as [_ Hrun].
  assert (Hp : snd (run net (submit nts p))
               = signed_in (issue_token header signature c)
                   (if b then menu_page else root_page) p).
  { rewrite Hrun. cbn [snd]. rewrite Hnet. unfold gateway_result. rewrite Hok, Hj.
    unfold sign_in_outcome. cbn [bind]. rewrite Htok. cbn [bind].
    rewrite Hflag. reflexivity. }
  cbn zeta. rewrite Hp.
  assert (Ht : forall path,
             getToken (arrive path (window (signed_in (issue_token header signature c)
                                              (if b then menu_page else root_page) p)))
             = Some (issue_token header signature c)).
  { intros path. unfold getToken, arrive, signed_in, setToken, with_storage. cbn.
    apply lookup_insert_eq. }
  split; [exact (Ht root_page)|]. split; [reflexivity|]. split.
  - intros -> q Hq.
    apply (proj1 (guards_on_issued_token now _ header signature c n true
                    Hs He Hh Hb Hn Hnow (Ht menu_page)) q Hq).
  - intros -> q Hq.
    apply (proj2 (guards_on_issued_token now _ header signature c n false
                    Hs He Hh Hb Hn Hnow (Ht root_page)) q Hq).
Qed.

Lemma sign_in_lands_witness :
  navigation (window (snd (run (respond (granted (issue_token (js "h") (js "s") ann) true))
                               (submit no_numerals login_form))))
  = Some menu_page.
Proof.
  refine (proj1 (proj2 (sign_in_lands no_numerals
            (respond (granted (issue_token (js "h") (js "s") ann) true)) some_day
            login_form (granted (issue_token (js "h") (js "s") ann) true)
            (VObj [(js "access_token", VStr (issue_token (js "h") (js "s") ann));
                   (js "is_onboarded", VBool true)])
            (js "h") (js "s") ann 99999999999 true _ _ _ eq_refl eq_refl _
            eq_refl eq_refl _ eq_refl eq_refl))).
  - apply is_text_literal. reflexivity.
  - apply is_text_literal. reflexivity.
  - repeat constructor. discriminate.
  - reflexivity.
  - vm_compute. reflexivity.
Defined.

End SignInLands.

(** ** Onboarding: starting the conversation *)

Section StartProps.
Import Onboarding OnboardingStart.

Lemma start_run (net : request -> outcome) (city country : jsstring) (v : view) :
  requests net (start city country v) = [start_request v city country]
  /\ run net (start city country v)
     = (Return tt,
        match start_outcome (net (start_request v city country)) with
        | Return (session_id, message) =>
            if coercible message then started session_id message v
            else half_started session_id v
        | Throw e => start_failed e v
        end).
Proof.
  destruct v as [[w sid prof user tr input dis cards btn shown] hid mdis al].
  unfold start, start_outcome, start_request.
  unfold abind, in_core, within, setLoading, addMessage, enableChat, try_finally,
    try_catch_async, fetch, gets, modify, lift, throw, ret, API_BASE, interpolate.
  cbn [step_bind step_within step_catch step_finally run requests core window
       Onboarding.window set_core origin headers].
  rewrite content_type_ok.
  cbn [step_bind step_within step_catch step_finally run requests core window
       Onboarding.window set_core origin].
  set (req := {| url := _; method := _; headers := _; body := _ |}).
  destruct (net req) as [|r0].
  - split; reflexivity.
  - cbn [step_bind step_within step_catch step_finally run requests].
    destruct (ok r0); cbn [negb step_bind step_within step_catch step_finally run requests];
      [|split; reflexivity].
    destruct (json r0) as [data|e];
      cbn [bind step_bind step_within step_catch step_finally run requests];
      [|split; reflexivity].
    destruct (get data (js "session_id")) as [s|e] eqn:Hs;
      cbn [bind step_bind step_within step_catch step_finally run requests];
      [|split; reflexivity].
    assert (Hm : exists m, get data (js "message") = Return m).
    { destruct data; try discriminate; eexists; reflexivity. }
    destruct Hm as [m Hm]. rewrite Hm.
    cbn [bind step_bind step_within step_catch step_finally run requests
         core set_core].
    destruct (coercible m); split; reflexivity.
Qed.

(** X15.  Starting the conversation.  The handler never rejects, issues
    one request with the city and the country, and ends with the send
    button enabled.  When the backend answers with a success status and
    a body from which the session id and the welcome message are read,
    the session id is set, the start modal is hidden and the message box
    is enabled; then the message is appended for the assistant and no
    alert is shown, unless the message has no string form: in that case
    the transcript stays as it was and one alert is shown, for the
    TypeError, although the session is open.  In every other case (a
    failed request, a status that is not a success, an unreadable
    body) one alert is shown and the session id, the transcript, the
    modal and the message box are as before. *)
Theorem start_outcomes (net : request -> outcome) (city country : jsstring)
    (v : view) :
  let v' := snd (run net (start city country v)) in
  fst (run net (start city country v)) = Return tt
  /\ requests net (start city country v) = [start_request v city country]
  /\ sendBtn_disabled (core v') = false
  /\ window (core v') = window (core v)
  /\ ((exists r data session_id message,
         net (start_request v city country) = Responded r /\ ok r = true
         /\ json r = Return data
         /\ get data (js "session_id") = Return session_id
         /\ get data (js "message") = Return message
         /\ sessionId (core v') = session_id
         /\ startModal_hidden v' = true
         /\ messageInput_disabled v' = false
         /\ ((coercible message = true
              /\ transcript (core v') = transcript (core v) ++ [(js "assistant", message)]
              /\ alerts v' = alerts v)
             \/ (coercible message = false
                 /\ transcript (core v') = transcript (core v)
                 /\ alerts v' = alerts v ++ [TypeError])))
      \/ (exists e,
            start_outcome (net (start_request v city country)) = Throw e
            /\ alerts v' = alerts v ++ [e]
            /\ sessionId (core v') = sessionId (core v)
            /\ transcript (core v') = transcript (core v)
            /\ startModal_hidden v' = startModal_hidden v
            /\ messageInput_disabled v' = messageInput_disabled v))
  /\ (forall r,
        net (start_request v city country) = Responded r -> ok r = false ->
        alerts v' = alerts v ++ [Error (js "Failed to start session")]).
Proof.
  destruct (start_run net city country v) as [Hreq Hrun].
  cbn zeta. rewrite Hrun. cbn [fst snd].
  split; [reflexivity|]. split; [exact Hreq|]. clear Hreq Hrun.
  split; [|split; [|split]].
  - destruct (start_outcome _) as [[s m]|e]; [destruct (coercible m)|]; reflexivity.
  - destruct (start_outcome _) as [[s m]|e]; [destruct (coercible m)|]; reflexivity.
  - destruct (start_outcome _) as [[s m]|e] eqn:Ho.
    + left. unfold start_outcome in Ho.
      destruct (net _) as [|r]; [discriminate|].
      destruct (ok r) eqn:Hok; [|discriminate].
      destruct (json r) as [data|e] eqn:Hj; cbn [bind] in Ho; [|discriminate].
      destruct (get data (js "session_id")) as [s'|e] eqn:Hs; cbn [bind] in Ho;
        [|discriminate].
      destruct (get data (js "message")) as [m'|e] eqn:Hm; cbn [bind] in Ho;
        [|discriminate].
      inversion Ho; subst. exists r, data, s, m.
      do 5 (split; [assumption || reflexivity|]).
      destruct (coercible m) eqn:Hc.
      * do 3 (split; [reflexivity|]). left. repeat split; reflexivity.
      * do 3 (split; [reflexivity|]). right. repeat split; reflexivity.
    + right. exists e. repeat split; reflexivity.
  - intros r Hr Hok. rewrite Hr. unfold start_outcome. rewrite Hok. reflexivity.
Qed.

Lemma start_outcomes_witness :
  alerts (snd (run (respond bad_gateway) (start (js "Paris") (js "France") start_page)))
  = alerts start_page ++ [Error (js "Failed to start session")].
Proof.
  apply (proj2 (proj2 (proj2 (proj2 (proj2
           (start_outcomes (respond bad_gateway) (js "Paris") (js "France")
              start_page))))) bad_gateway); reflexivity.
Defined.

(** A welcome message that is an object with a [toString] member opens
    the session and hides the modal, and yet alerts. *)
Lemma start_half_way :
  let v' := snd (run (respond {| status := 200;
                                 body_text := js "{" ++ json_key (js "session_id")
                                              ++ json_string (js "s-1") ++ js ","
                                              ++ json_key (js "message") ++ js "{"
                                              ++ json_key (js "toString") ++ js "1}}" |})
                     (start (js "Paris") (js "France") start_page)) in
  sessionId (core v') = VStr (js "s-1")
  /\ startModal_hidden v' = true
  /\ transcript (core v') = []
  /\ alerts v' = [TypeError].
Proof. vm_compute. auto. Qed.

Lemma handleSendMessage_silent (nts : Q -> jsstring) (p : page) :
  trim (messageInput p) = [] \/ truthy (sessionId p) = false ->
  handleSendMessage nts p = Done (Return tt) p.
Proof.
  intros H. unfold handleSendMessage, abind, gets, ret. cbn [step_bind].
  destruct H as [H|H]; rewrite H; [reflexivity|].
  rewrite orb_true_r. reflexivity.
Qed.

(** X16.  Once the start handler has read a session id from a success
    response, the modal is hidden and a message typed into the box is
    sent with that session id if the id is truthy.  If the id is falsy,
    or the body had none, the start still hides the modal but the send
    handler then ignores every message.  No alert is shown when the
    welcome message has a string form; one is shown when it has
    none. *)
Theorem start_then_send (nts : Q -> jsstring) (net : request -> outcome)
    (city country : jsstring) (v : view) (r : response) (data session_id : value) :
  net (start_request v city country) = Responded r -> ok r = true ->
  json r = Return data ->
  get data (js "session_id") = Return session_id ->
  let v' := snd (run net (start city country v)) in
  startModal_hidden v' = true
  /\ (exists message,
        get data (js "message") = Return message
        /\ alerts v' = if coercible message then alerts v else alerts v ++ [TypeError])
  /\ forall input,
       let p := set_messageInput input (core v') in
       (truthy session_id = true -> trim input <> [] ->
        exists req sent k,
          handleSendMessage nts p = Fetch req sent k
          /\ url req = origin (window (core v)) ++ js "/onboarding/message"
          /\ body req = Some (VObj [(js "session_id", session_id);
                                    (js "message", VStr (trim input))]))
       /\ (truthy session_id = false ->
           handleSendMessage nts p = Done (Return tt) p).
Proof.
  intros Hnet Hok Hj Hs.
  destruct (start_run net city country v) as [_ Hrun].
  assert (Hm : exists m, get data (js "message") = Return m).
  { destruct data; try discriminate; eexists; reflexivity. }
  destruct Hm as [m Hm].
  assert (Hv : snd (run net (start city country v))
               = if coercible m then started session_id m v
                 else half_started session_id v).
  { rewrite Hrun. cbn [snd]. rewrite Hnet. unfold start_outcome.
    rewrite Hok, Hj. cbn [bind]. rewrite Hs. cbn [bind]. rewrite Hm. reflexivity. }
  cbn zeta. rewrite Hv.
  split; [destruct (coercible m); reflexivity|].
  split; [exists m; split; [exact Hm|]; destruct (coercible m); reflexivity|].
  intros input. split.
  - intros Ht Hne.
    unfold handleSendMessage, abind, gets, ret. cbn [step_bind].
    assert (Hin : forall q,
               q = core (if coercible m then started session_id m v
                         else half_started session_id v) ->
               messageInput (set_messageInput input q) = input
               /\ sessionId (set_messageInput input q) = session_id
               /\ window (set_messageInput input q) = window (core v)).
    { intros q ->. destruct (coercible m); repeat split. }
    destruct (Hin _ eq_refl) as (E1 & E2 & E3). rewrite E1, E2, Ht.
    destruct (trim input) as [|c t] eqn:E; [congruence|].
    cbn [truthy negb orb]. unfold addMessage, setLoading, modify, try_finally,
      try_catch_async, abind, gets, fetch, lift, interpolate.
    cbn [coercible step_bind step_catch step_finally headers].
    rewrite content_type_ok.
    cbn [step_bind step_catch step_finally].
    eexists _, _, _. split; [reflexivity|].
    cbn [url body]. unfold API_BASE.
    change (sessionId (set_disabled true (set_messageInput []
              (push_message (js "user") (VStr (c :: t))
                 (set_messageInput input
                    (core (if coercible m then started session_id m v
                           else half_started session_id v)))))))
      with (sessionId (set_messageInput input
                    (core (if coercible m then started session_id m v
                           else half_started session_id v)))).
    change (window (set_disabled true (set_messageInput []
              (push_message (js "user") (VStr (c :: t))
                 (set_messageInput input
                    (core (if coercible m then started session_id m v
                           else half_started session_id v)))))))
      with (window (set_messageInput input
                    (core (if coercible m then started session_id m v
                           else half_started session_id v)))).
    rewrite E2, E3. split; reflexivity.
  - intros Hf. apply handleSendMessage_silent. right.
    destruct (coercible m); exact Hf.
Qed.

Lemma start_then_send_witness :
  startModal_hidden (snd (run (respond session_opened)
                              (start (js "Paris") (js "France") start_page))) = true.
Proof.
  refine (proj1 (start_then_send no_numerals (respond session_opened)
            (js "Paris") (js "France") start_page session_opened
            (VObj [(js "session_id", VStr (js "s-1")); (js "message", VStr (js "Hello"))])
            (VStr (js "s-1")) eq_refl eq_refl _ eq_refl)).
  vm_compute. reflexivity.
Defined.

End StartProps.

(** ** Onboarding: sending messages and finalizing *)

(** ** Onboarding: the profile modal *)

Section ProfileModalProps.
Import Onboarding.

Lemma get_field (v : value) (k : jsstring) :
  nullish v = false -> get v k = Return (field v k).
Proof. destruct v; try discriminate; reflexivity. Qed.

Lemma or_else_not_nullish (a b : value) :
  truthy b = true -> nullish (or_else a b) = false.
Proof.
  unfold or_else. intros Hb.
  destruct (truthy a) eqn:Ha; [destruct a | destruct b]; try discriminate; reflexivity.
Qed.

Lemma each_tag_tags (x : value) :
  each_tag (or_else x (VArr []))
  = match tags x with
    | Some l => Return l
    | None => Throw TypeError
    end.
Proof.
  unfold tags. destruct (or_else x (VArr [])); try reflexivity.
  cbn [each_tag]. destruct (forallb coercible elems); reflexivity.
Qed.

Lemma map_result_map {A B} (f : A -> result B) (g : A -> B) (l : list A) :
  (forall x, f x = Return (g x)) -> map_result f l = Return (map g l).
Proof.
  intros H. induction l as [|x l IH]; [reflexivity|].
  cbn [map_result map]. rewrite H, IH. reflexivity.
Qed.

Lemma schedule_row_of_run (schedule : value) (day : jsstring) :
  nullish schedule = false ->
  schedule_row_of schedule day
  = Return (let dayData := or_else (field schedule day) no_meals in
            {| row_day := day;
               row_breakfast := truthy (field dayData (js "breakfast"));
               row_lunch := truthy (field dayData (js "lunch"));
               row_dinner := truthy (field dayData (js "dinner")) |}).
Proof.
  intros Hs. unfold schedule_row_of. rewrite (get_field schedule day Hs).
  cbn [bind].
  assert (Hd : nullish (or_else (field schedule day) no_meals) = false)
    by (apply or_else_not_nullish; reflexivity).
  rewrite !(get_field _ _ Hd). reflexivity.
Qed.

(** [showProfileModal] in one step: the cards of the profile when all
    of them can be built, and otherwise a TypeError that leaves the
    display cleared, with the basics card if that was built. *)
Lemma showProfileModal_run (data : value) (p : page) :
  showProfileModal data p
  = match profile_cards data with
    | Some cards => Done (Return tt) (profile_revealed data cards p)
    | None => Done (Throw TypeError) (profile_abandoned data p)
    end.
Proof.
  unfold profile_cards, profile_abandoned.
  destruct (nullish data) eqn:Hn.
  { destruct data; try discriminate; reflexivity. }
  cbn [negb andb].
  unfold showProfileModal, abind, lift, modify, interpolate. cbn [step_bind].
  rewrite (get_field data (js "location") Hn). cbn [step_bind].
  rewrite (get_field data (js "household") Hn). cbn [step_bind].
  unfold basics_shown, profile_dietary, profile_basics, profile_schedule.
  set (loc := or_else (field data (js "location")) (VObj [])).
  set (house := or_else (field data (js "household")) (VObj [])).
  assert (Hloc : nullish loc = false) by (apply or_else_not_nullish; reflexivity).
  assert (Hhouse : nullish house = false) by (apply or_else_not_nullish; reflexivity).
  rewrite (get_field loc (js "city") Hloc). cbn [step_bind].
  destruct (coercible (or_else (field loc (js "city")) (VStr (js "-"))));
    cbn [step_bind andb]; [|reflexivity].
  rewrite (get_field loc (js "country") Hloc). cbn [step_bind].
  destruct (coercible (or_else (field loc (js "country")) (VStr (js "-"))));
    cbn [step_bind andb]; [|reflexivity].
  rewrite (get_field house (js "adults") Hhouse). cbn [step_bind].
  destruct (coercible (or_else (field house (js "adults")) (VNum (of_Z 0))));
    cbn [step_bind andb]; [|reflexivity].
  rewrite (get_field house (js "children") Hhouse). cbn [step_bind].
  destruct (coercible (or_else (field house (js "children")) (VNum (of_Z 0))));
    cbn [step_bind andb]; [|reflexivity].
  rewrite (get_field data (js "dietary_preferences") Hn). cbn [step_bind].
  rewrite (get_field data (js "allergies_dislikes") Hn). cbn [step_bind].
  rewrite !each_tag_tags.
  destruct (tags (field data (js "dietary_preferences"))) as [preferences|];
    cbn [step_bind]; [|reflexivity].
  destruct (tags (field data (js "allergies_dislikes"))) as [allergies|];
    cbn [step_bind]; [|reflexivity].
  rewrite (get_field data (js "meal_schedule") Hn). cbn [step_bind].
  set (schedule := or_else (field data (js "meal_schedule")) (VObj [])).
  assert (Hsched : nullish schedule = false) by (apply or_else_not_nullish; reflexivity).
  rewrite (map_result_map _ _ schedule_days (fun day => schedule_row_of_run schedule day Hsched)).
  cbn [step_bind]. reflexivity.
Qed.

(** However it ends, [showProfileModal] changes nothing but the profile
    modal. *)
Lemma showProfileModal_cases (data : value) (p : page) :
  exists cards,
    showProfileModal data p
    = Done (Return tt) (profile_revealed data cards p)
    \/ showProfileModal data p = Done (Throw TypeError) (set_profileDisplay cards p).
Proof.
  rewrite showProfileModal_run. unfold profile_abandoned.
  destruct (profile_cards data) as [cards|]; eexists; [left | right]; reflexivity.
Qed.

(** X28.  [showProfileModal] first clears the profile display, then
    builds the three cards.  On [null] and [undefined] it throws a
    TypeError.  On any other value it shows the basics card if the
    city, the country and the numbers of adults and children, or the
    defaults that stand in for falsy ones, have a string form; then the
    dietary card if the preferences and the allergies are each falsy or
    an array of values with a string form; then the schedule card, with
    one row for each day of the week.  When the three cards are shown
    the menu button is there and the modal is revealed with the
    profile.  Otherwise the function throws a TypeError and the modal
    is not revealed: the display is left empty, or with the basics card
    alone.  Nothing else on the page changes. *)
Theorem showProfileModal_when (data : value) (p : page) :
  exists r p',
    showProfileModal data p = Done r p'
    /\ (window p' = window p /\ sessionId p' = sessionId p /\ profile p' = profile p
        /\ currentUser p' = currentUser p /\ transcript p' = transcript p
        /\ messageInput p' = messageInput p
        /\ sendBtn_disabled p' = sendBtn_disabled p)
    /\ (forall cards,
          profile_cards data = Some cards ->
          r = Return tt
          /\ profileDisplay p' = cards
          /\ viewMenuBtn p' = true
          /\ profile_shown p' = Some data
          /\ exists dietary rows,
               cards = [profile_basics data; dietary; Schedule rows]
               /\ profile_dietary data = Some dietary
               /\ map row_day rows = weekdays)
    /\ (profile_cards data = None ->
        r = Throw TypeError
        /\ profile_shown p' = profile_shown p
        /\ viewMenuBtn p' = viewMenuBtn p
        /\ (profileDisplay p' = [] \/ profileDisplay p' = [profile_basics data]))
    /\ (profile_cards data = None <->
        nullish data = true \/ basics_shown data = false \/ profile_dietary data = None).
Proof.
  rewrite showProfileModal_run.
  assert (Hnone : profile_cards data = None <->
                  nullish data = true \/ basics_shown data = false
                  \/ profile_dietary data = None).
  { unfold profile_cards.
    destruct (nullish data); [intuition|].
    destruct (basics_shown data); [|intuition].
    destruct (profile_dietary data); intuition discriminate. }
  destruct (profile_cards data) as [cards|] eqn:Hc.
  - exists (Return tt), (profile_revealed data cards p).
    split; [reflexivity|]. split; [repeat split|]. split; [|split; [discriminate|exact Hnone]].
    intros cards' H. inversion H; subst cards'.
    do 4 (split; [reflexivity|]).
    unfold profile_cards in Hc.
    destruct (nullish data); [discriminate|].
    destruct (basics_shown data); [|discriminate].
    destruct (profile_dietary data) as [dietary|]; [|discriminate].
    inversion Hc. eexists dietary, _. split; [reflexivity|]. split; [reflexivity|].
    rewrite map_map. cbn [row_day]. apply map_id.
  - exists (Throw TypeError), (profile_abandoned data p).
    split; [reflexivity|]. split; [repeat split|]. split; [discriminate|].
    split; [|exact Hnone]. intros _.
    do 3 (split; [reflexivity|]).
    unfold profile_abandoned. cbn [profileDisplay set_profileDisplay].
    destruct (negb (nullish data) && basics_shown data); auto.
Qed.

Lemma showProfileModal_when_witness :
  exists p',
    showProfileModal sample_profile chatting = Done (Return tt) p'
    /\ profile_shown p' = Some sample_profile
    /\ profileDisplay p'
       = [Basics (VStr (js "Paris")) (VStr (js "France")) (VNum (of_Z 2)) (VNum (of_Z 0));
          Dietary [VStr (js "vegetarian")] [];
          Schedule
            [{| row_day := js "monday"; row_breakfast := true;
                row_lunch := false; row_dinner := true |};
             {| row_day := js "tuesday"; row_breakfast := false;
                row_lunch := false; row_dinner := false |};
             {| row_day := js "wednesday"; row_breakfast := false;
                row_lunch := false; row_dinner := false |};
             {| row_day := js "thursday"; row_breakfast := false;
                row_lunch := false; row_dinner := false |};
             {| row_day := js "friday"; row_breakfast := false;
                row_lunch := false; row_dinner := false |};
             {| row_day := js "saturday"; row_breakfast := false;
                row_lunch := false; row_dinner := false |};
             {| row_day := js "sunday"; row_breakfast := false;
                row_lunch := false; row_dinner := false |}]].
Proof.
  destruct (showProfileModal_when sample_profile chatting)
    as (r & p' & Hrun & _ & Hshown & _).
  destruct (Hshown _ eq_refl) as (-> & Hcards & _ & Hp & _).
  exists p'. split; [exact Hrun|]. split; [exact Hp|]. rewrite Hcards. reflexivity.
Defined.

(** A profile whose preferences are a string: the display is cleared
    and the basics card shown before the function throws. *)
Lemma showProfileModal_half_way :
  showProfileModal (VObj [(js "dietary_preferences", VStr (js "vegan"))]) chatting
  = Done (Throw TypeError)
      (set_profileDisplay
         [Basics (VStr (js "-")) (VStr (js "-")) (VNum (of_Z 0)) (VNum (of_Z 0))]
         chatting).
Proof. vm_compute. reflexivity. Qed.

End ProfileModalProps.

Section ConversationProps.
Import Onboarding.

Lemma finalize_headers_ok (w : browser) :
  headers_ok [(js "Content-Type", js "application/json");
              (js "Authorization", js "Bearer " ++ token_text (getToken w))]
  = sendable w.
Proof.
  unfold headers_ok, sendable, bearer. cbn [forallb snd].
  change (header_value_ok (js "application/json")) with true.
  cbn [andb]. apply andb_true_r.
Qed.

Lemma finalizeProfile_unfold (nts : Q -> jsstring) (p : page) :
  let p1 := push_message (fst creating) (snd creating) p in
  finalizeProfile nts p
  = if sendable (window p)
    then Fetch (finalize_request p) p1 (finalize_continuation nts)
    else Done (Return tt) (push_message (fst went_wrong) (snd went_wrong) p1).
Proof.
  destruct p as [w sid prof user tr input dis cards btn shown].
  unfold finalizeProfile, finalize_request, addMessage, try_catch_async, interpolate.
  unfold abind at 1 2 3 4 5 6 7 8. unfold lift at 1.
  unfold gets, modify at 1, fetch, API_BASE.
  cbn [coercible step_bind step_catch currentUser push_message sessionId window
       fst snd creating went_wrong headers].
  destruct (truthy user) eqn:Hu.
  - destruct (get_truthy user (js "user_id") Hu) as [x Hx]. unfold lift at 1. rewrite Hx.
    cbn [step_bind step_catch catch_to window push_message].
    rewrite finalize_headers_ok.
    destruct (sendable w); reflexivity.
  - unfold ret at 1. cbn [step_bind step_catch catch_to window push_message].
    rewrite finalize_headers_ok.
    destruct (sendable w); reflexivity.
Qed.

(** The ways [finalizeProfile] can end. *)
Lemma finalizeProfile_cases (nts : Q -> jsstring) (net : request -> outcome) (p : page) :
  let p1 := push_message (fst creating) (snd creating) p in
  let failed q := push_message (fst went_wrong) (snd went_wrong) q in
  requests net (finalizeProfile nts p)
  = (if sendable (window p) then [finalize_request p] else [])
  /\ ((sendable (window p) = false
       /\ run net (finalizeProfile nts p) = (Return tt, failed p1))
      \/ (sendable (window p) = true
          /\ run net (finalizeProfile nts p) = (Return tt, failed p1)
          /\ forall r data success,
               net (finalize_request p) = Responded r -> json r = Return data ->
               get data (js "success") = Return success -> False)
      \/ (exists r data success,
            sendable (window p) = true
            /\ net (finalize_request p) = Responded r /\ json r = Return data
            /\ get data (js "success") = Return success /\ truthy success = false
            /\ run net (finalizeProfile nts p) = (Return tt, p1))
      \/ (exists r data success prof t,
            sendable (window p) = true
            /\ net (finalize_request p) = Responded r /\ json r = Return data
            /\ get data (js "success") = Return success /\ truthy success = true
            /\ get data (js "profile") = Return prof
            /\ get data (js "access_token") = Return t
            /\ ((truthy t = true /\ coercible t = false
                 /\ run net (finalizeProfile nts p)
                    = (Return tt, failed (set_profile prof p1)))
                \/ ((truthy t = true -> coercible t = true)
                    /\ let p3 := if truthy t
                                 then with_window (setToken (string_form nts t))
                                        (set_profile prof p1)
                                 else set_profile prof p1 in
                       exists cards,
                         run net (finalizeProfile nts p)
                         = (Return tt, profile_revealed prof cards p3)
                         \/ run net (finalizeProfile nts p)
                            = (Return tt, failed (set_profileDisplay cards p3)))))).
Proof.
  intros p1 failed.
  rewrite finalizeProfile_unfold. fold p1.
  destruct (sendable (window p)) eqn:Hs.
  2:{ split; [reflexivity|]. left. split; reflexivity. }
  cbn [requests run].
  set (req := finalize_request p).
  unfold finalize_continuation, finalize_body, abind, lift, modify, ret, addMessage,
    interpolate.
  cbn [coercible went_wrong fst snd].
  destruct (net req) as [|r]; cbn [step_bind step_catch run requests].
  { split; [reflexivity|]. right. left. split; [reflexivity|].
    split; [reflexivity|]. intros; discriminate. }
  destruct (json r) as [data|e] eqn:Hj; cbn [step_bind step_catch run requests].
  2:{ split; [reflexivity|]. right. left. split; [reflexivity|]. split; [reflexivity|].
      intros r0 d s H. inversion H; subst. congruence. }
  destruct (get data (js "success")) as [success|e] eqn:Hsu;
    cbn [step_bind step_catch run requests].
  2:{ split; [reflexivity|]. right. left. split; [reflexivity|]. split; [reflexivity|].
      intros r0 d s H H1 H2. inversion H; subst. congruence. }
  destruct (truthy success) eqn:Ht; cbn [step_bind step_catch run requests].
  2:{ split; [reflexivity|]. right. right. left. exists r, data, success.
      repeat split; assumption || reflexivity. }
  assert (Hget : forall key, exists x, get data key = Return x).
  { intros key. destruct data; try discriminate; eexists; reflexivity. }
  destruct (Hget (js "profile")) as [prof Hp].
  destruct (Hget (js "access_token")) as [t Ha].
  rewrite Hp. cbn [step_bind step_catch run requests].
  rewrite Ha. cbn [step_bind step_catch run requests].
  unfold ToString.
  destruct (truthy t) eqn:Htt; [destruct (coercible t) eqn:Hct|];
    cbn [step_bind step_catch run requests].
  - match goal with
    | |- context [showProfileModal prof ?q] =>
        destruct (showProfileModal_cases prof q) as [cards [Hshow | Hshow]]
    end;
      rewrite Hshow; cbn [step_bind step_catch requests run];
      (split; [reflexivity|]); right; right; right; exists r, data, success, prof, t;
      cbn zeta; rewrite Htt;
      do 7 (split; [assumption || reflexivity|]);
      right; (split; [intros _; exact Hct|]); exists cards; [left | right]; reflexivity.
  - split; [reflexivity|]. right; right; right. exists r, data, success, prof, t.
    do 7 (split; [assumption || reflexivity|]).
    left. repeat split; assumption || reflexivity.
  - match goal with
    | |- context [showProfileModal prof ?q] =>
        destruct (showProfileModal_cases prof q) as [cards [Hshow | Hshow]]
    end;
      rewrite Hshow; cbn [step_bind step_catch requests run];
      (split; [reflexivity|]); right; right; right; exists r, data, success, prof, t;
      cbn zeta; rewrite Htt;
      do 7 (split; [assumption || reflexivity|]);
      right; (split; [discriminate|]); exists cards; [left | right]; reflexivity.
Qed.

Lemma finalizeProfile_facts (nts : Q -> jsstring) (net : request -> outcome) (p : page) :
  exists p',
    run net (finalizeProfile nts p) = (Return tt, p')
    /\ sessionId p' = sessionId p /\ currentUser p' = currentUser p
    /\ sendBtn_disabled p' = sendBtn_disabled p /\ messageInput p' = messageInput p
    /\ (transcript p' = transcript p ++ [creating]
        \/ transcript p' = transcript p ++ [creating; went_wrong])
    /\ (window p' = window p
        \/ exists r data success t,
             sendable (window p) = true
             /\ net (finalize_request p) = Responded r /\ json r = Return data
             /\ get data (js "success") = Return success /\ truthy success = true
             /\ get data (js "access_token") = Return t /\ truthy t = true
             /\ coercible t = true
             /\ window p' = setToken (string_form nts t) (window p))
    /\ (profile_shown p' = profile_shown p
        \/ exists r data prof,
             net (finalize_request p) = Responded r /\ json r = Return data
             /\ get data (js "profile") = Return prof
             /\ profile_shown p' = Some prof /\ profile p' = prof
             /\ transcript p' = transcript p ++ [creating])
    /\ (sendable (window p) = false ->
        transcript p' = transcript p ++ [creating; went_wrong] /\ window p' = window p).
Proof.
  destruct (finalizeProfile_cases nts net p) as [_ H].
  cbn zeta in H.
  assert (Hframe : forall q : page,
             sessionId q = sessionId p -> currentUser q = currentUser p ->
             sendBtn_disabled q = sendBtn_disabled p -> messageInput q = messageInput p ->
             forall rest : Prop, rest ->
             sessionId q = sessionId p /\ currentUser q = currentUser p
             /\ sendBtn_disabled q = sendBtn_disabled p /\ messageInput q = messageInput p
             /\ rest) by (intros; repeat split; assumption).
  destruct H as [[Hs H]
                | [(Hs & H & _)
                  | [(r & data & success & Hs & Hn & Hj & Hsu & Ht & H)
                    | (r & data & success & prof & t & Hs & Hn & Hj & Hsu & Ht & Hp & Ha & H)]]].
  - eexists. split; [exact H|]. apply Hframe; try reflexivity.
    split; [right; destruct p; cbn; rewrite <- app_assoc; reflexivity|].
    split; [left; reflexivity|]. split; [left; reflexivity|].
    intros _. split; [|reflexivity].
    destruct p; cbn; rewrite <- app_assoc; reflexivity.
  - eexists. split; [exact H|]. apply Hframe; try reflexivity.
    split; [right; destruct p; cbn; rewrite <- app_assoc; reflexivity|].
    split; [left; reflexivity|]. split; [left; reflexivity|].
    intros Hx. congruence.
  - eexists. split; [exact H|]. apply Hframe; try reflexivity.
    split; [left; reflexivity|].
    split; [left; reflexivity|]. split; [left; reflexivity|].
    intros Hx. congruence.
  - destruct H as [(Htt & Hct & H) | (Hct & cards & [H|H])].
    + eexists. split; [exact H|]. apply Hframe; try reflexivity.
      split; [right; destruct p; cbn; rewrite <- app_assoc; reflexivity|].
      split; [left; reflexivity|]. split; [left; reflexivity|].
      intros Hx. congruence.
    + eexists. split; [exact H|].
      destruct (truthy t) eqn:Htt; (apply Hframe; try reflexivity);
        (split; [left; reflexivity|]).
      * split; [right; exists r, data, success, t; repeat split; auto|].
        split; [right; exists r, data, prof; repeat split; assumption|].
        intros Hx. congruence.
      * split; [left; reflexivity|].
        split; [right; exists r, data, prof; repeat split; assumption|].
        intros Hx. congruence.
    + eexists. split; [exact H|].
      destruct (truthy t) eqn:Htt; (apply Hframe; try reflexivity);
        (split; [right; destruct p; cbn; rewrite <- app_assoc; reflexivity|]).
      * split; [right; exists r, data, success, t; repeat split; auto|].
        split; [left; reflexivity|].
        intros Hx. congruence.
      * split; [left; reflexivity|]. split; [left; reflexivity|].
        intros Hx. congruence.
Qed.

(** X18.  [finalizeProfile] never rejects.  It issues exactly one
    request, which carries the stored credential as a bearer token, when
    the credential can be sent as a header value, and none when it
    cannot: then the failure message is appended at once and the
    browser is left alone.  It first appends its progress message; at
    the end the transcript has that message alone or followed by the
    failure message, and the session id, the current user, the message
    box and the send button are as before.  The stored credential is
    replaced only when the answer has a truthy [success] and a truthy
    [access_token] that has a string form, by that string.  The status
    of the response is not looked at: an answer whose [success] is falsy
    adds nothing but the progress message, whatever its status. *)
Theorem finalizeProfile_contract (nts : Q -> jsstring) (net : request -> outcome)
    (p : page) :
  let p' := snd (run net (finalizeProfile nts p)) in
  fst (run net (finalizeProfile nts p)) = Return tt
  /\ requests net (finalizeProfile nts p)
     = (if sendable (window p) then [finalize_request p] else [])
  /\ sessionId p' = sessionId p /\ currentUser p' = currentUser p
  /\ sendBtn_disabled p' = sendBtn_disabled p /\ messageInput p' = messageInput p
  /\ (transcript p' = transcript p ++ [creating]
      \/ transcript p' = transcript p ++ [creating; went_wrong])
  /\ (window p' = window p
      \/ exists r data success t,
           sendable (window p) = true
           /\ net (finalize_request p) = Responded r /\ json r = Return data
           /\ get data (js "success") = Return success /\ truthy success = true
           /\ get data (js "access_token") = Return t /\ truthy t = true
           /\ coercible t = true
           /\ window p' = setToken (string_form nts t) (window p))
  /\ (sendable (window p) = false ->
      transcript p' = transcript p ++ [creating; went_wrong] /\ window p' = window p)
  /\ (forall r data success,
        sendable (window p) = true ->
        net (finalize_request p) = Responded r -> json r = Return data ->
        get data (js "success") = Return success -> truthy success = false ->
        p' = push_message (fst creating) (snd creating) p).
Proof.
  destruct (finalizeProfile_facts nts net p)
    as (p' & Hrun & Hs & Hu & Hd & Hi & Ht & Hw & _ & Hbad).
  destruct (finalizeProfile_cases nts net p) as [Hreq Hcases].
  cbn zeta. rewrite Hrun. cbn [fst snd].
  repeat (split; [assumption || reflexivity|]).
  intros r data success Hsend Hn Hj Hsucc Hfalse.
  cbn zeta in Hcases. rewrite Hrun in Hcases.
  destruct Hcases as [[Hs' _]
                     | [(_ & _ & H)
                       | [(r' & data' & success' & _ & Hn' & Hj' & Hs' & Ht' & H)
                         | (r' & data' & success' & prof & t & _ & Hn' & Hj' & Hs' & Ht' & _)]]].
  - congruence.
  - destruct (H r data success Hn Hj Hsucc).
  - inversion H. reflexivity.
  - rewrite Hn in Hn'. inversion Hn'; subst. rewrite Hj in Hj'. inversion Hj'; subst.
    rewrite Hsucc in Hs'. inversion Hs'; subst. congruence.
Qed.

Lemma finalizeProfile_contract_witness :
  snd (run (respond rejected) (finalizeProfile no_numerals chatting))
  = push_message (fst creating) (snd creating) chatting.
Proof.
  apply (proj2 (proj2 (proj2 (proj2 (proj2 (proj2 (proj2 (proj2 (proj2
           (finalizeProfile_contract no_numerals (respond rejected) chatting)))))))))
           rejected
           (VObj [(js "detail", VStr (js "Email already registered"))])
           VUndefined eq_refl eq_refl); reflexivity.
Defined.

(** With a stored credential that holds a line feed, nothing is asked
    of the backend and the failure message follows the progress
    message. *)
Lemma finalizeProfile_unsendable :
  let p := with_window (setToken [ch "a"; 10; ch "b"]) chatting in
  requests (respond rejected) (finalizeProfile no_numerals p) = []
  /\ transcript (snd (run (respond rejected) (finalizeProfile no_numerals p)))
     = transcript p ++ [creating; went_wrong].
Proof. vm_compute. auto. Qed.

End ConversationProps.

Section SendProps.
Import Onboarding.

Lemma finalize_request_ext (p q : page) :
  window q = window p -> sessionId q = sessionId p -> currentUser q = currentUser p ->
  finalize_request q = finalize_request p.
Proof. unfold finalize_request. intros -> -> ->. reflexivity. Qed.

(** A send that passes the guard, run to completion. *)
Lemma handleSendMessage_cases (nts : Q -> jsstring) (net : request -> outcome) (p : page) :
  trim (messageInput p) <> [] -> truthy (sessionId p) = true ->
  requests net (handleSendMessage nts p)
  = message_request p
    :: (if completes (net (message_request p)) && sendable (window p)
        then [finalize_request p] else [])
  /\ exists q more,
       run net (handleSendMessage nts p) = (Return tt, q)
       /\ sessionId q = sessionId p /\ currentUser q = currentUser p
       /\ sendBtn_disabled q = false /\ messageInput q = []
       /\ transcript q = transcript p ++ (js "user", VStr (trim (messageInput p))) :: more
       /\ (more = [(js "assistant", send_error)]
           \/ exists message,
                more = [(js "assistant", message)]
                \/ more = [(js "assistant", message); creating]
                \/ more = [(js "assistant", message); creating; went_wrong]).
Proof.
  intros Hne Hsid.
  set (text := trim (messageInput p)) in *.
  set (p1 := set_disabled true (set_messageInput [] (push_message (js "user") (VStr text) p))).
  assert (Hshape : exists k,
    handleSendMessage nts p = Fetch (message_request p) p1 k
    /\ forall o,
         k o p1
         = step_finally
             (step_catch
                (step_bind
                   (match o with
                    | NetworkError => Done (Throw TypeError) p1
                    | Responded r => Done (Return r) p1
                    end)
                   (fun response =>
                      (let* data := lift (json response) in
                       let* message := lift (get data (js "message")) in
                       addMessage message (js "assistant") ;;
                       let* is_complete := lift (get data (js "is_complete")) in
                       if truthy is_complete then finalizeProfile nts else ret tt)%async))
                (fun error =>
                   addMessage (VStr (js "Error: Could not send message. Please try again."))
                     (js "assistant")))
             (setLoading false)).
  { subst p1. unfold handleSendMessage, message_request.
    unfold abind at 1 2. unfold gets at 1 2. cbn [step_bind]. fold text.
    rewrite Hsid. destruct text as [|c t] eqn:Et; [congruence|].
    cbn [truthy negb orb].
    unfold abind at 1 2 3. unfold addMessage at 1, setLoading at 1.
    unfold abind at 1. unfold lift at 1, interpolate at 1, modify at 1 2 3.
    cbn [coercible step_bind]. unfold try_finally, try_catch_async.
    unfold abind at 1 2 3. unfold gets at 1 2. cbn [step_bind]. unfold fetch.
    cbn [headers]. rewrite content_type_ok.
    cbn [step_bind step_catch step_finally].
    destruct p as [w sid prof user tr input dis cards btn shown]. cbn in Et |- *.
    eexists. split; [unfold API_BASE; cbn; rewrite Et; reflexivity|].
    intros [|r]; reflexivity. }
  destruct Hshape as (k & Hf & Hk).
  rewrite Hf. cbn [requests run]. rewrite Hk. clear Hk Hf k.
  set (req := message_request p). unfold completes, field.
  assert (Hfail : exists q more,
     (Return tt, set_disabled false (push_message (js "assistant") send_error p1))
     = (Return tt, q)
     /\ sessionId q = sessionId p /\ currentUser q = currentUser p
     /\ sendBtn_disabled q = false /\ messageInput q = []
     /\ transcript q = transcript p ++ (js "user", VStr text) :: more
     /\ (more = [(js "assistant", send_error)]
         \/ exists message,
              more = [(js "assistant", message)]
              \/ more = [(js "assistant", message); creating]
              \/ more = [(js "assistant", message); creating; went_wrong])).
  { eexists _, _. split; [reflexivity|]. subst p1. destruct p. cbn.
    rewrite <- app_assoc. repeat split. left. reflexivity. }
  unfold addMessage, setLoading, interpolate. unfold abind, lift, modify, ret.
  cbn [coercible].
  destruct (net req) as [|r]; cbn [step_bind step_catch step_finally requests run].
  { split; [reflexivity|]. exact Hfail. }
  destruct (json r) as [data|e] eqn:Hj;
    cbn [step_bind step_catch step_finally requests run].
  2:{ split; [reflexivity|]. exact Hfail. }
  destruct (get data (js "message")) as [message|e] eqn:Hm;
    cbn [step_bind step_catch step_finally requests run].
  2:{ assert (Hc : get data (js "is_complete") = Throw e).
      { destruct data; try discriminate; exact Hm. }
      rewrite Hc. cbn [catch_to truthy andb]. rewrite andb_false_r.
      split; [reflexivity|]. exact Hfail. }
  assert (Hc : exists c, get data (js "is_complete") = Return c).
  { destruct data; try discriminate; eexists; reflexivity. }
  destruct Hc as [c Hc]. rewrite Hc. cbn [catch_to step_bind].
  destruct (coercible message) eqn:Hcm;
    cbn [andb step_bind step_catch step_finally requests run].
  2:{ split; [reflexivity|]. exact Hfail. }
  set (p2 := push_message (js "assistant") message p1).
  destruct (truthy c) eqn:Htc.
  - destruct (finalizeProfile_cases nts net p2) as [Hreq _].
    destruct (finalizeProfile_facts nts net p2)
      as (p' & Hrun & Hs & Hu & Hd & Hi & Ht & _).
    rewrite requests_finally, run_finally, requests_catch, !run_catch.
    rewrite Hreq, Hrun. cbn [app fst snd step_bind run requests].
    split.
    + rewrite (finalize_request_ext p p2) by (subst p2 p1; destruct p; reflexivity).
      replace (window p2) with (window p) by (subst p2 p1; destruct p; reflexivity).
      destruct (sendable (window p)); reflexivity.
    + assert (Htr : transcript p2
                    = transcript p ++ [(js "user", VStr text); (js "assistant", message)]).
      { subst p2 p1. destruct p. cbn. rewrite <- app_assoc. reflexivity. }
      rewrite Htr in Ht.
      assert (Hp2 : sessionId p2 = sessionId p /\ currentUser p2 = currentUser p
                    /\ messageInput p2 = []).
      { subst p2 p1. destruct p. repeat split. }
      destruct Hp2 as (E1 & E2 & E3).
      destruct Ht as [Ht|Ht]; rewrite <- app_assoc in Ht; cbn [app] in Ht;
        (eexists _, _; split; [reflexivity|]);
        change (sessionId (set_disabled false p')) with (sessionId p');
        change (currentUser (set_disabled false p')) with (currentUser p');
        change (messageInput (set_disabled false p')) with (messageInput p');
        change (transcript (set_disabled false p')) with (transcript p');
        change (sendBtn_disabled (set_disabled false p')) with false;
        rewrite Hs, Hu, Hi, E1, E2, E3;
        repeat (split; [reflexivity|]);
        (split; [exact Ht|]); right; exists message.
      * right. left. reflexivity.
      * right. right. reflexivity.
  - cbn [app fst snd step_bind step_catch step_finally run requests].
    split; [reflexivity|].
    eexists _, _. split; [reflexivity|]. subst p2 p1. destruct p. cbn.
    rewrite <- app_assoc. repeat split. right. exists message. left. reflexivity.
Qed.

(** X17.  A send that passes the guard never rejects, whatever the
    network does.  It ends with the send button enabled and the message
    box empty, leaves the session id and the current user alone, and
    only appends to the transcript: the user's trimmed message, then at
    least one message, all of them the assistant's. *)
Theorem handleSendMessage_settles (nts : Q -> jsstring) (net : request -> outcome)
    (p : page) :
  trim (messageInput p) <> [] -> truthy (sessionId p) = true ->
  let p' := snd (run net (handleSendMessage nts p)) in
  fst (run net (handleSendMessage nts p)) = Return tt
  /\ sessionId p' = sessionId p /\ currentUser p' = currentUser p
  /\ sendBtn_disabled p' = false /\ messageInput p' = []
  /\ exists more,
       transcript p' = transcript p ++ (js "user", VStr (trim (messageInput p))) :: more
       /\ more <> []
       /\ Forall (fun m => fst m = js "assistant") more.
Proof.
  intros Hne Hsid.
  destruct (handleSendMessage_cases nts net p Hne Hsid)
    as (_ & q & more & Hrun & Hs & Hu & Hd & Hi & Ht & Hmore).
  cbn zeta. rewrite Hrun. cbn [fst snd].
  repeat (split; [assumption || reflexivity|]).
  exists more. split; [exact Ht|].
  destruct Hmore as [-> | [message [-> | [-> | ->]]]];
    (split; [discriminate | repeat constructor]).
Qed.

Lemma handleSendMessage_settles_witness :
  sendBtn_disabled (snd (run (respond bad_gateway) (handleSendMessage no_numerals chatting)))
  = false.
Proof.
  refine (proj1 (proj2 (proj2 (proj2 (handleSendMessage_settles no_numerals
            (respond bad_gateway) chatting _ eq_refl))))).
  vm_compute. discriminate.
Defined.

(** X19.  What a send asks of the backend.  A send that fails the
    guard issues no request.  One that passes it posts the session id
    and the trimmed message, and then asks for the profile to be
    finalized, with the same session id, exactly when the answer is a
    JSON value whose [message] has a string form and whose
    [is_complete] is truthy, and the stored credential can be sent as a
    header value; in no case does it issue a third request. *)
Theorem handleSendMessage_requests (nts : Q -> jsstring) (net : request -> outcome)
    (p : page) :
  (trim (messageInput p) = [] \/ truthy (sessionId p) = false ->
   requests net (handleSendMessage nts p) = [])
  /\ (trim (messageInput p) <> [] -> truthy (sessionId p) = true ->
      requests net (handleSendMessage nts p)
      = message_request p
        :: (if completes (net (message_request p)) && sendable (window p)
            then [finalize_request p] else [])).
Proof.
  split.
  - intros H. rewrite (handleSendMessage_silent nts p H). reflexivity.
  - intros Hne Hsid. apply (handleSendMessage_cases nts net p Hne Hsid).
Qed.

Lemma handleSendMessage_requests_witness :
  requests (respond completed) (handleSendMessage no_numerals not_started) = []
  /\ requests (respond completed) (handleSendMessage no_numerals chatting)
     = [message_request chatting; finalize_request chatting].
Proof.
  split.
  - apply (proj1 (handleSendMessage_requests no_numerals (respond completed) not_started)).
    right. reflexivity.
  - apply (proj2 (handleSendMessage_requests no_numerals (respond completed) chatting)).
    + vm_compute. discriminate.
    + reflexivity.
Defined.

(** An answer that is complete but whose message is an object with a
    [toString] member: the message cannot be shown, the error message
    is, and the profile is not finalized. *)
Lemma handleSendMessage_unshown :
  let answer := {| status := 200;
                   body_text := js "{" ++ json_key (js "message") ++ js "{"
                                ++ json_key (js "toString") ++ js "1},"
                                ++ json_key (js "is_complete") ++ js "true}" |} in
  requests (respond answer) (handleSendMessage no_numerals chatting)
  = [message_request chatting]
  /\ transcript (snd (run (respond answer) (handleSendMessage no_numerals chatting)))
     = transcript chatting
       ++ [(js "user", VStr (js "two adults")); (js "assistant", send_error)].
Proof. vm_compute. auto. Qed.

End SendProps.

(** ** Menu page: the flat list *)

Section FlatListProps.
Import Menu MenuView.

Lemma find_prop_app (k : jsstring) (a b : list (jsstring * value)) :
  find_prop k (a ++ b)
  = match find_prop k b with
    | Some v => Some v
    | None => find_prop k a
    end.
Proof.
  induction a as [|[k' v] a IH]; cbn [app find_prop].
  - destruct (find_prop k b); reflexivity.
  - rewrite IH. destruct (find_prop k b); reflexivity.
Qed.

Lemma entry_get (day mealType : jsstring) (dish : value) (k : jsstring) :
  get (entry day mealType dish) k
  = Return (match find_prop k (spread dish) with
            | Some v => v
            | None =>
                if bool_decide (js "type" = k) then VStr mealType
                else if bool_decide (js "day" = k) then VStr day
                else VUndefined
            end).
Proof.
  unfold entry. cbn [get]. unfold lookup_prop. rewrite find_prop_app.
  destruct (find_prop k (spread dish)); [reflexivity|].
  cbn [find_prop]. repeat case_bool_decide; reflexivity.
Qed.

Lemma entry_day (day mealType : jsstring) (dish : value) :
  find_prop (js "day") (spread dish) = None ->
  get (entry day mealType dish) (js "day") = Return (VStr day).
Proof. intros H. rewrite entry_get, H. reflexivity. Qed.

Lemma entry_type (day mealType : jsstring) (dish : value) :
  find_prop (js "type") (spread dish) = None ->
  get (entry day mealType dish) (js "type") = Return (VStr mealType).
Proof. intros H. rewrite entry_get, H. reflexivity. Qed.

(** X20.  An entry of the flat list has every field of the dish, and
    the day and the meal type of its slot unless the dish defines [day]
    or [type] itself: the fields of the dish come last in the object
    and override the labels of the slot. *)
Theorem entry_fields (day mealType : jsstring) (dish : value) :
  (forall k v, find_prop k (spread dish) = Some v ->
               get (entry day mealType dish) k = Return v)
  /\ (find_prop (js "day") (spread dish) = None ->
      get (entry day mealType dish) (js "day") = Return (VStr day))
  /\ (find_prop (js "type") (spread dish) = None ->
      get (entry day mealType dish) (js "type") = Return (VStr mealType))
  /\ (forall k, k <> js "day" -> k <> js "type" ->
                get (entry day mealType dish) k = Return (lookup_prop k (spread dish))).
Proof.
  split; [|split; [|split]].
  - intros k v H. rewrite entry_get, H. reflexivity.
  - apply entry_day.
  - apply entry_type.
  - intros k Hd Ht. rewrite entry_get. unfold lookup_prop.
    destruct (find_prop k (spread dish)); [reflexivity|].
    repeat case_bool_decide; congruence.
Qed.

Lemma entry_fields_witness :
  get (entry (js "monday") (js "lunch")
         (VObj [(js "type", VStr (js "brunch")); (js "name", VStr (js "Eggs"))]))
      (js "type")
  = Return (VStr (js "brunch"))
  /\ get (entry (js "monday") (js "lunch")
            (VObj [(js "type", VStr (js "brunch")); (js "name", VStr (js "Eggs"))]))
         (js "day")
     = Return (VStr (js "monday")).
Proof.
  split.
  - apply (proj1 (entry_fields (js "monday") (js "lunch") _)). reflexivity.
  - apply (proj1 (proj2 (entry_fields (js "monday") (js "lunch") _))). reflexivity.
Defined.

End FlatListProps.

(** ** Menu page: opening a dish *)

Section DialogProps.
Import Menu MenuView.

Lemma find_result_app {A} (f : A -> result bool) (a b : list A) :
  find_result f (a ++ b)
  = match find_result f a with
    | Return None => find_result f b
    | r => r
    end.
Proof.
  induction a as [|x a IH]; cbn [app find_result]; [reflexivity|].
  destruct (f x) as [[|]|e]; cbn [bind]; auto.
Qed.

Lemma same_slot_entry (menu : value) (day type d' t' : jsstring) :
  unlabelled (slot menu d' t') ->
  same_slot day type (entry d' t' (slot menu d' t'))
  = Return (bool_decide (d' = day) && bool_decide (t' = type)).
Proof.
  intros [Hd Ht]. unfold same_slot.
  rewrite (entry_day _ _ _ Hd), (entry_type _ _ _ Ht). cbn [bind is_string].
  destruct (bool_decide (d' = day)); reflexivity.
Qed.

Lemma find_cells (menu : value) (day type d' : jsstring) (meals : list jsstring) :
  (forall t', truthy (slot menu d' t') = true -> unlabelled (slot menu d' t')) ->
  find_result (same_slot day type) (flat_map (cell menu d') meals)
  = Return (if bool_decide (d' = day /\ type ∈ meals) && truthy (slot menu day type)
            then Some (entry day type (slot menu day type))
            else None).
Proof.
  intros Hplain. induction meals as [|t' meals IH].
  - cbn [flat_map find_result].
    rewrite bool_decide_eq_false_2; [reflexivity|].
    intros [_ H]. inversion H.
  - cbn [flat_map]. rewrite find_result_app, IH. clear IH.
    unfold cell at 1. cbn zeta.
    destruct (truthy (slot menu d' t')) eqn:Hs.
    + cbn [find_result]. rewrite (same_slot_entry menu day type d' t' (Hplain t' Hs)).
      cbn [bind].
      destruct (bool_decide_reflect (d' = day)) as [-> | Hd];
        destruct (bool_decide_reflect (t' = type)) as [-> | Ht]; cbn [andb].
      * rewrite bool_decide_eq_true_2 by (split; [reflexivity | left]).
        rewrite Hs. reflexivity.
      * rewrite (bool_decide_ext (day = day /\ type ∈ t' :: meals)
                   (day = day /\ type ∈ meals))
          by (rewrite elem_of_cons; intuition congruence).
        reflexivity.
      * rewrite (bool_decide_ext (d' = day /\ type ∈ type :: meals)
                   (d' = day /\ type ∈ meals)) by intuition congruence.
        reflexivity.
      * rewrite (bool_decide_ext (d' = day /\ type ∈ t' :: meals)
                   (d' = day /\ type ∈ meals)) by intuition congruence.
        reflexivity.
    + cbn [find_result].
      destruct (bool_decide_reflect (d' = day /\ type ∈ meals)) as [[-> Hin] | Hn].
      * rewrite bool_decide_eq_true_2 by (split; [reflexivity | right; exact Hin]).
        reflexivity.
      * destruct (bool_decide_reflect (d' = day /\ type ∈ t' :: meals)) as [[-> Hin] | Hn'];
          [|reflexivity].
        apply elem_of_cons in Hin. destruct Hin as [-> | Hin]; [|tauto].
        rewrite Hs. reflexivity.
Qed.

Lemma find_flatten_days (menu : value) (day type : jsstring)
    (dayList meals : list jsstring) :
  (forall d' t', truthy (slot menu d' t') = true -> unlabelled (slot menu d' t')) ->
  find_result (same_slot day type)
    (flat_map (fun d' => flat_map (cell menu d') meals) dayList)
  = Return (if bool_decide (day ∈ dayList /\ type ∈ meals) && truthy (slot menu day type)
            then Some (entry day type (slot menu day type))
            else None).
Proof.
  intros Hplain. induction dayList as [|d' dayList IH].
  - cbn [flat_map find_result].
    rewrite bool_decide_eq_false_2; [reflexivity|].
    intros [H _]. inversion H.
  - cbn [flat_map]. rewrite find_result_app, IH, (find_cells menu day type d' meals (Hplain d')).
    clear IH.
    destruct (truthy (slot menu day type)); [|rewrite !andb_false_r; reflexivity].
    rewrite !andb_true_r.
    destruct (bool_decide_reflect (d' = day /\ type ∈ meals)) as [[-> Hin] | Hn].
    + rewrite bool_decide_eq_true_2 by (split; [left | exact Hin]). reflexivity.
    + rewrite (bool_decide_ext (day ∈ d' :: dayList /\ type ∈ meals)
                 (day ∈ dayList /\ type ∈ meals)).
      * reflexivity.
      * rewrite elem_of_cons. split.
        -- intros [[-> | H] H2]; [exfalso; apply Hn; auto | auto].
        -- intros [H H2]. auto.
Qed.

Lemma find_flatten (menu : value) (day type : jsstring) :
  (forall d' t', truthy (slot menu d' t') = true -> unlabelled (slot menu d' t')) ->
  find_result (same_slot day type) (flatten menu)
  = Return (if bool_decide (day ∈ weekdays /\ type ∈ meal_kinds)
               && truthy (slot menu day type)
            then Some (entry day type (slot menu day type))
            else None).
Proof. apply find_flatten_days. Qed.


Lemma core_is_part : is_part core set_core.
Proof. split; intros; reflexivity. Qed.

(** [processMenuData] on a menu that can be read. *)
Lemma processMenuData_run (menu : value) (p : page) :
  menu <> VUndefined -> menu <> VNull ->
  processMenuData menu p = Done (Return tt) (set_allDishes (flatten menu) p).
Proof.
  intros Hu Hn.
  unfold processMenuData. unfold abind at 1. unfold modify at 1. cbn [step_bind].
  rewrite (forEach_push days _ (fun day => flat_map (cell menu day) meal_kinds)).
  - reflexivity.
  - intros day q. unfold abind at 1. unfold lift at 1. unfold cell, slot.
    destruct (get menu day) as [dm|e] eqn:Hday;
      [|destruct menu; cbn in Hday; congruence].
    cbn [step_bind catch_to].
    destruct (truthy dm) eqn:Hd; cbn [negb].
    + rewrite (forEach_push mealTypes _
                 (fun mealType =>
                    if truthy (catch_to (get dm mealType) (fun _ => VUndefined))
                    then [entry day mealType
                            (catch_to (get dm mealType) (fun _ => VUndefined))]
                    else [])).
      * reflexivity.
      * intros mt q'. unfold abind, lift.
        destruct (get_truthy dm mt Hd) as [dish ->].
        cbn [step_bind catch_to].
        destruct (truthy dish).
        -- reflexivity.
        -- unfold ret. rewrite app_nil_r, set_allDishes_same. reflexivity.
    + unfold ret. rewrite app_nil_r, set_allDishes_same. reflexivity.
Qed.

Lemma openDishModal_found (day type : jsstring) (v : view) (found : option value) :
  find_result (same_slot day type) (allDishes (core v)) = Return found ->
  openDishModal day type v
  = match found with
    | None => Done (Return tt) v
    | Some dish =>
        if negb (truthy dish) then Done (Return tt) v
        else
          (let* name := lift (get dish (js "name")) in
           lift (interpolate name) ;;
           modify (with_modal (set_modalTitle name)) ;;
           let* description := lift (get dish (js "description")) in
           lift (interpolate description) ;;
           modify (with_modal (set_modalDescription description)) ;;
           let* ingredients := lift (get dish (js "ingredients")) in
           let* items := lift (elements ingredients) in
           modify (with_modal (set_modalIngredients items)) ;;
           let* preparation_steps := lift (get dish (js "preparation_steps")) in
           let* steps := lift (elements preparation_steps) in
           modify (with_modal (set_modalSteps steps)) ;;
           modify (with_modal (set_modal_hidden false)))%async v
    end.
Proof.
  intros H. unfold openDishModal. unfold abind at 1 2. unfold gets at 1.
  cbn [step_bind]. unfold lift at 1. unfold same_slot in H. rewrite H.
  cbn [step_bind]. destruct found as [dish|]; [|reflexivity].
  destruct (truthy dish); reflexivity.
Qed.

(** X21.  After [processMenuData] a click on a card opens the dish of
    its slot.  For a menu none of whose dishes defines [day] or [type]
    itself: [openDishModal(day, type)] does nothing when the pair is not
    a weekday and a meal type or the slot is not set; it shows the
    name, the description, the ingredients and the steps of the dish of
    the slot when the first two have a string form (or are [null] or
    [undefined]) and the last two are arrays of values that have one;
    and otherwise it throws a [TypeError] and leaves the dialog as
    hidden as it was. *)
Theorem openDishModal_finds_slot (menu : value) (v0 : view) :
  menu <> VUndefined -> menu <> VNull ->
  (forall d t, truthy (slot menu d t) = true -> unlabelled (slot menu d t)) ->
  exists v,
    in_core (processMenuData menu) v0 = Done (Return tt) v
    /\ allDishes (core v) = flatten menu
    /\ (forall day type,
          ~ (day ∈ weekdays /\ type ∈ meal_kinds) \/ truthy (slot menu day type) = false ->
          openDishModal day type v = Done (Return tt) v)
    /\ (forall day type items steps,
          day ∈ weekdays -> type ∈ meal_kinds ->
          truthy (slot menu day type) = true ->
          let dish := spread (slot menu day type) in
          lookup_prop (js "ingredients") dish = VArr items ->
          lookup_prop (js "preparation_steps") dish = VArr steps ->
          dish_openable dish = true ->
          exists v',
            openDishModal day type v = Done (Return tt) v'
            /\ modal v' = dialog_of (lookup_prop (js "name") dish)
                            (lookup_prop (js "description") dish) items steps
            /\ core v' = core v /\ dishGrid v' = dishGrid v
            /\ weekDate v' = weekDate v)
    /\ (forall day type,
          day ∈ weekdays -> type ∈ meal_kinds ->
          truthy (slot menu day type) = true ->
          let dish := spread (slot menu day type) in
          dish_openable dish = false ->
          exists v',
            openDishModal day type v = Done (Throw TypeError) v'
            /\ modal_hidden (modal v') = modal_hidden (modal v)).
Proof.
  intros Hu Hn Hplain.
  exists (set_core (set_allDishes (flatten menu) (core v0)) v0).
  set (v := set_core (set_allDishes (flatten menu) (core v0)) v0).
  assert (Hall : allDishes (core v) = flatten menu) by reflexivity.
  assert (Hfield : forall day type k,
            k <> js "day" -> k <> js "type" ->
            get (entry day type (slot menu day type)) k
            = Return (lookup_prop k (spread (slot menu day type)))).
  { intros day type k H1 H2. rewrite entry_get. unfold lookup_prop.
    destruct (find_prop k (spread (slot menu day type))); [reflexivity|].
    repeat case_bool_decide; congruence. }
  split; [|split; [exact Hall|split; [|split]]].
  - unfold in_core, within. change (core v0) with (core v0).
    rewrite (processMenuData_run menu (core v0) Hu Hn). reflexivity.
  - intros day type H.
    rewrite (openDishModal_found day type v None); [reflexivity|].
    rewrite Hall, (find_flatten menu day type Hplain).
    destruct H as [H|H].
    + rewrite bool_decide_eq_false_2 by exact H. reflexivity.
    + rewrite H, andb_false_r. reflexivity.
  - intros day type items steps Hd Ht Hs dish Hi Hp Hopen.
    rewrite (openDishModal_found day type v (Some (entry day type (slot menu day type)))).
    2:{ rewrite Hall, (find_flatten menu day type Hplain).
        rewrite bool_decide_eq_true_2 by auto. rewrite Hs. reflexivity. }
    change (truthy (entry day type (slot menu day type))) with true. cbn [negb].
    unfold dish_openable in Hopen. rewrite Hi, Hp in Hopen.
    apply andb_prop in Hopen. destruct Hopen as [Hopen H34].
    apply andb_prop in Hopen. destruct Hopen as [H1 H2].
    apply andb_prop in H34. destruct H34 as [H3 H4].
    unfold abind, lift, modify, interpolate.
    rewrite !Hfield by discriminate. fold dish. rewrite Hi, Hp.
    cbn [step_bind elements]. rewrite H1. cbn [step_bind]. rewrite H2.
    cbn [step_bind]. rewrite H3. cbn [step_bind]. rewrite H4.
    eexists. split; [reflexivity|]. repeat split; reflexivity.
  - intros day type Hd Ht Hs dish Hbad.
    rewrite (openDishModal_found day type v (Some (entry day type (slot menu day type)))).
    2:{ rewrite Hall, (find_flatten menu day type Hplain).
        rewrite bool_decide_eq_true_2 by auto. rewrite Hs. reflexivity. }
    change (truthy (entry day type (slot menu day type))) with true. cbn [negb].
    unfold dish_openable in Hbad.
    unfold abind, lift, modify, interpolate.
    rewrite !Hfield by discriminate. fold dish. cbn [step_bind].
    destruct (coercible (lookup_prop (js "name") dish)); cbn [step_bind];
      [|eexists; split; reflexivity].
    destruct (coercible (lookup_prop (js "description") dish)); cbn [step_bind];
      [|eexists; split; reflexivity].
    cbn [andb] in Hbad.
    destruct (lookup_prop (js "ingredients") dish) as [| | | | |items|] eqn:Hi;
      try (eexists; split; reflexivity).
    cbn [elements].
    destruct (forallb coercible items); cbn [step_bind];
      [|eexists; split; reflexivity].
    destruct (lookup_prop (js "preparation_steps") dish) as [| | | | |steps|] eqn:Hp;
      try (eexists; split; reflexivity).
    cbn [elements].
    destruct (forallb coercible steps); cbn [step_bind];
      [|eexists; split; reflexivity].
    discriminate.
Qed.

Lemma openDishModal_finds_slot_witness :
  exists v,
    in_core (processMenuData two_day_menu)
      (menu_loading (browser_with None menu_page)) = Done (Return tt) v
    /\ modal_hidden (modal v) = true
    /\ exists v',
         openDishModal (js "tuesday") (js "dinner") v = Done (Return tt) v'
         /\ modalTitle (modal v') = VStr (js "Salad")
         /\ modal_hidden (modal v') = false.
Proof.
  destruct (openDishModal_finds_slot two_day_menu
              (menu_loading (browser_with None menu_page)))
    as (v & Hv & Hall & _ & Hopen & _).
  - discriminate.
  - discriminate.
  - intros d t _. unfold unlabelled, slot, two_day_menu.
    cbn [get catch_to]. unfold lookup_prop. cbn [find_prop].
    destruct (bool_decide (js "tuesday" = d)), (bool_decide (js "monday" = d));
      cbn [truthy get catch_to]; unfold lookup_prop; cbn [find_prop];
      try destruct (bool_decide (js "dinner" = t));
      try destruct (bool_decide (js "lunch" = t));
      split; reflexivity.
  - exists v. split; [exact Hv|]. split.
    + inversion Hv. reflexivity.
    + destruct (Hopen (js "tuesday") (js "dinner") [VStr (js "lettuce")]
                  [VStr (js "Toss")]) as (v' & Hrun & Hmodal & _).
      * repeat constructor.
      * repeat constructor.
      * reflexivity.
      * reflexivity.
      * reflexivity.
      * reflexivity.
      * exists v'. split; [exact Hrun|]. rewrite Hmodal. split; reflexivity.
Defined.

(** A dish whose name is an object with a [toString] member: the click
    throws before anything is written, and the dialog stays hidden. *)
Lemma openDishModal_unnamed :
  let dish := VObj [(js "day", VStr (js "monday")); (js "type", VStr (js "lunch"));
                    (js "name", VObj [(js "toString", VNum (of_Z 1))]);
                    (js "description", VStr (js "A loaf"));
                    (js "ingredients", VArr []);
                    (js "preparation_steps", VArr [])] in
  let v := set_core (set_allDishes [dish] (core two_dishes_shown)) two_dishes_shown in
  openDishModal (js "monday") (js "lunch") v = Done (Throw TypeError) v.
Proof. vm_compute. reflexivity. Qed.

End DialogProps.

(** ** Menu page: search and the grid *)

Section GridProps.
Import Menu MenuView.

Lemma includes_empty (s : jsstring) : includes s [] = true.
Proof. destruct s; reflexivity. Qed.

(** X22.  Emptying the search box brings every dish back: when the
    runtime lowercases the empty string to itself and every dish has a
    string as its name, the search for the empty text returns the whole
    list, in order, whatever the other fields of the dishes are. *)
Theorem search_empty_term (lower : jsstring -> jsstring) (p : page) :
  lower [] = [] ->
  (forall d, In d (allDishes p) -> exists name, get d (js "name") = Return (VStr name)) ->
  search lower [] p = Return (allDishes p).
Proof.
  intros Hl. unfold search. rewrite Hl.
  induction (allDishes p) as [|d l IH]; intros H; [reflexivity|].
  cbn [filter]. destruct (H d (or_introl eq_refl)) as [name Hn].
  unfold dish_matches at 1. rewrite Hn. cbn [bind lower_includes Menu.lower].
  rewrite includes_empty. cbn [bind].
  rewrite IH by (intros d' Hd'; apply H; right; exact Hd').
  reflexivity.
Qed.

Lemma search_empty_term_witness :
  search ascii_lower [] two_dishes = Return (allDishes two_dishes).
Proof.
  apply (search_empty_term ascii_lower two_dishes eq_refl).
  intros d [<- | [<- | []]]; eexists; reflexivity.
Defined.

Lemma map_result_total {A B} (f : A -> result B) (g : A -> B) (l : list A) :
  Forall (fun x => f x = Return (g x)) l ->
  map_result f l = Return (map g l).
Proof.
  induction 1 as [|x l Hx _ IH]; cbn [map_result map]; [reflexivity|].
  rewrite Hx, IH. reflexivity.
Qed.

Lemma map_result_throws {A B} (f : A -> result B) (l : list A) :
  Exists (fun x => exists e, f x = Throw e) l ->
  exists e, map_result f l = Throw e.
Proof.
  induction 1 as [x l [e He] | x l _ [e IH]]; cbn [map_result].
  - rewrite He. eauto.
  - destruct (f x); cbn [bind]; [rewrite IH|]; eauto.
Qed.

Lemma dish_card_shows (up : jsstring -> jsstring) (d : value) :
  renderable d -> exists c, dish_card up d = Return c /\ shows up d c.
Proof.
  intros ((day & type & ings & Hd & Ht & Hi) & Hn & Hs).
  assert (Hget : forall k, get d k = Return (field d k)).
  { intros k. destruct d; try discriminate; reflexivity. }
  eexists. split.
  - unfold dish_card, interpolate. rewrite Hd, Ht. cbn [bind capitalize coercible].
    rewrite (Hget (js "name")). cbn [bind]. rewrite Hn. cbn [bind].
    rewrite (Hget (js "description")). cbn [bind]. rewrite Hs. cbn [bind].
    rewrite Hi. cbn [bind length_of coercible].
    reflexivity.
  - exists day, type, ings. auto.
Qed.

Lemma is_dish_renderable (d : value) : is_dish d -> presentable d -> renderable d.
Proof.
  intros (name & description & ingredients & Hn & Hd & _) Hp.
  split; [exact Hp|]. unfold field. rewrite Hn, Hd. split; reflexivity.
Qed.

Lemma map_result_shows (up : jsstring -> jsstring) (l : list value) :
  Forall renderable l ->
  exists cards, map_result (dish_card up) l = Return cards /\ Forall2 (shows up) l cards.
Proof.
  induction 1 as [|d l Hd _ (cards & IH & Hall)]; cbn [map_result].
  - exists []. split; [reflexivity | constructor].
  - destruct (dish_card_shows up d Hd) as (c & Hc & Hs).
    rewrite Hc, IH. cbn [bind]. exists (c :: cards). split; [reflexivity|].
    constructor; assumption.
Qed.

(** A card is built or a TypeError is thrown. *)
Lemma dish_card_throws (up : jsstring -> jsstring) (d : value) (e : exn) :
  dish_card up d = Throw e -> e = TypeError.
Proof.
  unfold dish_card, interpolate.
  destruct (get d (js "day")) as [day|e'] eqn:Hd; cbn [bind].
  2:{ destruct d; inversion Hd; congruence. }
  assert (Hget : forall k, get d k = Return (field d k)).
  { intros k. destruct d; try discriminate; reflexivity. }
  destruct (coercible day); cbn [bind]; [|congruence].
  rewrite (Hget (js "type")). cbn [bind].
  destruct (coercible (field d (js "type"))); cbn [bind]; [|congruence].
  destruct day; cbn [capitalize bind]; try congruence.
  destruct (field d (js "type")); cbn [capitalize bind]; try congruence.
  rewrite (Hget (js "name")). cbn [bind].
  destruct (coercible (field d (js "name"))); cbn [bind]; [|congruence].
  rewrite (Hget (js "description")). cbn [bind].
  destruct (coercible (field d (js "description"))); cbn [bind]; [|congruence].
  rewrite (Hget (js "ingredients")). cbn [bind].
  destruct (field d (js "ingredients")); cbn [length_of bind]; try congruence;
    match goal with
    | |- context [coercible ?x] => destruct (coercible x); cbn [bind]; congruence
    end.
Qed.

(** X23.  The grid is rendered as a whole.  An empty list gives the
    no-match message.  A list of dishes that each have a string [day],
    a string [type], an array of ingredients, and a name and a
    description with a string form gives one card per dish, in order,
    labelled with the day and the type capitalised and with the number
    of ingredients.  If one dish of the list has no ingredients, a day
    or a type that is not a string, or a name or a description without
    a string form, rendering throws a TypeError and the grid keeps what
    it showed. *)
Theorem renderDishes_whole (up : jsstring -> jsstring) (dishes : list value) (v : view) :
  (dishes = [] ->
   exists v',
     renderDishes up dishes v = Done (Return tt) v'
     /\ dishGrid v' = NoMatches
     /\ core v' = core v /\ weekDate v' = weekDate v /\ modal v' = modal v)
  /\ (dishes <> [] -> Forall renderable dishes ->
      exists cards v',
        renderDishes up dishes v = Done (Return tt) v'
        /\ dishGrid v' = Cards cards
        /\ core v' = core v /\ weekDate v' = weekDate v /\ modal v' = modal v
        /\ Forall2 (shows up) dishes cards)
  /\ (Exists (fun d => exists e, dish_card up d = Throw e) dishes ->
      renderDishes up dishes v = Done (Throw TypeError) v)
  /\ (forall d,
        (forall s, get d (js "day") <> Return (VStr s))
        \/ (forall s, get d (js "type") <> Return (VStr s))
        \/ get d (js "ingredients") = Return VUndefined
        \/ get d (js "ingredients") = Return VNull
        \/ coercible (field d (js "name")) = false
        \/ coercible (field d (js "description")) = false ->
        dish_card up d = Throw TypeError).
Proof.
  split; [|split; [|split]].
  - intros ->. eexists. split; [reflexivity|]. repeat split; reflexivity.
  - intros Hne Hall. destruct (map_result_shows up dishes Hall) as (cards & Hm & Hs).
    exists cards. eexists. split; [|split; [|split; [|split; [|split; [|exact Hs]]]]].
    + unfold renderDishes. destruct dishes as [|d l]; [congruence|].
      unfold abind, lift. rewrite Hm. reflexivity.
    + reflexivity.
    + reflexivity.
    + reflexivity.
    + reflexivity.
  - intros Hex.
    assert (Hthrow : map_result (dish_card up) dishes = Throw TypeError).
    { induction Hex as [x l [e He] | x l _ IH]; cbn [map_result].
      - rewrite He. cbn [bind]. f_equal. apply (dish_card_throws up x e He).
      - destruct (dish_card up x) as [c|e] eqn:Hx; cbn [bind].
        + rewrite IH. reflexivity.
        + f_equal. apply (dish_card_throws up x e Hx). }
    unfold renderDishes. destruct dishes as [|d l]; [inversion Hex|].
    unfold abind, lift. rewrite Hthrow. reflexivity.
  - intros d H.
    destruct (dish_card up d) as [c|e] eqn:Hc;
      [|f_equal; apply (dish_card_throws up d e Hc)].
    exfalso. revert Hc. unfold dish_card, interpolate.
    destruct (get d (js "day")) as [day|e] eqn:Hd; cbn [bind]; [|discriminate].
    assert (Hget : forall k, get d k = Return (field d k)).
    { intros k. destruct d; try discriminate; reflexivity. }
    destruct (coercible day); cbn [bind]; [|discriminate].
    rewrite (Hget (js "type")). cbn [bind].
    destruct (coercible (field d (js "type"))); cbn [bind]; [|discriminate].
    destruct (capitalize up day) as [dl|e] eqn:Hcd; cbn [bind]; [|discriminate].
    destruct (capitalize up (field d (js "type"))) as [tl|e] eqn:Hct; cbn [bind];
      [|discriminate].
    rewrite (Hget (js "name")). cbn [bind].
    destruct (coercible (field d (js "name"))) eqn:Hn; cbn [bind]; [|discriminate].
    rewrite (Hget (js "description")). cbn [bind].
    destruct (coercible (field d (js "description"))) eqn:Hs; cbn [bind]; [|discriminate].
    rewrite (Hget (js "ingredients")). cbn [bind].
    destruct (length_of (field d (js "ingredients"))) eqn:Hl; cbn [bind]; [|discriminate].
    intros _. destruct H as [H|[H|[H|[H|[H|H]]]]].
    + destruct day; try discriminate. exact (H _ eq_refl).
    + rewrite (Hget (js "type")) in H.
      destruct (field d (js "type")); try discriminate. exact (H _ eq_refl).
    + rewrite (Hget (js "ingredients")) in H. inversion H as [H'].
      rewrite H' in Hl. discriminate.
    + rewrite (Hget (js "ingredients")) in H. inversion H as [H'].
      rewrite H' in Hl. discriminate.
    + discriminate.
    + discriminate.
Qed.

Lemma renderDishes_whole_witness :
  exists cards v',
    renderDishes ascii_upper [bread; salad] (menu_loaded two_day_menu)
    = Done (Return tt) v'
    /\ dishGrid v' = Cards cards
    /\ map card_name cards = [VStr (js "Bread"); VStr (js "Salad")].
Proof.
  destruct (proj1 (proj2 (renderDishes_whole ascii_upper [bread; salad]
                            (menu_loaded two_day_menu))))
    as (cards & v' & Hrun & Hgrid & _).
  3:{ exists cards, v'. split; [exact Hrun|]. split; [exact Hgrid|].
      vm_compute in Hrun. inversion Hrun. subst v'.
      cbn [dishGrid] in Hgrid. inversion Hgrid. reflexivity. }
  - discriminate.
  - repeat constructor.
    + exists (js "monday"), (js "lunch"), [VStr (js "wheat flour"); VStr (js "water")].
      repeat split; reflexivity.
    + exists (js "monday"), (js "dinner"), [VStr (js "lettuce")].
      repeat split; reflexivity.
Defined.

(** A dish whose description is an object with a [toString] member
    cannot be rendered, and takes the whole grid with it. *)
Lemma renderDishes_undescribed :
  let dish := VObj [(js "day", VStr (js "monday")); (js "type", VStr (js "lunch"));
                    (js "name", VStr (js "Bread"));
                    (js "description", VObj [(js "toString", VNum (of_Z 1))]);
                    (js "ingredients", VArr [])] in
  renderDishes ascii_upper [bread; dish] two_dishes_shown
  = Done (Throw TypeError) two_dishes_shown.
Proof. vm_compute. reflexivity. Qed.

Lemma fetchMenu_unsendable (up : jsstring -> jsstring) (nts : Q -> jsstring)
    (userId : value) (v : view) :
  coercible userId = false ->
  fetchMenu up nts userId v = Done (Return tt) (set_dishGrid (ErrorView TypeError) v).
Proof.
  intros Hc. unfold fetchMenu, try_catch_async.
  unfold abind at 1 2. unfold gets at 1. cbn [step_bind].
  unfold lift at 1, ToString. rewrite Hc. reflexivity.
Qed.

Lemma fetchMenu_shape (up : jsstring -> jsstring) (nts : Q -> jsstring)
    (userId : value) (v : view) :
  coercible userId = true ->
  exists k,
    fetchMenu up nts userId v = Fetch (menu_request nts v userId) v k
    /\ forall o,
         k o v
         = step_catch
             (step_bind
                (match o with
                 | NetworkError => Done (Throw TypeError) v
                 | Responded r => Done (Return r) v
                 end)
                (fun response =>
                   if negb (ok response) then
                     if (status response =? 404)%Z then renderEmptyState
                     else throw (Error (js "Failed to fetch menu"))
                   else
                     (let* data := lift (json response) in
                      let* menu := lift (get data (js "menu")) in
                      in_core (modify (set_currentMenu menu)) ;;
                      let* week_start_date := lift (get data (js "week_start_date")) in
                      let* week := lift (ToString nts week_start_date) in
                      modify (set_weekDate (js "Week of " ++ week)) ;;
                      let* current := gets (fun v => currentMenu (core v)) in
                      in_core (processMenuData current) ;;
                      let* dishes := gets (fun v => allDishes (core v)) in
                      renderDishes up dishes)%async))
             (fun error => modify (set_dishGrid (ErrorView error))).
Proof.
  intros Hc. unfold fetchMenu, try_catch_async, menu_request.
  unfold abind at 1 2 3. unfold gets at 1. cbn [step_bind].
  unfold lift at 1. unfold ToString at 1. rewrite Hc. cbn [step_bind]. unfold fetch.
  cbn [headers]. change (headers_ok []) with true.
  cbn [step_bind step_catch]. eexists. split; [reflexivity|].
  intros [|r]; reflexivity.
Qed.

Lemma classic_menu (menu : value) :
  (menu = VNull \/ menu = VUndefined) \/ (menu <> VNull /\ menu <> VUndefined).
Proof. destruct menu; auto; right; split; discriminate. Qed.

Lemma renderDishes_grid (up : jsstring -> jsstring) (dishes : list value) (v : view) :
  renderDishes up dishes v
  = match dishes with
    | [] => Done (Return tt) (set_dishGrid NoMatches v)
    | _ :: _ =>
        match map_result (dish_card up) dishes with
        | Return cards => Done (Return tt) (set_dishGrid (Cards cards) v)
        | Throw e => Done (Throw e) v
        end
    end.
Proof.
  unfold renderDishes. destruct dishes as [|d l]; [reflexivity|].
  unfold abind, lift. destruct (map_result _ _); reflexivity.
Qed.

Lemma Forall_filter_keeps {A} (P : A -> Prop) (f : A -> bool) (l : list A) :
  Forall P l -> Forall P (List.filter f l).
Proof.
  induction 1 as [|x l Hx _ IH]; cbn [List.filter]; [constructor|].
  destruct (f x); [constructor; assumption | assumption].
Qed.

(** X24.  Typing in the search box redraws the grid from the dishes
    that match and changes nothing else.  On a list of dish records
    with a string [day] and [type] the handler never throws: it shows
    the no-match message when no dish matches, and otherwise one card
    per matching dish, in the order of the list.  The list of all
    dishes is kept, so that every search starts from the whole menu. *)
Theorem search_input_redraws (up lower : jsstring -> jsstring) (input : jsstring)
    (v : view) :
  Forall is_dish (allDishes (core v)) ->
  Forall presentable (allDishes (core v)) ->
  exists matching v',
    search lower input (core v) = Return matching
    /\ search_input up lower input v = Done (Return tt) v'
    /\ core v' = core v /\ modal v' = modal v /\ weekDate v' = weekDate v
    /\ (matching = [] -> dishGrid v' = NoMatches)
    /\ (matching <> [] ->
        exists cards, dishGrid v' = Cards cards /\ Forall2 (shows up) matching cards).
Proof.
  intros Hd Hp.
  assert (Hs : search lower input (core v)
               = Return (List.filter
                           (fun d => catch_to (dish_matches lower (lower input) d)
                                              (fun _ => false))
                           (allDishes (core v)))).
  { unfold search. apply filter_total.
    rewrite List.Forall_forall in *. intros d Hin.
    destruct (Hd d Hin) as (n & ds & ings & Hf).
    rewrite (dish_matches_fields lower _ d n ds ings Hf). eauto. }
  set (matching := List.filter _ _) in Hs.
  assert (Hr : Forall renderable (allDishes (core v))).
  { rewrite List.Forall_forall in *. intros d Hin.
    apply is_dish_renderable; auto. }
  assert (Hm : Forall renderable matching) by (apply Forall_filter_keeps; exact Hr).
  destruct (map_result_shows up matching Hm) as (cards & Hc & Hshow).
  exists matching.
  unfold search_input, abind, gets, lift. cbn [step_bind]. rewrite Hs. cbn [step_bind].
  rewrite renderDishes_grid. destruct matching as [|d l] eqn:E.
  - eexists. split; [reflexivity|]. split; [reflexivity|].
    do 3 (split; [reflexivity|]). split; [reflexivity | congruence].
  - rewrite Hc. eexists. split; [reflexivity|]. split; [reflexivity|].
    do 3 (split; [reflexivity|]). split; [discriminate|].
    intros _. exists cards. split; [reflexivity | exact Hshow].
Qed.

Lemma search_input_redraws_witness :
  exists matching v',
    search ascii_lower (js "WHEAT") (core two_dishes_shown) = Return matching
    /\ search_input ascii_upper ascii_lower (js "WHEAT") two_dishes_shown
       = Done (Return tt) v'
    /\ core v' = core two_dishes_shown.
Proof.
  destruct (search_input_redraws ascii_upper ascii_lower (js "WHEAT") two_dishes_shown)
    as (matching & v' & H1 & H2 & H3 & _).
  - repeat constructor.
    + exists (js "Bread"), (js "A loaf"), [js "wheat flour"; js "water"].
      repeat split; reflexivity.
    + exists (js "Salad"), (js "Green leaves"), [js "lettuce"].
      repeat split; reflexivity.
  - repeat constructor.
    + exists (js "monday"), (js "lunch"), [VStr (js "wheat flour"); VStr (js "water")].
      repeat split; reflexivity.
    + exists (js "monday"), (js "dinner"), [VStr (js "lettuce")].
      repeat split; reflexivity.
  - exists matching, v'. auto.
Defined.

(** The ways [fetchMenu] can end, by the outcome of its request. *)
Lemma fetchMenu_cases (up : jsstring -> jsstring) (nts : Q -> jsstring)
    (userId : value) (v : view) :
  coercible userId = true ->
  exists k,
    fetchMenu up nts userId v = Fetch (menu_request nts v userId) v k
    /\ forall o,
         exists v',
           k o v = Done (Return tt) v'
           /\ match o with
              | NetworkError => v' = set_dishGrid (ErrorView TypeError) v
              | Responded r =>
                  if ok r then
                    match json r with
                    | Throw e => v' = set_dishGrid (ErrorView e) v
                    | Return data =>
                        match get data (js "menu") with
                        | Throw e => v' = set_dishGrid (ErrorView e) v
                        | Return menu =>
                            let week := field data (js "week_start_date") in
                            currentMenu (core v') = menu
                            /\ modal v' = modal v
                            /\ window (core v') = window (core v)
                            /\ (coercible week = false ->
                                weekDate v' = weekDate v
                                /\ allDishes (core v') = allDishes (core v)
                                /\ dishGrid v' = ErrorView TypeError)
                            /\ (coercible week = true ->
                                weekDate v' = js "Week of " ++ string_form nts week
                                /\ (menu = VNull \/ menu = VUndefined ->
                                    allDishes (core v') = []
                                    /\ dishGrid v' = ErrorView TypeError)
                                /\ (menu <> VNull -> menu <> VUndefined ->
                                    allDishes (core v') = flatten menu
                                    /\ dishGrid v'
                                       = match flatten menu with
                                         | [] => NoMatches
                                         | _ :: _ =>
                                             match map_result (dish_card up)
                                                     (flatten menu) with
                                             | Return cards => Cards cards
                                             | Throw e => ErrorView e
                                             end
                                         end))
                        end
                    end
                  else if (status r =? 404)%Z
                       then v' = set_weekDate [] (set_dishGrid EmptyState v)
                       else v' = set_dishGrid
                                   (ErrorView (Error (js "Failed to fetch menu"))) v
              end.
Proof.
  intros Hid.
  destruct (fetchMenu_shape up nts userId v Hid) as (k & Hf & Hk).
  exists k. split; [exact Hf|]. intros o. rewrite Hk. clear Hf Hk k.
  destruct o as [|r]; cbn [step_bind].
  { eexists. split; reflexivity. }
  destruct (ok r); cbn [negb].
  2:{ destruct (status r =? 404)%Z; eexists; split; reflexivity. }
  unfold abind, lift, gets, modify, in_core, within.
  destruct (json r) as [data|e]; cbn [step_bind]; [|eexists; split; reflexivity].
  destruct (get data (js "menu")) as [menu|e] eqn:Hm; cbn [step_bind];
    [|eexists; split; reflexivity].
  assert (Hw : get data (js "week_start_date")
               = Return (field data (js "week_start_date"))).
  { destruct data; try discriminate; reflexivity. }
  rewrite Hw. set (week := field data (js "week_start_date")).
  cbn [step_bind step_within core set_core currentMenu set_currentMenu set_weekDate].
  unfold ToString.
  destruct (coercible week) eqn:Hcw;
    cbn [step_bind step_within step_catch core set_core currentMenu set_currentMenu
         set_weekDate].
  2:{ eexists. split; [reflexivity|].
      do 3 (split; [reflexivity|]). split; [|discriminate].
      intros _. repeat split; reflexivity. }
  destruct (classic_menu menu) as [[-> | ->] | [Hn Hu]].
  - cbn. eexists. split; [reflexivity|].
    do 3 (split; [reflexivity|]). split; [discriminate|]. intros _.
    split; [reflexivity|]. split; [intros _; split; reflexivity | congruence].
  - cbn. eexists. split; [reflexivity|].
    do 3 (split; [reflexivity|]). split; [discriminate|]. intros _.
    split; [reflexivity|].
    split; [intros _; split; reflexivity | intros _ H; congruence].
  - rewrite (processMenuData_run menu _ Hu Hn).
    cbn [step_bind step_within core set_core allDishes set_allDishes].
    rewrite renderDishes_grid.
    destruct (flatten menu) as [|d l] eqn:Hfl.
    + cbn [step_catch run]. eexists. split; [reflexivity|].
      do 3 (split; [reflexivity|]). split; [discriminate|]. intros _.
      split; [reflexivity|].
      split; [intros [H|H]; congruence | intros _ _; split; reflexivity].
    + destruct (map_result (dish_card up) (d :: l)) as [cards|e];
        cbn [step_catch run]; (eexists; split; [reflexivity|]);
        do 3 (split; [reflexivity|]); (split; [discriminate|]); intros _;
        (split; [reflexivity|]);
        (split; [intros [H|H]; congruence | intros _ _; split; reflexivity]).
Qed.

(** X25.  [fetchMenu] never rejects and always replaces what the grid
    showed.  For a user id that has a string form it issues one [GET]
    for the current menu of that id, without any header, so without the
    credential; for one that has none it issues no request and shows a
    TypeError.  On a 404 it shows the empty state and clears the week
    label; on any other status that is not a success it shows the error
    "Failed to fetch menu"; when the request fails or the body of a
    success response is not JSON it shows that error.  In all these
    cases the menu, the dishes and the dialog are what they were. *)
Theorem fetchMenu_failures (up : jsstring -> jsstring) (nts : Q -> jsstring)
    (net : request -> outcome) (userId : value) (v : view) :
  let req := menu_request nts v userId in
  let v' := snd (run net (fetchMenu up nts userId v)) in
  fst (run net (fetchMenu up nts userId v)) = Return tt
  /\ requests net (fetchMenu up nts userId v) = (if coercible userId then [req] else [])
  /\ headers req = []
  /\ dishGrid v' <> Markup
  /\ (coercible userId = false -> v' = set_dishGrid (ErrorView TypeError) v)
  /\ (coercible userId = true -> net req = NetworkError ->
      v' = set_dishGrid (ErrorView TypeError) v)
  /\ (forall r,
        coercible userId = true -> net req = Responded r -> ok r = false ->
        v' = if (status r =? 404)%Z
             then set_weekDate [] (set_dishGrid EmptyState v)
             else set_dishGrid (ErrorView (Error (js "Failed to fetch menu"))) v)
  /\ (forall r e,
        coercible userId = true ->
        net req = Responded r -> ok r = true -> json r = Throw e ->
        v' = set_dishGrid (ErrorView e) v).
Proof.
  intros req v'. subst v'.
  destruct (coercible userId) eqn:Hid.
  2:{ rewrite (fetchMenu_unsendable up nts userId v Hid). cbn [run requests fst snd].
      split; [reflexivity|]. split; [reflexivity|]. split; [reflexivity|].
      split; [discriminate|]. split; [reflexivity|]. split; [discriminate|].
      split; intros; discriminate. }
  destruct (fetchMenu_cases up nts userId v Hid) as (k & Hf & Hk).
  destruct (Hk (net req)) as (v' & Hv & Hcase).
  rewrite Hf. cbn [requests run]. fold req. rewrite Hv. cbn [requests run fst snd].
  split; [reflexivity|]. split; [reflexivity|]. split; [reflexivity|].
  split; [|split; [discriminate|split; [|split]]].
  - destruct (net req) as [|r]; [subst; discriminate|].
    destruct (ok r).
    + destruct (json r) as [data|e]; [|subst; discriminate].
      destruct (get data (js "menu")) as [menu|e]; [|subst; discriminate].
      cbn zeta in Hcase.
      destruct Hcase as (_ & _ & _ & Hbad & Hgood).
      destruct (coercible (field data (js "week_start_date"))).
      2:{ destruct (Hbad eq_refl) as (_ & _ & ->). discriminate. }
      destruct (Hgood eq_refl) as (_ & Hnull & Hmenu).
      destruct (classic_menu menu) as [Hm | [Hn Hu]].
      * destruct (Hnull Hm) as [_ ->]. discriminate.
      * destruct (Hmenu Hn Hu) as [_ ->].
        destruct (flatten menu); [discriminate|].
        destruct (map_result _ _); discriminate.
    + destruct (status r =? 404)%Z; subst; discriminate.
  - intros _ H. rewrite H in Hcase. exact Hcase.
  - intros r _ H Hok. rewrite H, Hok in Hcase.
    destruct (status r =? 404)%Z; exact Hcase.
  - intros r e _ H Hok Hj. rewrite H, Hok, Hj in Hcase. exact Hcase.
Qed.

Lemma fetchMenu_failures_witness :
  snd (run (respond not_found)
         (fetchMenu ascii_upper no_numerals (VStr (js "u-1"))
            (menu_loading (browser_with None menu_page))))
  = set_weekDate [] (set_dishGrid EmptyState (menu_loading (browser_with None menu_page)))
  /\ snd (run (respond not_found)
            (fetchMenu ascii_upper no_numerals (VObj [(js "toString", VNum (of_Z 1))])
               (menu_loading (browser_with None menu_page))))
     = set_dishGrid (ErrorView TypeError) (menu_loading (browser_with None menu_page)).
Proof.
  split.
  - apply (proj1 (proj2 (proj2 (proj2 (proj2 (proj2 (proj2
             (fetchMenu_failures ascii_upper no_numerals (respond not_found)
                (VStr (js "u-1")) (menu_loading (browser_with None menu_page)))))))))
             not_found eq_refl eq_refl eq_refl).
  - apply (proj1 (proj2 (proj2 (proj2 (proj2
             (fetchMenu_failures ascii_upper no_numerals (respond not_found)
                (VObj [(js "toString", VNum (of_Z 1))])
                (menu_loading (browser_with None menu_page)))))))
             eq_refl).
Defined.

(** X26.  [fetchMenu] after a success response with a JSON body, for a
    user id that has a string form.  The menu of the body becomes the
    current menu.  When the week of the body has no string form, the
    handler stops there: the week label, the dishes and the dialog are
    as before and the grid shows a TypeError.  Otherwise the week label
    is set from the body, and for a menu that is not [null] or
    [undefined] the dishes are the flat list of that menu; the grid
    shows the no-match message when the list is empty, one card per
    dish when every dish can be rendered, and the error of the first
    dish that cannot.  A body whose menu is [null] or missing leaves the
    list empty and shows an error. *)
Theorem fetchMenu_success (up : jsstring -> jsstring) (nts : Q -> jsstring)
    (net : request -> outcome) (userId : value) (v : view) (r : response)
    (data menu : value) :
  coercible userId = true ->
  net (menu_request nts v userId) = Responded r -> ok r = true ->
  json r = Return data -> get data (js "menu") = Return menu ->
  let v' := snd (run net (fetchMenu up nts userId v)) in
  let week := field data (js "week_start_date") in
  currentMenu (core v') = menu
  /\ modal v' = modal v
  /\ (coercible week = false ->
      weekDate v' = weekDate v
      /\ allDishes (core v') = allDishes (core v)
      /\ dishGrid v' = ErrorView TypeError)
  /\ (coercible week = true ->
      weekDate v' = js "Week of " ++ string_form nts week
      /\ (menu = VNull \/ menu = VUndefined ->
          allDishes (core v') = [] /\ dishGrid v' = ErrorView TypeError)
      /\ (menu <> VNull -> menu <> VUndefined ->
          allDishes (core v') = flatten menu
          /\ (flatten menu = [] -> dishGrid v' = NoMatches)
          /\ (flatten menu <> [] -> Forall renderable (flatten menu) ->
              exists cards,
                dishGrid v' = Cards cards /\ Forall2 (shows up) (flatten menu) cards)
          /\ (flatten menu <> [] ->
              forall e, map_result (dish_card up) (flatten menu) = Throw e ->
                        dishGrid v' = ErrorView e))).
Proof.
  intros Hid Hnet Hok Hj Hm.
  destruct (fetchMenu_cases up nts userId v Hid) as (k & Hf & Hk).
  destruct (Hk (net (menu_request nts v userId))) as (v' & Hv & Hcase).
  cbn zeta. rewrite Hf. cbn [run]. rewrite Hv. cbn [run snd].
  rewrite Hnet, Hok, Hj, Hm in Hcase. cbn zeta in Hcase.
  destruct Hcase as (H1 & H2 & _ & Hbad & Hgood).
  split; [exact H1|]. split; [exact H2|]. split; [exact Hbad|].
  intros Hw. destruct (Hgood Hw) as (H3 & Hnull & Hmenu).
  split; [exact H3|]. split; [exact Hnull|].
  intros Hn Hu. destruct (Hmenu Hn Hu) as [Hall Hgrid].
  split; [exact Hall|]. rewrite Hgrid. split; [|split].
  - intros ->. reflexivity.
  - intros Hne Hp. destruct (map_result_shows up _ Hp) as (cards & Hc & Hs).
    exists cards. rewrite Hc. destruct (flatten menu); [congruence|]. auto.
  - intros Hne e He. rewrite He. destruct (flatten menu); [congruence|]. reflexivity.
Qed.

Lemma fetchMenu_success_witness :
  allDishes (core (snd (run (respond menu_found)
                          (fetchMenu ascii_upper no_numerals (VStr (js "u-1"))
                             (menu_loading (browser_with None menu_page))))))
  = flatten one_dish_menu.
Proof.
  refine (proj1 (proj2 (proj2 (proj2 (proj2 (proj2
            (fetchMenu_success ascii_upper no_numerals (respond menu_found)
               (VStr (js "u-1")) (menu_loading (browser_with None menu_page))
               menu_found
               (VObj [(js "menu", one_dish_menu);
                      (js "week_start_date", VStr (js "2024-01-01"))])
               one_dish_menu eq_refl eq_refl eq_refl _ eq_refl))) eq_refl)) _ _)).
  - vm_compute. reflexivity.
  - discriminate.
  - discriminate.
Defined.

(** X27.  The menu page asks for the menu only when its guard lets the
    user stay.  The load handler never rejects.  When the policy table
    redirects, for a missing, undecodable or expired credential to the
    login page and for a session that is not onboarded to the root, it
    issues no request and leaves the grid as it was; otherwise it
    issues the one request of [fetchMenu] for the [user_id] of the
    session, or none when that id has no string form. *)
Theorem init_fetches_when_allowed (up : jsstring -> jsstring) (nts : Q -> jsstring)
    (net : request -> outcome) (now : Z) (v : view) :
  let st := effective_state now (window (core v)) in
  let v' := snd (run net (init up nts now v)) in
  let userId := field (getUserFromToken (window (core v))) (js "user_id") in
  fst (run net (init up nts now v)) = Return tt
  /\ requests net (init up nts now v)
     = match redirect_policy st menu_page with
       | Some _ => []
       | None => if coercible userId then [menu_request nts v userId] else []
       end
  /\ (forall target,
        redirect_policy st menu_page = Some target ->
        navigation (window (core v')) = Some target /\ dishGrid v' = dishGrid v)
  /\ (redirect_policy st menu_page = None -> coercible userId = false ->
      dishGrid v' = ErrorView TypeError).
Proof.
  intros st v' userId. subst st v' userId.
  destruct (menu_guard_run now (core v)) as (r & p' & Hg & Hnav & Horigin & Hr).
  assert (Hinit : init up nts now v
                  = match r with
                    | None => Done (Return tt) (set_core p' v)
                    | Some userId => fetchMenu up nts userId (set_core p' v)
                    end).
  { unfold init, abind, in_core, within. rewrite Hg. cbn [step_within step_bind].
    destruct r; reflexivity. }
  rewrite Hinit. clear Hinit Hg.
  destruct (redirect_policy (effective_state now (window (core v))) menu_page)
    as [target|] eqn:Hpol; subst r.
  - cbn [run requests fst snd]. split; [reflexivity|]. split; [reflexivity|].
    split; [|discriminate].
    intros t Ht. inversion Ht; subst. split; [|reflexivity].
    cbn [core set_core]. rewrite Hnav. unfold after_policy. rewrite Hpol. reflexivity.
  - fold (field (getUserFromToken (window (core v))) (js "user_id")).
    set (uid := field _ _).
    destruct (coercible uid) eqn:Hid.
    + destruct (fetchMenu_cases up nts uid (set_core p' v) Hid) as (k & Hf & Hk).
      destruct (Hk (net (menu_request nts (set_core p' v) uid))) as (v' & Hv & _).
      rewrite Hf. cbn [run requests]. rewrite Hv. cbn [run requests fst snd].
      split; [reflexivity|].
      split; [|split; [intros t Ht; discriminate | discriminate]].
      unfold menu_request. cbn [core set_core]. rewrite Horigin. reflexivity.
    + rewrite (fetchMenu_unsendable up nts uid _ Hid). cbn [run requests fst snd].
      split; [reflexivity|]. split; [reflexivity|].
      split; [intros t Ht; discriminate|]. intros _ _. reflexivity.
Qed.

Lemma init_fetches_when_allowed_witness :
  navigation (window (core (snd (run (respond menu_found)
                                   (init ascii_upper no_numerals some_day
                                      (menu_loading (browser_with None menu_page)))))))
  = Some login_page.
Proof.
  apply (proj1 (proj2 (proj2 (init_fetches_when_allowed ascii_upper no_numerals
                         (respond menu_found) some_day
                         (menu_loading (browser_with None menu_page))))) login_page).
  reflexivity.
Defined.

End GridProps.


(** ** Menu page, the earlier version *)

Section LegacyMenuProps.
Import Menu MenuView LegacyMenu.

(** X29.  The earlier menu page loads the menu of the user id in the
    query string, and of the stored user id when the query string has
    none or an empty one.  With no id from either place it issues no
    request and only shows its no-user message; with an id it issues
    the one request of [fetchMenu] for that id.  It never rejects. *)
Theorem legacy_init_picks_user_id (up : jsstring -> jsstring) (nts : Q -> jsstring)
    (net : request -> outcome) (param : option jsstring) (v : view) :
  fst (run net (init up nts param v)) = Return tt
  /\ (chosen_user_id param (window (core v)) = None ->
      init up nts param v = Done (Return tt) (set_dishGrid NoUserId v))
  /\ (forall userId,
        chosen_user_id param (window (core v)) = Some userId ->
        init up nts param v = fetchMenu up nts (VStr userId) v
        /\ requests net (init up nts param v) = [menu_request nts v (VStr userId)])
  /\ (forall c s, param = Some (c :: s) ->
                  chosen_user_id param (window (core v)) = Some (c :: s)).
Proof.
  assert (Hinit : init up nts param v
                  = match chosen_user_id param (window (core v)) with
                    | Some userId => fetchMenu up nts (VStr userId) v
                    | None => Done (Return tt) (set_dishGrid NoUserId v)
                    end).
  { unfold init, chosen_user_id, abind, gets, ret, modify.
    destruct param as [[|c s]|]; cbn [step_bind]; try reflexivity;
      destruct (localStorage (window (core v)) !! USER_ID_KEY) as [[|c s]|];
      reflexivity. }
  rewrite Hinit.
  split; [|split; [|split]].
  - destruct (chosen_user_id param (window (core v))) as [userId|]; [|reflexivity].
    destruct (fetchMenu_cases up nts (VStr userId) v eq_refl) as (k & Hf & Hk).
    destruct (Hk (net (menu_request nts v (VStr userId)))) as (v' & Hv & _).
    rewrite Hf. cbn [run]. rewrite Hv. reflexivity.
  - intros ->. reflexivity.
  - intros userId ->. split; [reflexivity|].
    destruct (fetchMenu_cases up nts (VStr userId) v eq_refl) as (k & Hf & Hk).
    destruct (Hk (net (menu_request nts v (VStr userId)))) as (v' & Hv & _).
    rewrite Hf. cbn [requests]. rewrite Hv. reflexivity.
  - intros c s ->. reflexivity.
Qed.

Lemma legacy_init_picks_user_id_witness :
  init ascii_upper no_numerals (Some []) (menu_loading (browser_with None menu_page))
  = Done (Return tt) (set_dishGrid NoUserId (menu_loading (browser_with None menu_page))).
Proof.
  apply (proj1 (proj2 (legacy_init_picks_user_id ascii_upper no_numerals
                         (respond not_found) (Some [])
                         (menu_loading (browser_with None menu_page))))).
  reflexivity.
Defined.

End LegacyMenuProps.
